(** * Bulk importer of the product catalogue: a model of [uploader.py],
      [dbase.py] and the read side of [app.py] / [products.py].

    The Python code is embedded shallowly.  Python values are an inductive
    type, dictionaries are association lists in insertion order, the calls
    to the outside world (clock, file system, DynamoDB, S3) append to a log
    and take their answers from oracles that may look at the whole log, and
    exceptions are an explicit result. *)

From Stdlib Require Import ZArith List String Ascii Bool Lia PrimFloat.
From Stdlib Require Import DecimalString.
Import ListNotations.

Open Scope string_scope.
Open Scope Z_scope.

(** ** Python values *)

Module Py.

(** The values [yaml.safe_load] hands to the importer.  Beside the plain
    ones these are bytes ([!!binary]), sets ([!!set]) and objects of other
    classes (a date, a timestamp, a pair of an ordered mapping).  Each of
    them carries its [str()]; bytes also carry their content and a set its
    size, which decide their truth and their length; [VOther] is true and
    has no length.  Keys of mappings are strings. *)
#[warnings="-register-all"]
Inductive value : Type :=
| VStr (s : string)
| VInt (n : Z)
| VFloat (f : float)
| VBool (b : bool)
| VList (l : list value)
| VDict (d : list (string * value))
| VNone
| VBytes (repr : string) (content : list Z)
| VSet (repr : string) (size : nat)
| VOther (repr : string).

Definition dict := list (string * value).

(** Classes, for [isinstance]. *)
Inductive pytype :=
  TStr | TInt | TFloat | TBool | TList | TDict | TNoneType | TBytes | TSet | TObject.

Definition type_of (v : value) : pytype :=
  match v with
  | VStr _ => TStr
  | VInt _ => TInt
  | VFloat _ => TFloat
  | VBool _ => TBool
  | VList _ => TList
  | VDict _ => TDict
  | VNone => TNoneType
  | VBytes _ _ => TBytes
  | VSet _ _ => TSet
  | VOther _ => TObject
  end.

Definition pytype_eqb (a b : pytype) : bool :=
  match a, b with
  | TStr, TStr | TInt, TInt | TFloat, TFloat | TBool, TBool
  | TList, TList | TDict, TDict | TNoneType, TNoneType
  | TBytes, TBytes | TSet, TSet | TObject, TObject => true
  | _, _ => false
  end.

(** [issubclass]: every class is a subclass of itself, and [bool] is a
    subclass of [int]. *)
Definition issubclass (a b : pytype) : bool :=
  pytype_eqb a b || (pytype_eqb a TBool && pytype_eqb b TInt).

(** [isinstance(v, (t1, ..., tn))]. *)
Definition isinstance (v : value) (ts : list pytype) : bool :=
  existsb (issubclass (type_of v)) ts.

(** [str(n)] for an integer. *)
Definition str_int (n : Z) : string := NilZero.string_of_int (Z.to_int n).

Definition str_bool (b : bool) : string := if b then "True" else "False".

Section Str.
(** [str()] of a float and [repr()] of a list or dictionary are Python's
    own; they are taken as given. *)
Variable float_str : float -> string.
Variable container_repr : value -> string.

(** [str(v)], also what an f-string field [{v}] renders. *)
Definition py_str (v : value) : string :=
  match v with
  | VStr s => s
  | VInt n => str_int n
  | VFloat f => float_str f
  | VBool b => str_bool b
  | VNone => "None"
  | VBytes r _ | VSet r _ | VOther r => r
  | VList _ | VDict _ => container_repr v
  end.
End Str.

(** Truth value of an object, as [not v] tests it. *)
Definition truthy (v : value) : bool :=
  match v with
  | VStr s => negb (String.eqb s "")
  | VInt n => negb (n =? 0)
  | VFloat f => negb (PrimFloat.eqb f 0%float)
  | VBool b => b
  | VList l => match l with [] => false | _ => true end
  | VDict d => match d with [] => false | _ => true end
  | VNone => false
  | VBytes _ content => match content with [] => false | _ => true end
  | VSet _ size => match size with O => false | _ => true end
  | VOther _ => true
  end.

(** *** Dictionaries *)

(** [d.get(k)] as an option; the first binding of a key is the binding. *)
Fixpoint dict_get (k : string) (d : dict) : option value :=
  match d with
  | [] => None
  | (k', v) :: d' => if String.eqb k k' then Some v else dict_get k d'
  end.

(** [k in d]. *)
Definition dict_contains (k : string) (d : dict) : bool :=
  match dict_get k d with Some _ => true | None => false end.

(** [d.get(k, default)]. *)
Definition dict_get_default (k : string) (default : value) (d : dict) : value :=
  match dict_get k d with Some v => v | None => default end.

(** [d[k] = v]: an existing key keeps its place, a new key goes last. *)
Fixpoint dict_set (k : string) (v : value) (d : dict) : dict :=
  match d with
  | [] => [(k, v)]
  | (k', v') :: d' =>
      if String.eqb k k' then (k', v) :: d' else (k', v') :: dict_set k v d'
  end.

(** *** Slices *)

(** One bound of [l[start:stop]] for a list of length [n]: a negative index
    counts from the end, and the result is clamped to [0..n]. *)
Definition slice_bound (n i : Z) : Z :=
  if i <? 0 then Z.max 0 (i + n) else Z.min i n.

(** [l[start:stop]]. *)
Definition slice {A : Type} (l : list A) (start stop : Z) : list A :=
  let n := Z.of_nat (List.length l) in
  let lo := slice_bound n start in
  let hi := slice_bound n stop in
  firstn (Z.to_nat (hi - lo)) (skipn (Z.to_nat lo) l).

(** *** Paths *)

(** [s.endswith(c)] for one character. *)
Fixpoint endswith_char (c : ascii) (s : string) : bool :=
  match s with
  | EmptyString => false
  | String a EmptyString => Ascii.eqb a c
  | String _ s' => endswith_char c s'
  end.

(** One round of the loop of [posixpath.join]. *)
Definition join_step (path b : string) : string :=
  if String.prefix "/" b then b
  else if String.eqb path "" || endswith_char "/"%char path then path ++ b
  else path ++ "/" ++ b.

(** [os.path.join(a, *p)] on strings. *)
Definition os_path_join (a : string) (p : list string) : string :=
  fold_left join_step p a.

End Py.

(** ** The outside world and the effects of the program *)

Module Sys.
Import Py.

(** What the process does that can be seen from outside, in the order it
    is done: the calls to the file system, the clock and the AWS clients,
    the making of the S3 client, and the records the [@debug] decorator logs
    when a decorated function is entered, returns, or fails ([EError] stands
    for the three error records). *)
Inductive event : Type :=
| EMakedirs (path : string)
| ES3Client
| EOpen (path : string)
| ENow
| EExists (path : string)
| EConnect
| EPutItem (table : string) (item : value)
| EUploadFile (filename bucket key : string)
| EEnter (func : string)
| EExit (func : string)
| EError (func : string).

(** How a call to an AWS client ends: it returns, raises
    [botocore.exceptions.ClientError], or raises another exception of the
    library. *)
Inductive outcome := Returns | RaisesClientError | RaisesOther.

(** How the making of the S3 client ends: it is made, or [boto3] raises an
    exception that is a [ValueError] (a region of the wrong form), or
    another exception (an unknown profile). *)
Inductive setup := SetUp | FailsValueError | FailsOther.

(** What the program cannot decide itself.  An answer that can change
    while the process runs is a function of all the events so far.
    - [float_str], [container_repr]: [str()] of a float, [repr()] of a list
      or dictionary;
    - [getenv]: the environment, once [load_dotenv] has run;
    - [open_read]: the text of a file, [None] when the file is not there;
    - [yaml_safe_load]: the document of a text, [None] when it does not
      parse;
    - [utcnow_isoformat]: [datetime.utcnow().isoformat()];
    - [path_exists]: [os.path.exists];
    - [makedirs]: whether [os.makedirs(path, exist_ok=True)] returns;
    - [connect_ok]: whether a session and a DynamoDB client can be made;
    - [s3_client]: the making of the session and the S3 client of
      [DataUploader.__init__];
    - [put_item], [upload_file]: the calls to the two stores. *)
Record World : Type := {
  float_str : float -> string;
  container_repr : value -> string;
  getenv : string -> option string;
  makedirs : list event -> string -> bool;
  s3_client : list event -> setup;
  open_read : list event -> string -> option string;
  yaml_safe_load : string -> option value;
  utcnow_isoformat : list event -> string;
  path_exists : list event -> string -> bool;
  connect_ok : list event -> bool;
  put_item : list event -> string -> value -> outcome;
  upload_file : list event -> string -> string -> string -> outcome
}.

(** [str(v)] in a world. *)
Definition str (W : World) : value -> string :=
  py_str (float_str W) (container_repr W).

(** The exceptions of the program; [OSError] is the one of [os.makedirs]
    (a [FileNotFoundError] for an empty path, among others), [LibraryError]
    is any exception of boto3 other than [ClientError] that is no
    [ValueError]. *)
Inductive exn : Type :=
| OSError
| FileNotFoundError
| YAMLError
| ValueError
| TypeError
| AttributeError
| KeyError
| ClientError
| LibraryError
| SystemExit (code : Z).

(** [except Exception] catches everything but [SystemExit]. *)
Definition is_Exception (e : exn) : bool :=
  match e with SystemExit _ => false | _ => true end.

(** The exception an outcome raises, if it raises. *)
Definition exn_of (o : outcome) : option exn :=
  match o with
  | Returns => None
  | RaisesClientError => Some ClientError
  | RaisesOther => Some LibraryError
  end.

(** The mutable state of the process: whether [Dbase.client] is set, and the
    calls made. *)
Record State : Type := { client : bool; log : list event }.

(** A computation returns a value or raises, and leaves a state. *)
Inductive result (A : Type) : Type :=
| Ok (a : A)
| Raise (e : exn).
Arguments Ok {A} a.
Arguments Raise {A} e.

Definition M (A : Type) : Type := State -> result A * State.

Definition ret {A} (a : A) : M A := fun s => (Ok a, s).

Definition raise {A} (e : exn) : M A := fun s => (Raise e, s).

Definition bind {A B} (m : M A) (k : A -> M B) : M B :=
  fun s => match m s with
           | (Ok a, s') => k a s'
           | (Raise e, s') => (Raise e, s')
           end.

(** [try: m  except ...: h]: [h e] is the body of the clause that matches
    [e], if one does. *)
Definition try_except {A} (m : M A) (h : exn -> option (M A)) : M A :=
  fun s => match m s with
           | (Ok a, s') => (Ok a, s')
           | (Raise e, s') =>
               match h e with
               | Some k => k s'
               | None => (Raise e, s')
               end
           end.

(** One call to the outside: the answer is read off the log so far, then the
    call is appended. *)
Definition call {A} (ask : list event -> A) (e : event) : M A :=
  fun s => (Ok (ask (log s)), {| client := client s; log := log s ++ [e] |}).

(** A record written by the logger. *)
Definition emit (e : event) : M unit :=
  fun s => (Ok tt, {| client := client s; log := log s ++ [e] |}).

Definition set_client (b : bool) : M unit :=
  fun s => (Ok tt, {| client := b; log := log s |}).

Definition get_client : M bool := fun s => (Ok (client s), s).

(** An AWS call that returns nothing: it returns or raises. *)
Definition aws_call (ask : list event -> outcome) (e : event) : M unit :=
  bind (call ask e)
       (fun o => match exn_of o with Some x => raise x | None => ret tt end).

(** Exit status of the process for the result of [main]: a normal return is
    0, [sys.exit(c)] is [c], an exception nobody caught is 1. *)
Definition exit_status {A} (r : result A) : Z :=
  match r with
  | Ok _ => 0
  | Raise (SystemExit c) => c
  | Raise _ => 1
  end.

End Sys.

Declare Scope py_scope.
Delimit Scope py_scope with py.
Notation "x <- m ;; k" := (Sys.bind m (fun x => k))
  (at level 100, m at next level, right associativity) : py_scope.
Notation "' p <- m ;; k" := (Sys.bind m (fun x => match x with p => k end))
  (at level 100, p pattern, m at next level, right associativity) : py_scope.
Notation "m ;;; k" := (Sys.bind m (fun _ => k))
  (at level 100, right associativity) : py_scope.

(** ** [debug.py] *)

Module Debug.
Import Sys.
Open Scope py_scope.

(** The decorator [debug]: log the entry, run the function, log the exit;
    an [Exception] is logged and raised again. *)
Definition debug {A} (name : string) (func : M A) : M A :=
  emit (EEnter name) ;;;
  try_except
    (result <- func ;;
     emit (EExit name) ;;;
     ret result)
    (fun e => if is_Exception e then Some (emit (EError name) ;;; raise e) else None).

End Debug.

(** ** [dbase.py] *)

Module Dbase.
Import Py Sys Debug.
Open Scope py_scope.

(** The one-entry dictionary [{tag: payload}]. *)
Definition tagged (tag : string) (payload : value) : value :=
  VDict [(tag, payload)].

Section WithWorld.
Variable W : World.

(** [convert_to_dynamodb_format], the function local to [add_item].  The
    tests are made in the order of the source. *)
Fixpoint convert_to_dynamodb_format (v : value) : value :=
  if isinstance v [TStr] then tagged "S" v
  else if isinstance v [TInt; TFloat] then tagged "N" (VStr (str W v))
  else if isinstance v [TBool] then tagged "BOOL" v
  else match v with
       | VList l => tagged "L" (VList (map convert_to_dynamodb_format l))
       | VDict d =>
           tagged "M"
             (VDict (map (fun kv => (fst kv, convert_to_dynamodb_format (snd kv))) d))
       | VNone => tagged "NULL" (VBool true)
       | _ => tagged "S" (VStr (str W v))
       end.

(** [{k: convert_to_dynamodb_format(v) for k, v in item.items()}]. *)
Definition convert_item (item : dict) : dict :=
  map (fun kv => (fst kv, convert_to_dynamodb_format (snd kv))) item.

(** [Dbase._connect], first as written and then as decorated. *)
Definition _connect_raw : M bool :=
  ok <- call (connect_ok W) EConnect ;;
  set_client ok ;;;
  ret ok.

Definition _connect : M bool := debug "_connect" _connect_raw.

(** The [try] block of [add_item]; [item.items()] needs a dictionary. *)
Definition add_item_body (table_name : string) (item : value) : M bool :=
  match item with
  | VDict d =>
      let dynamodb_item := VDict (convert_item d) in
      aws_call (fun l => put_item W l table_name dynamodb_item)
               (EPutItem table_name dynamodb_item) ;;;
      ret true
  | _ => raise AttributeError
  end.

(** The [try] statement of [add_item], with its two [except] clauses. *)
Definition add_item_try (table_name : string) (item : value) : M bool :=
  try_except (add_item_body table_name item)
    (fun e => match e with
              | ClientError => Some (ret false)
              | _ => if is_Exception e then Some (ret false) else None
              end).

(** [Dbase.add_item]. *)
Definition add_item_raw (table_name : string) (item : value) : M bool :=
  c <- get_client ;;
  if negb c then
    connected <- _connect ;;
    if negb connected then ret false else add_item_try table_name item
  else add_item_try table_name item.

Definition add_item (table_name : string) (item : value) : M bool :=
  debug "add_item" (add_item_raw table_name item).
End WithWorld.

End Dbase.

(** ** The read side: [index] of [app.py] and [get_product] of [products.py] *)

Module App.
Import Py.

(** [v.get(list(v.keys())[0])]: [None] stands for the exception raised when
    [v] is no dictionary ([AttributeError]) or an empty one ([IndexError]). *)
Definition first_payload (v : value) : option value :=
  match v with
  | VDict d =>
      match map fst d with
      | k :: _ => Some (dict_get_default k VNone d)
      | [] => None
      end
  | _ => None
  end.

(** [{k: v.get(list(v.keys())[0]) for k, v in product.items()}]. *)
Fixpoint from_dynamodb_format (product : dict) : option dict :=
  match product with
  | [] => Some []
  | (k, v) :: rest =>
      match first_payload v with
      | Some x =>
          match from_dynamodb_format rest with
          | Some rest' => Some ((k, x) :: rest')
          | None => None
          end
      | None => None
      end
  end.

End App.

(** ** [uploader.py] *)

Module Uploader.
Import Py Sys Debug.
Open Scope py_scope.

(** [self.config]. *)
Record Config : Type := { data_path : string; image_path : string; s3_bucket : string }.

(** The five counters of [bulk_upload_products]. *)
Record Counters : Type := {
  db_success : nat;
  db_failure : nat;
  image_success : nat;
  image_failure : nat;
  default_image_count : nat
}.

Definition zero_counters : Counters :=
  {| db_success := 0; db_failure := 0; image_success := 0; image_failure := 0;
     default_image_count := 0 |}.

Definition incr_db_success (c : Counters) : Counters :=
  {| db_success := S (db_success c); db_failure := db_failure c;
     image_success := image_success c; image_failure := image_failure c;
     default_image_count := default_image_count c |}.

Definition incr_db_failure (c : Counters) : Counters :=
  {| db_success := db_success c; db_failure := S (db_failure c);
     image_success := image_success c; image_failure := image_failure c;
     default_image_count := default_image_count c |}.

Definition incr_image_success (c : Counters) : Counters :=
  {| db_success := db_success c; db_failure := db_failure c;
     image_success := S (image_success c); image_failure := image_failure c;
     default_image_count := default_image_count c |}.

Definition incr_image_failure (c : Counters) : Counters :=
  {| db_success := db_success c; db_failure := db_failure c;
     image_success := image_success c; image_failure := S (image_failure c);
     default_image_count := default_image_count c |}.

Definition incr_default_image_count (c : Counters) : Counters :=
  {| db_success := db_success c; db_failure := db_failure c;
     image_success := image_success c; image_failure := image_failure c;
     default_image_count := S (default_image_count c) |}.

(** The default of the parameter [default_image] of [get_image_path], and the
    literal written into the record by [bulk_upload_products]. *)
Definition default_image_name : string := "product_image_coming_soon.png".

(** The strings of a list of values, when they all are strings. *)
Fixpoint strings_of (vs : list value) : option (list string) :=
  match vs with
  | [] => Some []
  | VStr s :: rest =>
      match strings_of rest with
      | Some ss => Some (s :: ss)
      | None => None
      end
  | _ :: _ => None
  end.

(** [os.path.join(a, *p)] on values: a component that is no string raises
    [TypeError]. *)
Definition os_path_join_values (a : string) (p : list value) : M string :=
  match strings_of p with
  | Some ss => ret (os_path_join a ss)
  | None => raise TypeError
  end.

(** [product[k]]. *)
Definition getitem (k : string) (d : dict) : M value :=
  match dict_get k d with
  | Some v => ret v
  | None => raise KeyError
  end.

(** [product[k] = v] for a record that may be any value: only a dictionary
    supports it here. *)
Definition setitem (product : value) (k : string) (v : value) : M dict :=
  match product with
  | VDict d => ret (dict_set k v d)
  | _ => raise TypeError
  end.

(** [len(products)]. *)
Definition py_len (v : value) : M Z :=
  match v with
  | VList l => ret (Z.of_nat (List.length l))
  | VStr s => ret (Z.of_nat (String.length s))
  | VDict d => ret (Z.of_nat (List.length d))
  | VBytes _ content => ret (Z.of_nat (List.length content))
  | VSet _ size => ret (Z.of_nat size)
  | _ => raise TypeError
  end.

(** The characters of a string, as the one-character strings iteration
    yields. *)
Fixpoint chars (s : string) : list value :=
  match s with
  | EmptyString => []
  | String a s' => VStr (String a EmptyString) :: chars s'
  end.

(** The items of bytes, as the integers iteration yields. *)
Definition ints (content : list Z) : list value := map VInt content.

(** [for product in products[start:stop]]: the elements the loop visits.  A
    dictionary and a set cannot be sliced. *)
Definition sliced_items (v : value) (start stop : Z) : M (list value) :=
  match v with
  | VList l => ret (slice l start stop)
  | VStr s => ret (slice (chars s) start stop)
  | VBytes _ content => ret (slice (ints content) start stop)
  | _ => raise TypeError
  end.

(** What [parser.parse_args()] makes of the command line: the arguments, or
    the help text and status 0, or a usage error and status 2.  The profile
    and the region go to the sessions, whose answers are the world's. *)
Inductive command_line : Type :=
| Parsed (yaml_file table_name : string) (start : Z) (count : option Z)
| Help
| Usage.

Section WithWorld.
Variable W : World.

(** [os.makedirs(path, exist_ok=True)]. *)
Definition os_makedirs (path : string) : M unit :=
  made <- call (fun l => makedirs W l path) (EMakedirs path) ;;
  if negb made then raise OSError else ret tt.

(** [DataUploader._load_config]. *)
Definition _load_config_raw : M Config :=
  let data_path := match getenv W "DATA_PATH" with Some p => p | None => "./data" end in
  let image_path :=
    match getenv W "IMAGE_PATH" with Some p => p | None => "./data/images" end in
  match getenv W "S3_BUCKET" with
  | Some s3_bucket =>
      if negb (truthy (VStr s3_bucket)) then raise ValueError
      else
        os_makedirs data_path ;;;
        os_makedirs image_path ;;;
        ret {| data_path := data_path; image_path := image_path;
               s3_bucket := s3_bucket |}
  | None => raise ValueError
  end.

Definition _load_config : M Config := debug "_load_config" _load_config_raw.

(** The session and the S3 client of [DataUploader.__init__]. *)
Definition make_s3_client : M unit :=
  made <- call (s3_client W) ES3Client ;;
  match made with
  | SetUp => ret tt
  | FailsValueError => raise ValueError
  | FailsOther => raise LibraryError
  end.

(** [DataUploader.__init__]: [Dbase.__init__] connects once and keeps going
    when that fails; then the configuration is loaded and the S3 client
    made. *)
Definition init : M Config :=
  set_client false ;;;
  Dbase._connect W ;;;
  config <- _load_config ;;
  make_s3_client ;;;
  ret config.

(** [DataUploader.upload_image_to_s3]. *)
Definition upload_image_to_s3_raw (image_path : string) (product : dict)
    (bucket_name : string) : M bool :=
  try_except
    (found <- call (fun l => path_exists W l image_path) (EExists image_path) ;;
     if negb found then ret false
     else
       let category := dict_get_default "category" (VStr "uncategorized") product in
       let image_name := dict_get_default "image" VNone product in
       if negb (truthy image_name) then ret false
       else
         let s3_key := str W category ++ "/" ++ str W image_name in
         try_except
           (aws_call (fun l => upload_file W l image_path bucket_name s3_key)
                     (EUploadFile image_path bucket_name s3_key) ;;;
            ret true)
           (fun e => match e with ClientError => Some (ret false) | _ => None end))
    (fun e => if is_Exception e then Some (ret false) else None).

Definition upload_image_to_s3 (image_path : string) (product : dict)
    (bucket_name : string) : M bool :=
  debug "upload_image_to_s3" (upload_image_to_s3_raw image_path product bucket_name).

(** [DataUploader.get_image_path]. *)
Definition get_image_path_raw (product : dict) (base_image_path default_image : string)
    : M (string * bool) :=
  if negb (dict_contains "image" product)
  then ret (os_path_join base_image_path [default_image], true)
  else
    let category := dict_get_default "category" (VStr "uncategorized") product in
    image <- getitem "image" product ;;
    image_file_path <- os_path_join_values base_image_path [category; image] ;;
    found <- call (fun l => path_exists W l image_file_path) (EExists image_file_path) ;;
    if negb found
    then ret (os_path_join base_image_path [default_image], true)
    else ret (image_file_path, false).

Definition get_image_path (product : dict) (base_image_path default_image : string)
    : M (string * bool) :=
  debug "get_image_path" (get_image_path_raw product base_image_path default_image).

(** The body of the loop of [bulk_upload_products] for one record. *)
Definition process_product (config : Config) (table_name : string)
    (product : value) (c : Counters) : M (value * Counters) :=
  now <- call (utcnow_isoformat W) ENow ;;
  product <- setitem product "created_at" (VStr now) ;;
  written <- Dbase.add_item W table_name (VDict product) ;;
  if written then
    let c := incr_db_success c in
    '(image_file_path, is_default) <-
       get_image_path product (image_path config) default_image_name ;;
    let c := if is_default then incr_default_image_count c else c in
    let product :=
      if is_default then dict_set "image" (VStr "product_image_coming_soon.png") product
      else product in
    uploaded <- upload_image_to_s3 image_file_path product (s3_bucket config) ;;
    if uploaded then ret (VDict product, incr_image_success c)
    else ret (VDict product, incr_image_failure c)
  else ret (VDict product, incr_db_failure c).

(** The loop: the records as the run leaves them, and the counters. *)
Fixpoint process_products (config : Config) (table_name : string)
    (products_subset : list value) (c : Counters) : M (list value * Counters) :=
  match products_subset with
  | [] => ret ([], c)
  | product :: rest =>
      '(product', c') <- process_product config table_name product c ;;
      '(rest', c'') <- process_products config table_name rest c' ;;
      ret (product' :: rest', c'')
  end.

(** [end_index] of [bulk_upload_products]. *)
Definition end_index (start_index : Z) (count : option Z) (len : Z) : Z :=
  let e := match count with Some n => start_index + n | None => len end in
  Z.min e len.

(** The window of a list of records (lines 146 to 150). *)
Definition select_window {A : Type} (products : list A) (start_index : Z)
    (count : option Z) : list A :=
  slice products start_index
    (end_index start_index count (Z.of_nat (List.length products))).

(** The [try] block of [bulk_upload_products].  [None] is the early
    [return] of an empty document; otherwise the records of the window as
    the loop leaves them and the counters of the summary. *)
Definition bulk_upload_body (config : Config) (yaml_file table_name : string)
    (start_index : Z) (count : option Z) : M (option (list value * Counters)) :=
  let yaml_path := os_path_join (data_path config) [yaml_file] in
  file <- call (fun l => open_read W l yaml_path) (EOpen yaml_path) ;;
  match file with
  | None => raise FileNotFoundError
  | Some text =>
      match yaml_safe_load W text with
      | None => raise YAMLError
      | Some products =>
          if negb (truthy products) then ret None
          else
            len <- py_len products ;;
            let end_index := end_index start_index count len in
            products_subset <- sliced_items products start_index end_index ;;
            r <- process_products config table_name products_subset zero_counters ;;
            ret (Some r)
      end
  end.

(** [DataUploader.bulk_upload_products]: the three [except] clauses all
    end in [sys.exit(1)]. *)
Definition bulk_upload_products_raw (config : Config) (yaml_file table_name : string)
    (start_index : Z) (count : option Z) : M (option (list value * Counters)) :=
  try_except (bulk_upload_body config yaml_file table_name start_index count)
    (fun e => match e with
              | FileNotFoundError => Some (raise (SystemExit 1))
              | YAMLError => Some (raise (SystemExit 1))
              | _ => if is_Exception e then Some (raise (SystemExit 1)) else None
              end).

Definition bulk_upload_products (config : Config) (yaml_file table_name : string)
    (start_index : Z) (count : option Z) : M (option (list value * Counters)) :=
  debug "bulk_upload_products"
    (bulk_upload_products_raw config yaml_file table_name start_index count).

(** [main]: [parse_args] ends the process itself when it does not give the
    arguments. *)
Definition main_raw (cmd : command_line) : M (option (list value * Counters)) :=
  match cmd with
  | Parsed yaml_file table_name start count =>
      try_except
        (config <- init ;;
         bulk_upload_products config yaml_file table_name start count)
        (fun e => match e with ValueError => Some (raise (SystemExit 1)) | _ => None end)
  | Help => raise (SystemExit 0)
  | Usage => raise (SystemExit 2)
  end.

Definition main (cmd : command_line) : M (option (list value * Counters)) :=
  debug "main" (main_raw cmd).

(** The process: [main] from a fresh state, and its exit status. *)
Definition initial : State := {| client := false; log := [] |}.

Definition run (cmd : command_line) : Z :=
  exit_status (fst (main cmd initial)).
End WithWorld.

End Uploader.

(** ** The vocabulary of the properties *)

Module Props.
Import Py Sys Debug Dbase Uploader.

(** The scalars the read side gets back in some form: strings and numbers. *)
Definition string_or_number (v : value) : bool :=
  match v with
  | VStr _ | VInt _ | VFloat _ => true
  | _ => false
  end.

(** Events of the image step: looking for a file, uploading one, and the
    decorator's records for the two functions of the step. *)
Definition image_event (e : event) : bool :=
  match e with
  | EExists _ | EUploadFile _ _ _ => true
  | EEnter f | EExit f | EError f =>
      String.eqb f "get_image_path" || String.eqb f "upload_image_to_s3"
  | _ => false
  end.

(** Writes to one of the two stores. *)
Definition store_write (e : event) : bool :=
  match e with
  | EPutItem _ _ | EUploadFile _ _ _ => true
  | _ => false
  end.

(** An upload attempt: [upload_image_to_s3] is entered. *)
Definition attempt (e : event) : bool :=
  match e with
  | EEnter f => String.eqb f "upload_image_to_s3"
  | _ => false
  end.

(** The number of upload attempts in a log. *)
Definition attempts (l : list event) : nat := List.length (filter attempt l).

(** [s'] extends [s] by events that all satisfy [P]. *)
Definition extends (P : event -> bool) (s s' : State) : Prop :=
  exists d, log s' = (log s ++ d)%list /\ forallb P d = true.

(** Whatever the outcome, [m] only adds events that satisfy [P]. *)
Definition traces {A} (P : event -> bool) (m : M A) : Prop :=
  forall s, extends P s (snd (m s)).

(** [m] always returns a value. *)
Definition total {A} (m : M A) : Prop :=
  forall s, exists a, fst (m s) = Ok a.

(** Events of the record write. *)
Definition db_event (e : event) : bool :=
  match e with
  | EConnect | EPutItem _ _ => true
  | EEnter f | EExit f | EError f => String.eqb f "add_item" || String.eqb f "_connect"
  | _ => false
  end.

(** Events of [get_image_path]. *)
Definition lookup_event (e : event) : bool :=
  match e with
  | EExists _ => true
  | EEnter f | EExit f | EError f => String.eqb f "get_image_path"
  | _ => false
  end.

(** Events inside [upload_image_to_s3], once it is entered. *)
Definition upload_event (e : event) : bool :=
  match e with
  | EExists _ | EUploadFile _ _ _ => true
  | EExit f | EError f => String.eqb f "upload_image_to_s3"
  | _ => false
  end.

(** The state once the clock has been read. *)
Definition ticked (s : State) : State :=
  {| client := client s; log := log s ++ [ENow] |}.

(** The record with the time stamp read in state [s]. *)
Definition stamped (W : World) (s : State) (d : dict) : dict :=
  dict_set "created_at" (VStr (utcnow_isoformat W (log s))) d.

(** The record as uploaded: with the default file name when the default
    image is used. *)
Definition with_default (is_default : bool) (d : dict) : dict :=
  if is_default then dict_set "image" (VStr "product_image_coming_soon.png") d else d.


(** A record the loop can take through all its steps: a mapping whose
    [image], when there is one, is a string, and whose [category] is then
    absent or a string. *)
Definition record_ok (v : value) : bool :=
  match v with
  | VDict d =>
      match dict_get "image" d with
      | None => true
      | Some (VStr _) =>
          match dict_get "category" d with
          | None | Some (VStr _) => true
          | Some _ => false
          end
      | Some _ => false
      end
  | _ => false
  end.

(** A document that is a list of such records. *)
Definition document_ok (doc : value) : bool :=
  match doc with
  | VList l => forallb record_ok l
  | _ => false
  end.

(** The elements of a document that can be sliced and iterated: the records
    of a list, the characters of a string. *)
Definition elements (doc : value) : option (list value) :=
  match doc with
  | VList l => Some l
  | VStr text => Some (chars text)
  | VBytes _ content => Some (ints content)
  | _ => None
  end.

(** [self.config] when the bucket is [bucket]. *)
Definition config_of (W : World) (bucket : string) : Config :=
  {| data_path := match getenv W "DATA_PATH" with Some p => p | None => "./data" end;
     image_path :=
       match getenv W "IMAGE_PATH" with Some p => p | None => "./data/images" end;
     s3_bucket := bucket |}.

(** The path [bulk_upload_products] opens. *)
Definition yaml_path_of (W : World) (yaml_file : string) : string :=
  os_path_join (match getenv W "DATA_PATH" with Some p => p | None => "./data" end)
    [yaml_file].

(** The two directories [_load_config] makes. *)
Definition data_path_of (W : World) : string :=
  match getenv W "DATA_PATH" with Some p => p | None => "./data" end.

Definition image_path_of (W : World) : string :=
  match getenv W "IMAGE_PATH" with Some p => p | None => "./data/images" end.

(** The set-up of [DataUploader.__init__] goes through: both directories
    can be made and the S3 client too, whenever they are asked for. *)
Definition set_up (W : World) : Prop :=
  (forall l, makedirs W l (data_path_of W) = true) /\
  (forall l, makedirs W l (image_path_of W) = true) /\
  (forall l, s3_client W l = SetUp).

(** The events of [main] up to the configuration, and up to the end of a
    set-up that goes through. *)
Definition configuring : list event :=
  [EEnter "main"; EEnter "_connect"; EConnect; EExit "_connect"; EEnter "_load_config"].

Definition startup (W : World) : list event :=
  (configuring ++ [EMakedirs (data_path_of W); EMakedirs (image_path_of W);
                   EExit "_load_config"; ES3Client])%list.

(** Opening a file. *)
Definition is_open (e : event) : bool :=
  match e with EOpen _ => true | _ => false end.

End Props.

(** ** A small concrete world, for running the model *)

Module Demo.
Import Py Sys.

(** Does the item carry the identifier [id]? *)
Definition has_id (id : string) (item : value) : bool :=
  match item with
  | VDict d =>
      match dict_get "id" d with
      | Some (VDict [(_, VStr i)]) => String.eqb i id
      | _ => false
      end
  | _ => false
  end.

(** A world where the bucket is configured, [./data/products.yaml] parses
    to [doc], the files [on_disk] exist, the table rejects the item whose
    identifier is [rejected], and every upload is accepted.  Its documents
    hold no float and no field that is a list or a mapping, so [float_str]
    and [container_repr] are never asked. *)
Definition world (doc : value) (on_disk : list string) (rejected : string) : World :=
  {| float_str := fun _ => "";
     container_repr := fun _ => "";
     getenv := fun k => if String.eqb k "S3_BUCKET" then Some "catalog" else None;
     makedirs := fun _ _ => true;
     s3_client := fun _ => SetUp;
     open_read := fun _ path =>
       if String.eqb path "./data/products.yaml" then Some "products" else None;
     yaml_safe_load := fun text => if String.eqb text "products" then Some doc else None;
     utcnow_isoformat := fun _ => "2024-05-01T10:00:00";
     path_exists := fun _ path => existsb (String.eqb path) on_disk;
     connect_ok := fun _ => true;
     put_item := fun _ _ item => if has_id rejected item then RaisesClientError else Returns;
     upload_file := fun _ _ _ _ => Returns |}.

Definition shoe_fields : dict :=
  [("id", VStr "p1"); ("category", VStr "shoes"); ("image", VStr "a.png");
   ("price", VInt 40)].

Definition hat_fields : dict :=
  [("id", VStr "p2"); ("category", VStr "hats"); ("price", VInt 15)].

Definition sock_fields : dict :=
  [("id", VStr "p3"); ("image", VStr "s.png"); ("active", VBool true)].

Definition shoe : value := VDict shoe_fields.
Definition hat : value := VDict hat_fields.
Definition sock : value := VDict sock_fields.

Definition catalogue : value := VList [shoe; hat; sock].

Definition disk : list string :=
  ["./data/images/shoes/a.png"; "./data/images/uncategorized/s.png";
   "./data/images/product_image_coming_soon.png"].

Definition config : Uploader.Config :=
  {| Uploader.data_path := "./data"; Uploader.image_path := "./data/images";
     Uploader.s3_bucket := "catalog" |}.

(** The table rejects the hat; everything else goes through. *)
Definition hat_rejected : World := world catalogue disk "p2".

(** Nothing is rejected. *)
Definition all_accepted : World := world catalogue disk "".

(** A record whose image is a number, and the world whose file holds it. *)
Definition numbered_fields : dict :=
  [("id", VStr "p9"); ("category", VStr "shoes"); ("image", VInt 42)].

Definition numbered_image : World := world (VList [VDict numbered_fields]) disk "".

(** The world whose file holds the empty list. *)
Definition empty_list : World := world (VList []) disk "".

End Demo.

(** ** The image key of the read side *)

Module ReadSide.
Import Py Sys.

(** The key under which [index] and [get_product] look for the image of a
    decoded product: [f"{product['category']}/{product['image']}"] when both
    fields are there, and no key otherwise. *)
Definition image_key (W : World) (product : dict) : option string :=
  if dict_contains "image" product && dict_contains "category" product
  then Some (str W (dict_get_default "category" VNone product) ++ "/"
             ++ str W (dict_get_default "image" VNone product))
  else None.

End ReadSide.

(** ** More vocabulary *)

Module Shapes.
Import Py Sys Debug Dbase Uploader Props.

(** A value of the form the conversion produces: a one-entry dictionary
    whose tag is [S] or [N] over a string, [NULL] over [True], [L] over a
    list of such values, or [M] over a mapping to such values. *)
Fixpoint produced_shape (v : value) : bool :=
  match v with
  | VDict [(tag, payload)] =>
      match payload with
      | VStr _ => String.eqb tag "S" || String.eqb tag "N"
      | VBool b => String.eqb tag "NULL" && b
      | VList l => String.eqb tag "L" && forallb produced_shape l
      | VDict m => String.eqb tag "M" && forallb (fun kv => produced_shape (snd kv)) m
      | _ => false
      end
  | _ => false
  end.

(** What the read side gets back for a field that was written as [v]: the
    payload under the tag, one level deep. *)
Definition read_back (W : World) (v : value) : value :=
  match v with
  | VStr s => VStr s
  | VInt _ | VFloat _ | VBool _ | VBytes _ _ | VSet _ _ | VOther _ => VStr (str W v)
  | VList l => VList (map (convert_to_dynamodb_format W) l)
  | VDict d => VDict (convert_item W d)
  | VNone => VBool true
  end.

(** Did the call return? *)
Definition returned (o : outcome) : bool :=
  match o with Returns => true | _ => false end.

(** The item [add_item] sends for a record. *)
Definition written_item (W : World) (record : dict) : value :=
  VDict (convert_item W record).

(** The key [upload_image_to_s3] builds for a record. *)
Definition upload_key (W : World) (product : dict) : string :=
  str W (dict_get_default "category" (VStr "uncategorized") product) ++ "/"
  ++ str W (dict_get_default "image" VNone product).

(** The record has an image name that is not empty (nor otherwise false). *)
Definition has_image_name (product : dict) : bool :=
  truthy (dict_get_default "image" VNone product).

(** Calls of [put_item] and of [upload_file] in a log. *)
Definition is_put (e : event) : bool :=
  match e with EPutItem _ _ => true | _ => false end.

Definition is_upload (e : event) : bool :=
  match e with EUploadFile _ _ _ => true | _ => false end.

Definition puts (l : list event) : nat := List.length (filter is_put l).

Definition uploads (l : list event) : nat := List.length (filter is_upload l).

(** An event that is no [put_item], or a [put_item] of an item whose
    [created_at] is a tagged string. *)
Definition stamp_written (e : event) : bool :=
  match e with
  | EPutItem _ (VDict item) =>
      match dict_get "created_at" item with
      | Some (VDict [(tag, VStr _)]) => String.eqb tag "S"
      | _ => false
      end
  | EPutItem _ _ => false
  | _ => true
  end.

(** Is the value a mapping? *)
Definition is_mapping (v : value) : bool :=
  match v with VDict _ => true | _ => false end.

(** The exceptions with which the process can end so that its status is 1:
    [sys.exit(1)], or any [Exception]. *)
Definition ends_with_one (e : exn) : bool :=
  match e with
  | SystemExit c => c =? 1
  | _ => true
  end.

(** Whenever [m] raises, the exception satisfies [P]. *)
Definition raises {A} (P : exn -> bool) (m : M A) : Prop :=
  forall s e s', m s = (Raise e, s') -> P e = true.

End Shapes.

(** ** More concrete worlds *)

Module Cases.
Import Py Sys.

(** The world of the catalogue with the bucket not configured. *)
Definition no_bucket : World :=
  {| float_str := float_str Demo.all_accepted;
     container_repr := container_repr Demo.all_accepted;
     getenv := fun _ => None;
     makedirs := makedirs Demo.all_accepted;
     s3_client := s3_client Demo.all_accepted;
     open_read := open_read Demo.all_accepted;
     yaml_safe_load := yaml_safe_load Demo.all_accepted;
     utcnow_isoformat := utcnow_isoformat Demo.all_accepted;
     path_exists := path_exists Demo.all_accepted;
     connect_ok := connect_ok Demo.all_accepted;
     put_item := put_item Demo.all_accepted;
     upload_file := upload_file Demo.all_accepted |}.

(** The world of the catalogue where no DynamoDB client can be made. *)
Definition no_client : World :=
  {| float_str := float_str Demo.all_accepted;
     container_repr := container_repr Demo.all_accepted;
     getenv := getenv Demo.all_accepted;
     makedirs := makedirs Demo.all_accepted;
     s3_client := s3_client Demo.all_accepted;
     open_read := open_read Demo.all_accepted;
     yaml_safe_load := yaml_safe_load Demo.all_accepted;
     utcnow_isoformat := utcnow_isoformat Demo.all_accepted;
     path_exists := path_exists Demo.all_accepted;
     connect_ok := fun _ => false;
     put_item := put_item Demo.all_accepted;
     upload_file := upload_file Demo.all_accepted |}.

(** The world of the catalogue where the directories cannot be made. *)
Definition no_directory : World :=
  {| float_str := float_str Demo.all_accepted;
     container_repr := container_repr Demo.all_accepted;
     getenv := getenv Demo.all_accepted;
     makedirs := fun _ _ => false;
     s3_client := s3_client Demo.all_accepted;
     open_read := open_read Demo.all_accepted;
     yaml_safe_load := yaml_safe_load Demo.all_accepted;
     utcnow_isoformat := utcnow_isoformat Demo.all_accepted;
     path_exists := path_exists Demo.all_accepted;
     connect_ok := connect_ok Demo.all_accepted;
     put_item := put_item Demo.all_accepted;
     upload_file := upload_file Demo.all_accepted |}.

(** The world of the catalogue with a profile that is not known: neither
    client can be made. *)
Definition no_profile : World :=
  {| float_str := float_str Demo.all_accepted;
     container_repr := container_repr Demo.all_accepted;
     getenv := getenv Demo.all_accepted;
     makedirs := makedirs Demo.all_accepted;
     s3_client := fun _ => FailsOther;
     open_read := open_read Demo.all_accepted;
     yaml_safe_load := yaml_safe_load Demo.all_accepted;
     utcnow_isoformat := utcnow_isoformat Demo.all_accepted;
     path_exists := path_exists Demo.all_accepted;
     connect_ok := fun _ => false;
     put_item := put_item Demo.all_accepted;
     upload_file := upload_file Demo.all_accepted |}.

End Cases.

(** ** The web applications: [app.py], [products.py] and the rest of
       [dbase.py]

    The web applications are processes of their own.  Their model has its
    own log, since they make other calls than the importer, and its own
    exceptions, since their handlers look at the code of a [ClientError].
    Values, dictionaries, the decoding of the read side and the image key
    are those above.  The [logger] calls of the routes are left out, like
    the [print] calls of the importer, and [render_template] is taken to
    return. *)

Module Web.
Import Py Sys.

(** What a web process does, in order: the records of the [@debug]
    decorator, the attempt to connect, and the calls to DynamoDB and S3. *)
Inductive wevent : Type :=
| WEnter (func : string)
| WExit (func : string)
| WError (func : string)
| WConnect
| WGetItem (table key : value)
| WCreateTable (table : value)
| WWaitTableExists (table : value)
| WDeleteTable (table : value)
| WWaitTableNotExists (table : value)
| WHeadObject (bucket : value) (key : string)
| WPresign (bucket : value) (key : string)
| WSession (profile : option value) (region : value)
| WCallerIdentity.

(** A [ClientError] with the code of its response, or any other
    [Exception]. *)
Inductive wexn : Type :=
| WClientError (code : string)
| WOtherError.

(** How a call to AWS ends. *)
Inductive answer (A : Type) : Type :=
| Gives (a : A)
| Throws (e : wexn).
Arguments Gives {A} a.
Arguments Throws {A} e.

(** What a web process cannot decide itself; the answers may depend on all
    the events so far.
    - [runtime]: [str()] of floats and containers, and the environment;
    - [exn_text]: [str(e)] of an exception;
    - [connects]: whether a session and a DynamoDB client can be made;
    - [get_item_answer]: the response of [get_item], with its ['Item'] when
      it has one;
    - [session_answer]: [boto3.Session] of [aws_login], with the profile
      when one is given, and the region;
    - [identity_answer]: [get_caller_identity] and the reading of its
      response;
    - [jsonifies]: whether [jsonify] can serialise an object of another
      class, given by its [str()];
    - the other fields: the calls named. *)
Record Services : Type := {
  runtime : World;
  exn_text : wexn -> string;
  connects : list wevent -> bool;
  get_item_answer : list wevent -> value -> value -> answer (option dict);
  create_table_answer : list wevent -> value -> answer unit;
  wait_exists_answer : list wevent -> value -> answer unit;
  delete_table_answer : list wevent -> value -> answer unit;
  wait_not_exists_answer : list wevent -> value -> answer unit;
  head_object_answer : list wevent -> value -> string -> answer unit;
  presign_answer : list wevent -> value -> string -> answer string;
  session_answer : list wevent -> option value -> value -> answer unit;
  identity_answer : list wevent -> answer unit;
  jsonifies : string -> bool
}.

(** The state of a web process: whether [db.client] is set, and the
    events. *)
Record wstate : Type := { wclient : bool; wlog : list wevent }.

Inductive wresult (A : Type) : Type :=
| Returned (a : A)
| Raised (e : wexn).
Arguments Returned {A} a.
Arguments Raised {A} e.

Definition WM (A : Type) : Type := wstate -> wresult A * wstate.

Definition wret {A} (a : A) : WM A := fun s => (Returned a, s).

Definition wraise {A} (e : wexn) : WM A := fun s => (Raised e, s).

Definition wbind {A B} (m : WM A) (k : A -> WM B) : WM B :=
  fun s => match m s with
           | (Returned a, s') => k a s'
           | (Raised e, s') => (Raised e, s')
           end.

(** [try: m  except ...: h]; a clause that raises again is a handler that
    raises. *)
Definition wtry {A} (m : WM A) (h : wexn -> option (WM A)) : WM A :=
  fun s => match m s with
           | (Returned a, s') => (Returned a, s')
           | (Raised e, s') =>
               match h e with
               | Some k => k s'
               | None => (Raised e, s')
               end
           end.

(** An event that has no answer. *)
Definition wlogged (e : wevent) : WM unit :=
  fun s => (Returned tt, {| wclient := wclient s; wlog := wlog s ++ [e] |}).

(** A call to AWS: the answer is read off the events so far, the call is
    recorded, and a thrown exception is raised. *)
Definition aws {A} (ask : list wevent -> answer A) (e : wevent) : WM A :=
  fun s =>
    let s' := {| wclient := wclient s; wlog := wlog s ++ [e] |} in
    match ask (wlog s) with
    | Gives a => (Returned a, s')
    | Throws x => (Raised x, s')
    end.

Definition wget_client : WM bool := fun s => (Returned (wclient s), s).

End Web.

Declare Scope web_scope.
Delimit Scope web_scope with web.
Notation "x <- m ;; k" := (Web.wbind m (fun x => k))
  (at level 100, m at next level, right associativity) : web_scope.
Notation "m ;;; k" := (Web.wbind m (fun _ => k))
  (at level 100, right associativity) : web_scope.

(** *** [debug.py] and [dbase.py] in a web process *)

Module WebDbase.
Import Py Sys Web.
Open Scope web_scope.

(** The decorator [debug]; every exception of a web process is an
    [Exception]. *)
Definition debug {A} (name : string) (func : WM A) : WM A :=
  wlogged (WEnter name) ;;;
  wtry
    (result <- func ;;
     wlogged (WExit name) ;;;
     wret result)
    (fun e => Some (wlogged (WError name) ;;; wraise e)).

Section WithServices.
Variable S : Services.

(** [Dbase._connect]. *)
Definition _connect_raw : WM bool :=
  fun s =>
    (Returned (connects S (wlog s)),
     {| wclient := connects S (wlog s); wlog := wlog s ++ [WConnect] |}).

Definition _connect : WM bool := debug "_connect" _connect_raw.

(** The guard at the head of every method: [if not self.client: if not
    self._connect(): return <failed>]. *)
Definition with_client {A} (failed : A) (body : WM A) : WM A :=
  c <- wget_client ;;
  if negb c then
    connected <- _connect ;;
    if negb connected then wret failed else body
  else body.

(** [Key={'id': {'S': item_id}}]. *)
Definition key_of (item_id : string) : value :=
  VDict [("id", Dbase.tagged "S" (VStr item_id))].

(** [Dbase.get_item]; [None] is Python's [None]. *)
Definition get_item_raw (table_name : value) (item_id : string) : WM (option dict) :=
  with_client None
    (wtry
       (response <- aws (fun l => get_item_answer S l table_name (key_of item_id))
                        (WGetItem table_name (key_of item_id)) ;;
        match response with
        | Some item => wret (Some item)
        | None => wret None
        end)
       (fun e => match e with
                 | WClientError _ => Some (wret None)
                 | _ => Some (wret None)
                 end)).

Definition get_item (table_name : value) (item_id : string) : WM (option dict) :=
  debug "get_item" (get_item_raw table_name item_id).

(** [table.meta] for the response [table] of [self.client.create_table]:
    the client of [_connect] is a low-level one, its response is a
    dictionary, and a dictionary has no attribute [meta]
    ([AttributeError]). *)
Definition meta_of_response : WM unit := wraise WOtherError.

(** [Dbase.create_table]. *)
Definition create_table_raw (table_name : value) : WM bool :=
  with_client false
    (wtry
       (aws (fun l => create_table_answer S l table_name) (WCreateTable table_name) ;;;
        meta_of_response ;;;
        aws (fun l => wait_exists_answer S l table_name) (WWaitTableExists table_name) ;;;
        wret true)
       (fun e => match e with
                 | WClientError code =>
                     if String.eqb code "ResourceInUseException"
                     then Some (wret true) else Some (wret false)
                 | _ => Some (wret false)
                 end)).

Definition create_table (table_name : value) : WM bool :=
  debug "create_table" (create_table_raw table_name).

(** [Dbase.delete_table]. *)
Definition delete_table_raw (table_name : value) : WM bool :=
  with_client false
    (wtry
       (aws (fun l => delete_table_answer S l table_name) (WDeleteTable table_name) ;;;
        aws (fun l => wait_not_exists_answer S l table_name)
            (WWaitTableNotExists table_name) ;;;
        wret true)
       (fun e => match e with
                 | WClientError code =>
                     if String.eqb code "ResourceNotFoundException"
                     then Some (wret true) else Some (wret false)
                 | _ => Some (wret false)
                 end)).

Definition delete_table (table_name : value) : WM bool :=
  debug "delete_table" (delete_table_raw table_name).
End WithServices.

End WebDbase.

(** *** [products.py] *)

Module Products.
Import Py Sys Web WebDbase.
Open Scope web_scope.

Definition DEFAULT_TABLE_NAME : string := "Products".
Definition DEFAULT_S3_BUCKET : string := "productsimageopensearchbucket".

(** A response of a route: what [jsonify] is given, and the status. *)
Record response : Type := { body : value; status_code : Z }.

Section WithServices.
Variable S : Services.

(** [os.getenv(name, default)] after the module has put [default] into the
    environment where the variable was unset or empty. *)
Definition setting (name default : string) : string :=
  match getenv (runtime S) name with
  | Some v => if negb (truthy (VStr v)) then default else v
  | None => default
  end.

(** [get_s3_image_url] of [products.py]. *)
Definition get_s3_image_url (image_key : string) : WM (option string) :=
  wtry
    (let bucket_name := VStr (setting "S3_BUCKET" DEFAULT_S3_BUCKET) in
     found <-
       wtry
         (aws (fun l => head_object_answer S l bucket_name image_key)
              (WHeadObject bucket_name image_key) ;;;
          wret true)
         (fun e => match e with
                   | WClientError code =>
                       if String.eqb code "404" then Some (wret false)
                       else Some (wraise e)
                   | _ => None
                   end) ;;
     if negb found then wret None
     else
       url <- aws (fun l => presign_answer S l bucket_name image_key)
                  (WPresign bucket_name image_key) ;;
       wret (Some url))
    (fun e => Some (wret None)).

(** Can [jsonify] serialise the value?  Strings, numbers, booleans, [None],
    and lists and dictionaries of such, it can; bytes and sets it cannot;
    for an object of another class the answer is the service's. *)
Fixpoint json_ok (v : value) : bool :=
  match v with
  | VList l => forallb json_ok l
  | VDict d => forallb (fun kv => json_ok (snd kv)) d
  | VBytes _ _ | VSet _ _ => false
  | VOther r => jsonifies S r
  | _ => true
  end.

(** [return jsonify(body), status]. *)
Definition jsonify (v : value) (status : Z) : WM response :=
  if json_ok v then wret {| body := v; status_code := status |}
  else wraise WOtherError.

(** The three bodies [get_product] hands to [jsonify]. *)
Definition success_body (data : dict) : value :=
  VDict [("status", VStr "success"); ("data", VDict data)].

Definition not_found_body : value :=
  VDict [("status", VStr "error"); ("message", VStr "Product not found")].

Definition error_body (e : wexn) : value :=
  VDict [("status", VStr "error");
         ("message", VStr ("Error retrieving product: " ++ exn_text S e))].

(** The decoding of an item, raising where the comprehension raises. *)
Definition decode (product : dict) : WM dict :=
  match App.from_dynamodb_format product with
  | Some product_dict => wret product_dict
  | None => wraise WOtherError
  end.

(** [get_product], the route [/api/products/<product_id>]. *)
Definition get_product (product_id : string) : WM response :=
  wtry
    (let table_name := VStr (setting "DYNAMODB_TABLE_NAME" DEFAULT_TABLE_NAME) in
     product <- get_item S table_name product_id ;;
     match product with
     | Some item =>
         if truthy (VDict item) then
           product_dict <- decode item ;;
           match ReadSide.image_key (runtime S) product_dict with
           | Some image_key =>
               image_url <- get_s3_image_url image_key ;;
               match image_url with
               | Some url =>
                   if truthy (VStr url)
                   then jsonify (success_body
                                   (dict_set "image_url" (VStr url) product_dict)) 200
                   else jsonify (success_body product_dict) 200
               | None => jsonify (success_body product_dict) 200
               end
           | None => jsonify (success_body product_dict) 200
           end
         else jsonify not_found_body 404
     | None => jsonify not_found_body 404
     end)
    (fun e => Some (jsonify (error_body e) 500)).
End WithServices.

End Products.

(** *** [aws_auth.py] and the other routes of [products.py] *)

Module Routes.
Import Py Sys Web WebDbase Products.
Open Scope web_scope.

(** [needle in data] for a string [needle]: a key of a mapping, a member of
    a list, a part of a string; [None] stands for the [TypeError] of the
    other values.  [request.get_json] gives no bytes, no set and no object
    of another class. *)
Definition contains_str (needle : string) (data : value) : option bool :=
  match data with
  | VDict d => Some (dict_contains needle d)
  | VList l =>
      Some (existsb (fun v => match v with
                              | VStr x => String.eqb x needle
                              | _ => false
                              end) l)
  | VStr s => Some (match String.index 0 needle s with Some _ => true | None => false end)
  | _ => None
  end.

(** [data[key]] and [data.get(key, default)] for a string [key]: only a
    mapping has them ([TypeError], [AttributeError]). *)
Definition subscript (data : value) (key : string) : WM value :=
  match data with
  | VDict d =>
      match dict_get key d with
      | Some v => wret v
      | None => wraise WOtherError
      end
  | _ => wraise WOtherError
  end.

Definition get_method (data : value) (key : string) (default : value) : WM value :=
  match data with
  | VDict d => wret (dict_get_default key default d)
  | _ => wraise WOtherError
  end.

(** [Dbase.get_table_schema]. *)
Definition get_table_schema : value :=
  VDict [("id", VStr "S"); ("current_stock", VStr "N"); ("name", VStr "S");
         ("category", VStr "S"); ("style", VStr "S"); ("description", VStr "S");
         ("price", VStr "N"); ("image", VStr "S"); ("gender_affinity", VStr "S");
         ("where_visible", VStr "S")].

Section WithServices.
Variable S : Services.

(** [request.get_json()]: the body of the request, or an exception. *)
Definition get_json (request_json : option value) : WM value :=
  match request_json with
  | Some data => wret data
  | None => wraise WOtherError
  end.

(** [aws_login]: the session, or [None]; [true] stands for the session. *)
Definition aws_login (profile_name region_name : value) : WM bool :=
  wtry
    ((if truthy profile_name
      then aws (fun l => session_answer S l (Some profile_name) region_name)
               (WSession (Some profile_name) region_name)
      else aws (fun l => session_answer S l None region_name)
               (WSession None region_name)) ;;;
     aws (identity_answer S) WCallerIdentity ;;;
     wret true)
    (fun e => match e with
              | WClientError _ => Some (wret false)
              | _ => Some (wret false)
              end).

(** [login_aws], the route [/api/aws/login]. *)
Definition login_aws (request_json : option value) : WM response :=
  wtry
    (data <- get_json request_json ;;
     profile_name <- get_method data "profile_name" VNone ;;
     region_name <- get_method data "region_name" (VStr "us-east-1") ;;
     session <- aws_login profile_name region_name ;;
     if session then
       jsonify S (VDict [("status", VStr "success");
                         ("message", VStr "Successfully authenticated with AWS");
                         ("region", region_name)]) 200
     else
       jsonify S (VDict [("status", VStr "error");
                         ("message", VStr "Failed to authenticate with AWS")]) 401)
    (fun e =>
       Some (jsonify S (VDict [("status", VStr "error");
                               ("message", VStr ("Error during AWS authentication: "
                                                 ++ exn_text S e))]) 500)).

(** [Dbase(...)] followed by a method of the new object: the object has a
    client of its own, which [__init__] tries to set; the client of [db] is
    not touched. *)
Definition on_new_instance {A} (method : WM A) : WM A :=
  fun s =>
    match (_connect S ;;; method) {| wclient := false; wlog := wlog s |} with
    | (r, s') => (r, {| wclient := wclient s; wlog := wlog s' |})
    end.

(** [create_table], the route [/api/dynamodb/create-table]. *)
Definition create_table (request_json : option value) : WM response :=
  wtry
    (data <- get_json request_json ;;
     match contains_str "table_name" data with
     | None => wraise WOtherError
     | Some present =>
         if negb present then
           jsonify S (VDict [("status", VStr "error");
                             ("message", VStr "Missing required field: table_name")]) 400
         else
           table_name <- subscript data "table_name" ;;
           profile_name <- get_method data "profile_name" VNone ;;
           region_name <- get_method data "region_name" (VStr "us-east-1") ;;
           success <- on_new_instance (WebDbase.create_table S table_name) ;;
           if success then
             jsonify S (VDict [("status", VStr "success");
                               ("message", VStr ("Table " ++ str (runtime S) table_name
                                                 ++ " created successfully"));
                               ("table_name", table_name);
                               ("schema", get_table_schema);
                               ("region", region_name)]) 201
           else
             jsonify S (VDict [("status", VStr "error");
                               ("message", VStr ("Failed to create table "
                                                 ++ str (runtime S) table_name))]) 500
     end)
    (fun e =>
       Some (jsonify S (VDict [("status", VStr "error");
                               ("message", VStr ("Error creating DynamoDB table: "
                                                 ++ exn_text S e))]) 500)).
End WithServices.

End Routes.

(** *** [app.py] *)

Module Page.
Import Py Sys Web WebDbase.
Open Scope web_scope.

(** What [index] hands to the template. *)
Record page : Type := {
  product : option dict;
  image_url : option string;
  error : option string
}.

Section WithServices.
Variable S : Services.

(** [os.getenv(name)]: a string, or [None]. *)
Definition env (name : string) : value :=
  match getenv (runtime S) name with
  | Some v => VStr v
  | None => VNone
  end.

(** [get_s3_image_url] of [app.py]: only a [ClientError] is caught. *)
Definition get_s3_image_url (image_key : string) : WM (option string) :=
  wtry
    (url <- aws (fun l => presign_answer S l (env "S3_BUCKET") image_key)
                (WPresign (env "S3_BUCKET") image_key) ;;
     wret (Some url))
    (fun e => match e with
              | WClientError _ => Some (wret None)
              | _ => None
              end).

(** [index]: the method of the request and the [product_id] of its form. *)
Definition index (method : string) (form_product_id : option string) : WM page :=
  let nothing := {| product := None; image_url := None; error := None |} in
  if String.eqb method "POST" then
    match form_product_id with
    | Some product_id =>
        if truthy (VStr product_id) then
          item <- get_item S (env "DYNAMODB_TABLE_NAME") product_id ;;
          match item with
          | Some item =>
              if truthy (VDict item) then
                product_dict <- Products.decode item ;;
                match ReadSide.image_key (runtime S) product_dict with
                | Some image_key =>
                    url <- get_s3_image_url image_key ;;
                    wret {| product := Some product_dict; image_url := url;
                            error := None |}
                | None =>
                    wret {| product := Some product_dict; image_url := None;
                            error := None |}
                end
              else wret {| product := Some item; image_url := None;
                           error := Some "Product not found" |}
          | None => wret {| product := None; image_url := None;
                            error := Some "Product not found" |}
          end
        else wret nothing
    | None => wret nothing
    end
  else wret nothing.
End WithServices.

End Page.

(** *** Vocabulary and a concrete web world *)

Module WebShapes.
Import Py Sys Web WebDbase.

(** Is the exception a [ClientError] with this code? *)
Definition has_code (code : string) (e : wexn) : bool :=
  match e with
  | WClientError c => String.eqb c code
  | WOtherError => false
  end.

(** The state after a connection attempt made in state [s]. *)
Definition connected_from (S : Services) (s : wstate) : wstate :=
  {| wclient := connects S (wlog s ++ [WEnter "_connect"]);
     wlog := wlog s ++ [WEnter "_connect"; WConnect; WExit "_connect"] |}.

(** The state with more events. *)
Definition after_events (s : wstate) (l : list wevent) : wstate :=
  {| wclient := wclient s; wlog := wlog s ++ l |}.

(** The calls made of two in a row: the second only when the first
    returned. *)
Definition calls_made {A} (first : answer A) (e1 e2 : wevent) : list wevent :=
  match first with
  | Gives _ => [e1; e2]
  | Throws _ => [e1]
  end.

(** What [delete_table] answers, from the answers of its two calls:
    [True] when both return, or when the one that fails does so with a
    [ClientError] of the accepted code. *)
Definition table_call_result (accepted : string) (first second : answer unit) : bool :=
  match first with
  | Gives _ =>
      match second with
      | Gives _ => true
      | Throws e => has_code accepted e
      end
  | Throws e => has_code accepted e
  end.

(** What [Dbase.create_table] answers, from the answer of its call:
    [True] only when the call fails with a [ClientError] of code
    [ResourceInUseException]. *)
Definition create_table_result (first : answer unit) : bool :=
  match first with
  | Gives _ => false
  | Throws e => has_code "ResourceInUseException" e
  end.

(** The URL [get_s3_image_url] of [products.py] answers, from the answers
    of S3. *)
Definition url_of (head : answer unit) (presigned : answer string) : option string :=
  match head with
  | Gives _ =>
      match presigned with
      | Gives url => Some url
      | Throws _ => None
      end
  | Throws _ => None
  end.


(** The profile [aws_login] makes the session with, if any. *)
Definition profile_used (profile_name : value) : option value :=
  if truthy profile_name then Some profile_name else None.

(** Did both calls of [aws_login] return? *)
Definition logged_in (session identity : answer unit) : bool :=
  match session, identity with
  | Gives _, Gives _ => true
  | _, _ => false
  end.

(** What the decorated [_connect] records. *)
Definition connect_events : list wevent :=
  [WEnter "_connect"; WConnect; WExit "_connect"].

(** The fields [login_aws] and [create_table] read off a request. *)
Definition profile_of (d : dict) : value := dict_get_default "profile_name" VNone d.

Definition region_of (d : dict) : value :=
  dict_get_default "region_name" (VStr "us-east-1") d.

(** The bucket and the table [products.py] works with. *)
Definition bucket_of (S : Services) : value :=
  VStr (Products.setting S "S3_BUCKET" Products.DEFAULT_S3_BUCKET).

Definition table_of (S : Services) : value :=
  VStr (Products.setting S "DYNAMODB_TABLE_NAME" Products.DEFAULT_TABLE_NAME).

(** A record as the read side decodes it after the importer wrote it. *)
Definition decoded_record (W : World) (record : dict) : dict :=
  map (fun kv => (fst kv, Shapes.read_back W (snd kv))) record.

(** The item stored for the shoe of the catalogue, as the importer writes
    it: stamped, then converted. *)
Definition shoe_item : dict :=
  Dbase.convert_item Demo.all_accepted
    (Props.stamped Demo.all_accepted Uploader.initial Demo.shoe_fields).

(** A web world: the table holds the shoe under the identifier [p1] and
    nothing else, every object is in the bucket, and every URL asked for is
    [https://signed]. *)
Definition shop : Services :=
  {| runtime := Demo.all_accepted;
     exn_text := fun _ => "error";
     connects := fun _ => true;
     get_item_answer := fun _ _ key =>
       match key with
       | VDict [(_, VDict [(_, VStr id)])] =>
           if String.eqb id "p1" then Gives (Some shoe_item) else Gives None
       | _ => Gives None
       end;
     create_table_answer := fun _ _ => Throws (WClientError "ResourceInUseException");
     wait_exists_answer := fun _ _ => Gives tt;
     delete_table_answer := fun _ _ => Gives tt;
     wait_not_exists_answer := fun _ _ => Gives tt;
     head_object_answer := fun _ _ _ => Gives tt;
     presign_answer := fun _ _ _ => Gives "https://signed";
     session_answer := fun _ _ _ => Gives tt;
     identity_answer := fun _ => Gives tt;
     jsonifies := fun _ => false |}.

(** A state with the client set and nothing logged. *)
Definition ready : wstate := {| wclient := true; wlog := [] |}.

(** The same web world before the table is there: the call that creates it
    returns. *)
Definition new_account : Services :=
  {| runtime := runtime shop;
     exn_text := exn_text shop;
     connects := connects shop;
     get_item_answer := fun _ _ _ => Throws (WClientError "ResourceNotFoundException");
     create_table_answer := fun _ _ => Gives tt;
     wait_exists_answer := wait_exists_answer shop;
     delete_table_answer := delete_table_answer shop;
     wait_not_exists_answer := wait_not_exists_answer shop;
     head_object_answer := head_object_answer shop;
     presign_answer := presign_answer shop;
     session_answer := session_answer shop;
     identity_answer := identity_answer shop;
     jsonifies := jsonifies shop |}.

(** A web world without credentials, in which every call fails. *)
Definition offline : Services :=
  {| runtime := Demo.all_accepted;
     exn_text := fun _ => "error";
     connects := fun _ => false;
     get_item_answer := fun _ _ _ => Throws WOtherError;
     create_table_answer := fun _ _ => Throws WOtherError;
     wait_exists_answer := fun _ _ => Throws WOtherError;
     delete_table_answer := fun _ _ => Throws (WClientError "AccessDeniedException");
     wait_not_exists_answer := fun _ _ => Throws WOtherError;
     head_object_answer := fun _ _ _ => Throws (WClientError "403");
     presign_answer := fun _ _ _ => Throws WOtherError;
     session_answer := fun _ _ _ => Gives tt;
     identity_answer := fun _ => Throws (WClientError "InvalidClientTokenId");
     jsonifies := fun _ => false |}.

(** A state with no client and nothing logged. *)
Definition fresh : wstate := {| wclient := false; wlog := [] |}.

End WebShapes.

(** * Properties *)

(** ** The conversion to tagged values and back *)

Module DbaseFacts.
Import Py Sys Dbase Props.

Section WithWorld.
Variable W : World.

(** The conversion, read off by the class of the value. *)
Lemma convert_by_class (v : value) :
  convert_to_dynamodb_format W v =
  match v with
  | VStr s => tagged "S" (VStr s)
  | VInt n => tagged "N" (VStr (str_int n))
  | VFloat f => tagged "N" (VStr (float_str W f))
  | VBool b => tagged "N" (VStr (str_bool b))
  | VList l => tagged "L" (VList (map (convert_to_dynamodb_format W) l))
  | VDict d => tagged "M" (VDict (convert_item W d))
  | VNone => tagged "NULL" (VBool true)
  | VBytes r _ | VSet r _ | VOther r => tagged "S" (VStr r)
  end.
Proof. destruct v; reflexivity. Qed.

(** The test for [bool] comes after the test for [(int, float)], which a
    boolean already passes. *)
Lemma bool_is_instance_of_int (b : bool) :
  isinstance (VBool b) [TInt; TFloat] = true.
Proof. reflexivity. Qed.
End WithWorld.

(** C1.  A boolean field is not written in the tagged-bool form: the
    conversion answers the number form, with the text [True] or [False] as
    the payload, for every boolean and under every field name. *)
Theorem boolean_field_written_as_number :
  forall (W : World) (k : string) (b : bool),
    convert_item W [(k, VBool b)] = [(k, tagged "N" (VStr (str_bool b)))] /\
    convert_to_dynamodb_format W (VBool b) <> tagged "BOOL" (VBool b).
Proof.
  intros W k b. split.
  - reflexivity.
  - rewrite convert_by_class. unfold tagged. intros H. discriminate H.
Qed.

End DbaseFacts.

Module AppFacts.
Import Py Sys Dbase App Props.

(** The payload under the tag of a converted string or number. *)
Lemma first_payload_convert (W : World) (v : value) :
  string_or_number v = true ->
  first_payload (convert_to_dynamodb_format W v) = Some (VStr (str W v)).
Proof.
  destruct v; simpl; intros H; try discriminate H; reflexivity.
Qed.

(** C3, as the code has it.  For a record whose fields are strings and
    numbers, converting and reading back succeeds; a string comes back as
    it was, a number comes back as the string [str] renders it to. *)
Theorem roundtrip_strings_exact_numbers_rendered :
  forall (W : World) (record : dict),
    forallb (fun kv => string_or_number (snd kv)) record = true ->
    from_dynamodb_format (convert_item W record) =
    Some (map (fun kv => (fst kv,
                          match snd kv with
                          | VStr s => VStr s
                          | v => VStr (str W v)
                          end)) record).
Proof.
  intros W record. induction record as [|[k v] rest IH]; intros H.
  - reflexivity.
  - simpl in H. apply andb_prop in H. destruct H as [Hv Hrest].
    change (convert_item W ((k, v) :: rest))
      with ((k, convert_to_dynamodb_format W v) :: convert_item W rest).
    cbn [from_dynamodb_format].
    rewrite (first_payload_convert W v Hv), (IH Hrest).
    destruct v; simpl in Hv; try discriminate Hv; reflexivity.
Qed.

Lemma roundtrip_strings_exact_numbers_rendered_witness :
  from_dynamodb_format
    (convert_item (Demo.world Demo.catalogue Demo.disk "p2")
       [("id", VStr "p1"); ("price", VInt 40)]) =
  Some [("id", VStr "p1"); ("price", VStr "40")].
Proof.
  apply (roundtrip_strings_exact_numbers_rendered
           (Demo.world Demo.catalogue Demo.disk "p2")
           [("id", VStr "p1"); ("price", VInt 40)]).
  reflexivity.
Defined.

(** C3, as stated, fails on a number: the price 40 is read back as the
    string "40". *)
Lemma number_not_read_back :
  from_dynamodb_format
    (convert_item (Demo.world Demo.catalogue Demo.disk "p2") [("price", VInt 40)])
  <> Some [("price", VInt 40)].
Proof. vm_compute. intros H. discriminate H. Qed.

End AppFacts.

(** ** The window *)

Module WindowFacts.
Import Py Uploader.

Section Window.
Context {A : Type}.
Implicit Types (batch : list A) (start n : Z).

Lemma slice_from_start batch start (stop : Z) :
  0 <= start -> 0 <= stop ->
  slice batch start stop =
  firstn (Z.to_nat (Z.min stop (Z.of_nat (List.length batch)))
          - Z.to_nat (Z.min start (Z.of_nat (List.length batch))))
         (skipn (Z.to_nat (Z.min start (Z.of_nat (List.length batch)))) batch).
Proof.
  intros Hs He. unfold slice, slice_bound.
  destruct (Z.ltb_spec start 0); [lia|].
  destruct (Z.ltb_spec stop 0); [lia|].
  f_equal. lia.
Qed.

Lemma firstn_beyond (k : nat) (l : list A) :
  (List.length l <= k)%nat -> firstn k l = l.
Proof. intros H. apply firstn_all2. exact H. Qed.

Lemma window_whole batch : select_window batch 0 None = batch.
Proof.
  unfold select_window, end_index.
  rewrite slice_from_start by lia.
  rewrite !Z.min_id. rewrite (Z.min_l 0) by lia. simpl.
  apply firstn_beyond. lia.
Qed.

Lemma window_past_end batch start (count : option Z) :
  0 <= start -> Z.of_nat (List.length batch) <= start ->
  select_window batch start count = [].
Proof.
  intros H0 H. unfold select_window, slice.
  assert (Hlo : slice_bound (Z.of_nat (List.length batch)) start
                = Z.of_nat (List.length batch)).
  { unfold slice_bound. destruct (Z.ltb_spec start 0); lia. }
  rewrite Hlo, Nat2Z.id, skipn_all. apply firstn_nil.
Qed.

Lemma window_to_end batch start :
  0 <= start ->
  select_window batch start None = skipn (Z.to_nat start) batch.
Proof.
  intros H0. unfold select_window, end_index.
  rewrite slice_from_start by lia. rewrite !Z.min_id.
  destruct (Z.le_gt_cases start (Z.of_nat (List.length batch))) as [Hle|Hgt].
  - rewrite (Z.min_l start) by lia.
    apply firstn_beyond. rewrite length_skipn. lia.
  - rewrite (Z.min_r start) by lia. rewrite Nat2Z.id, skipn_all.
    rewrite skipn_all2 by lia. apply firstn_nil.
Qed.

Lemma window_count batch start n :
  0 <= start -> 0 <= n ->
  select_window batch start (Some n) =
  firstn (Z.to_nat n) (skipn (Z.to_nat start) batch).
Proof.
  intros H0 Hn. unfold select_window, end_index.
  rewrite slice_from_start by lia.
  destruct (Z.le_gt_cases start (Z.of_nat (List.length batch))) as [Hle|Hgt].
  - rewrite (Z.min_l start) by lia.
    destruct (Z.le_gt_cases (start + n) (Z.of_nat (List.length batch))) as [Hin|Hout].
    + rewrite !Z.min_l by lia. f_equal. lia.
    + rewrite (Z.min_r (start + n)) by lia. rewrite Z.min_id.
      rewrite !firstn_beyond; [reflexivity | | ]; rewrite length_skipn; lia.
  - rewrite (Z.min_r start) by lia. rewrite Nat2Z.id, skipn_all.
    rewrite skipn_all2 by lia. rewrite !firstn_nil. reflexivity.
Qed.
End Window.

(** C5.  The window is a slice with clamping: from 0 with no count it is
    the whole batch in order; from a start at or past the end it is empty,
    whatever the count; with no count it runs from [start] to the end; with
    a count it holds the [count] records from [start] on, or as many as are
    left when the batch has fewer. *)
Theorem select_window_is_clamped_slice :
  forall (A : Type) (batch : list A) (start : Z) (count : option Z),
    0 <= start ->
    select_window batch 0 None = batch /\
    (Z.of_nat (List.length batch) <= start -> select_window batch start count = []) /\
    select_window batch start None = skipn (Z.to_nat start) batch /\
    (forall n, 0 <= n ->
       select_window batch start (Some n) =
       firstn (Z.to_nat n) (skipn (Z.to_nat start) batch)) /\
    (forall n, Z.of_nat (List.length batch) <= start + n ->
       select_window batch start (Some n) = select_window batch start None).
Proof.
  intros A batch start count H0. repeat split.
  - apply window_whole.
  - intros H. apply window_past_end; assumption.
  - apply window_to_end; assumption.
  - intros n Hn. apply window_count; assumption.
  - intros n Hn. unfold select_window, end_index.
    rewrite Z.min_r by lia. rewrite Z.min_id. reflexivity.
Qed.

Lemma select_window_is_clamped_slice_witness :
  select_window [10; 20; 30] 0 None = [10; 20; 30] /\
  select_window [10; 20; 30] 1 (Some 5) = [20; 30].
Proof.
  destruct (select_window_is_clamped_slice Z [10; 20; 30] 1 (Some 5)) as (Hall & _ & _ & Hn & _).
  - lia.
  - split; [exact Hall | exact (Hn 5 ltac:(lia))].
Defined.

End WindowFacts.

(** ** What a computation adds to the log *)

Module Trace.
Import Py Sys Debug Props.

Lemma extends_refl P s : extends P s s.
Proof. exists []. split; [symmetry; apply app_nil_r | reflexivity]. Qed.

Lemma extends_trans P s1 s2 s3 :
  extends P s1 s2 -> extends P s2 s3 -> extends P s1 s3.
Proof.
  intros (d1 & E1 & F1) (d2 & E2 & F2). exists (d1 ++ d2)%list. split.
  - rewrite E2, E1. symmetry. apply app_assoc.
  - rewrite forallb_app, F1, F2. reflexivity.
Qed.

Lemma extends_weaken (P Q : event -> bool) s s' :
  (forall e, P e = true -> Q e = true) -> extends P s s' -> extends Q s s'.
Proof.
  intros HPQ (d & E & F). exists d. split; [exact E|].
  rewrite forallb_forall in *. intros e He. apply HPQ, F, He.
Qed.

Lemma extends_one P s e :
  P e = true -> extends P s {| client := client s; log := log s ++ [e] |}.
Proof. intros H. exists [e]. split; [reflexivity | simpl; rewrite H; reflexivity]. Qed.

Lemma attempts_app l d : attempts (l ++ d)%list = (attempts l + attempts d)%nat.
Proof. unfold attempts. rewrite filter_app, length_app. reflexivity. Qed.

Lemma attempts_snoc l e :
  attempts (l ++ [e])%list = (attempts l + if attempt e then 1 else 0)%nat.
Proof. rewrite attempts_app. unfold attempts. simpl. destruct (attempt e); reflexivity. Qed.

Lemma attempts_none d :
  forallb (fun e => negb (attempt e)) d = true -> attempts d = 0%nat.
Proof.
  unfold attempts. induction d as [|e d IH]; simpl; intros H; [reflexivity|].
  apply andb_prop in H. destruct H as [He Hd].
  destruct (attempt e); [discriminate He | exact (IH Hd)].
Qed.

Lemma extends_attempts s s' :
  extends (fun e => negb (attempt e)) s s' -> attempts (log s') = attempts (log s).
Proof.
  intros (d & E & F). rewrite E, attempts_app, (attempts_none d F). lia.
Qed.

Section Rules.
Context {A B : Type}.
Variable P : event -> bool.

Lemma traces_ret (a : A) : traces P (ret a).
Proof. intros s. apply extends_refl. Qed.

Lemma traces_raise (e : exn) : traces P (@raise A e).
Proof. intros s. apply extends_refl. Qed.

Lemma traces_call (ask : list event -> A) (e : event) :
  P e = true -> traces P (call ask e).
Proof. intros H s. apply extends_one, H. Qed.

Lemma traces_bind (m : M A) (k : A -> M B) :
  traces P m -> (forall a, traces P (k a)) -> traces P (bind m k).
Proof.
  intros Hm Hk s. unfold bind. specialize (Hm s).
  destruct (m s) as [[a|e] s1]; simpl in Hm.
  - eapply extends_trans; [exact Hm | apply Hk].
  - exact Hm.
Qed.

Lemma traces_try_except (m : M A) (h : exn -> option (M A)) :
  traces P m -> (forall e k, h e = Some k -> traces P k) ->
  traces P (try_except m h).
Proof.
  intros Hm Hh s. unfold try_except. specialize (Hm s).
  destruct (m s) as [[a|e] s1]; simpl in Hm.
  - exact Hm.
  - destruct (h e) as [k|] eqn:E.
    + eapply extends_trans; [exact Hm | apply (Hh e k E)].
    + exact Hm.
Qed.
End Rules.

Lemma traces_emit P (e : event) : P e = true -> traces P (emit e).
Proof. intros H s. apply extends_one, H. Qed.

Lemma traces_set_client P (b : bool) : traces P (set_client b).
Proof.
  intros s. exists []. split; [simpl; symmetry; apply app_nil_r | reflexivity].
Qed.

Lemma traces_get_client P : traces P get_client.
Proof. intros s. apply extends_refl. Qed.

Lemma traces_aws_call P (ask : list event -> outcome) (e : event) :
  P e = true -> traces P (aws_call ask e).
Proof.
  intros H. apply traces_bind; [apply traces_call, H|].
  intros o. destruct (exn_of o); [apply traces_raise | apply traces_ret].
Qed.

Lemma traces_debug {A} P (name : string) (m : M A) :
  P (EEnter name) = true -> P (EExit name) = true -> P (EError name) = true ->
  traces P m -> traces P (debug name m).
Proof.
  intros H1 H2 H3 Hm. unfold debug.
  apply traces_bind; [apply traces_emit, H1 | intros _].
  apply traces_try_except.
  - apply traces_bind; [exact Hm | intros a].
    apply traces_bind; [apply traces_emit, H2 | intros _; apply traces_ret].
  - intros e k. destruct (is_Exception e); intros E; inversion E; subst.
    apply traces_bind; [apply traces_emit, H3 | intros _; apply traces_raise].
Qed.

(** A bind whose first part returns goes on with the second. *)
Lemma bind_run {A B} (m : M A) (k : A -> M B) s a s1 :
  m s = (Ok a, s1) -> bind m k s = k a s1.
Proof. intros H. unfold bind. rewrite H. reflexivity. Qed.

(** Inversion of a bind that returned. *)
Lemma bind_Ok {A B} (m : M A) (k : A -> M B) s b s' :
  bind m k s = (Ok b, s') ->
  exists a s1, m s = (Ok a, s1) /\ k a s1 = (Ok b, s').
Proof.
  unfold bind. destruct (m s) as [[a|e] s1]; intros H.
  - exists a, s1. split; [reflexivity | exact H].
  - discriminate H.
Qed.

(** The decorator changes neither the value returned nor, up to the records
    it logs, the state. *)
Lemma debug_Ok {A} (name : string) (m : M A) s a s' :
  debug name m s = (Ok a, s') ->
  exists s1, m {| client := client s; log := log s ++ [EEnter name] |} = (Ok a, s1) /\
             s' = {| client := client s1; log := log s1 ++ [EExit name] |}.
Proof.
  unfold debug, bind, try_except, emit, ret, raise. simpl.
  destruct (m _) as [[x|e] s1]; simpl.
  - intros H. inversion H; subst. exists s1. split; reflexivity.
  - destruct (is_Exception e); simpl; intros H; discriminate H.
Qed.

(** The decorator around a function that returns. *)
Lemma debug_returns {A} (name : string) (m : M A) s a s1 :
  m {| client := client s; log := log s ++ [EEnter name] |} = (Ok a, s1) ->
  debug name m s = (Ok a, {| client := client s1; log := log s1 ++ [EExit name] |}).
Proof.
  intros H. unfold debug, bind, try_except, emit, ret. simpl. rewrite H. reflexivity.
Qed.

Lemma debug_total {A} (name : string) (m : M A) : total m -> total (debug name m).
Proof.
  intros Hm s. unfold debug, bind, try_except, emit, ret. simpl.
  destruct (Hm {| client := client s; log := log s ++ [EEnter name] |}) as [a Ha].
  destruct (m _) as [[x|e] s1]; simpl in *.
  - exists x. reflexivity.
  - discriminate Ha.
Qed.

End Trace.

(** ** The functions of the importer, one by one *)

Module StepFacts.
Import Py Sys Debug Dbase Uploader Props Trace.

Lemma db_event_no_image e : db_event e = true -> negb (image_event e) = true.
Proof.
  destruct e; simpl; try discriminate; try reflexivity;
    intros H; apply orb_prop in H; destruct H as [H|H];
    apply String.eqb_eq in H; subst; reflexivity.
Qed.

Lemma db_event_no_attempt e : db_event e = true -> negb (attempt e) = true.
Proof.
  destruct e; simpl; try discriminate; try reflexivity;
    intros H; apply orb_prop in H; destruct H as [H|H];
    apply String.eqb_eq in H; subst; reflexivity.
Qed.

Lemma lookup_event_no_attempt e : lookup_event e = true -> negb (attempt e) = true.
Proof.
  destruct e; simpl; try discriminate; try reflexivity.
  intros H. apply String.eqb_eq in H. subst. reflexivity.
Qed.

Lemma upload_event_no_attempt e : upload_event e = true -> negb (attempt e) = true.
Proof. destruct e; simpl; try discriminate; reflexivity. Qed.

Section WithWorld.
Variable W : World.

(** *** [add_item] *)

Lemma connect_traces : traces db_event (_connect W).
Proof.
  unfold _connect, _connect_raw. apply traces_debug; try reflexivity.
  apply traces_bind; [apply traces_call; reflexivity | intros ok].
  apply traces_bind; [apply traces_set_client | intros _; apply traces_ret].
Qed.

Lemma add_item_body_traces t item : traces db_event (add_item_body W t item).
Proof.
  unfold add_item_body. destruct item; try apply traces_raise.
  apply traces_bind; [apply traces_aws_call; reflexivity | intros _; apply traces_ret].
Qed.

Lemma add_item_traces t item : traces db_event (add_item W t item).
Proof.
  unfold add_item, add_item_raw. apply traces_debug; try reflexivity.
  assert (Hput : traces db_event (add_item_try W t item)).
  { apply traces_try_except; [apply add_item_body_traces|].
    intros e k E. destruct e; simpl in E; inversion E; subst; apply traces_ret. }
  apply traces_bind; [apply traces_get_client | intros c].
  destruct c; simpl; [exact Hput|].
  apply traces_bind; [apply connect_traces | intros connected].
  destruct connected; simpl; [exact Hput | apply traces_ret].
Qed.

(** [add_item] catches what the store raises: it always answers. *)
Lemma add_item_total t item : total (add_item W t item).
Proof.
  apply debug_total. intros s.
  unfold add_item_raw, add_item_try, bind, try_except, get_client, _connect,
    _connect_raw, debug, add_item_body, aws_call, call, emit, set_client, ret,
    raise, bind, try_except.
  simpl. destruct (client s); simpl.
  - destruct item; simpl; eauto.
    destruct (put_item W _ _ _); simpl; eauto.
  - destruct (connect_ok W _); simpl; eauto.
    destruct item; simpl; eauto.
    destruct (put_item W _ _ _); simpl; eauto.
Qed.

(** *** [get_image_path] *)

Lemma get_image_path_traces product base default :
  traces lookup_event (get_image_path W product base default).
Proof.
  unfold get_image_path, get_image_path_raw. apply traces_debug; try reflexivity.
  destruct (negb (dict_contains "image" product)); [apply traces_ret|].
  apply traces_bind.
  { unfold getitem. destruct (dict_get "image" product);
      [apply traces_ret | apply traces_raise]. }
  intros image. apply traces_bind.
  { unfold os_path_join_values. destruct (strings_of _);
      [apply traces_ret | apply traces_raise]. }
  intros path. apply traces_bind; [apply traces_call; reflexivity | intros found].
  destruct (negb found); apply traces_ret.
Qed.

(** *** [upload_image_to_s3] *)

Lemma upload_total path product bucket : total (upload_image_to_s3 W path product bucket).
Proof.
  apply debug_total. intros s.
  unfold upload_image_to_s3_raw, bind, try_except, aws_call, call, ret, raise, bind.
  simpl. destruct (path_exists W _ _); simpl; eauto.
  destruct (truthy _); simpl; eauto.
  destruct (upload_file W _ _ _ _); simpl; eauto.
Qed.

Lemma upload_raw_traces path product bucket :
  traces upload_event (upload_image_to_s3_raw W path product bucket).
Proof.
  unfold upload_image_to_s3_raw. apply traces_try_except.
  - apply traces_bind; [apply traces_call; reflexivity | intros found].
    destruct (negb found); [apply traces_ret|].
    simpl. destruct (negb (truthy _)); [apply traces_ret|].
    apply traces_try_except.
    + apply traces_bind; [apply traces_aws_call; reflexivity | intros _; apply traces_ret].
    + intros e k E. destruct e; inversion E; subst. apply traces_ret.
  - intros e k E. destruct (is_Exception e); inversion E; subst. apply traces_ret.
Qed.

(** Every call of [upload_image_to_s3] is one attempt, whatever comes of
    it. *)
Lemma upload_counts_once path product bucket s :
  attempts (log (snd (upload_image_to_s3 W path product bucket s)))
  = S (attempts (log s)).
Proof.
  unfold upload_image_to_s3, debug.
  set (body := upload_image_to_s3_raw W path product bucket).
  assert (Hrest : traces (fun e => negb (attempt e))
            (try_except
               (result <- body ;; emit (EExit "upload_image_to_s3") ;;; ret result)
               (fun e => if is_Exception e
                         then Some (emit (EError "upload_image_to_s3") ;;; raise e)
                         else None))%py).
  { apply traces_try_except.
    - apply traces_bind.
      + intros s0. eapply extends_weaken; [exact upload_event_no_attempt|].
        apply upload_raw_traces.
      + intros a. apply traces_bind; [apply traces_emit; reflexivity|].
        intros _. apply traces_ret.
    - intros e k E. destruct (is_Exception e); inversion E; subst.
      apply traces_bind; [apply traces_emit; reflexivity | intros _; apply traces_raise]. }
  unfold bind at 1. unfold emit at 1.
  rewrite (extends_attempts _ _ (Hrest _)). simpl.
  rewrite attempts_app.
  change (attempts [EEnter "upload_image_to_s3"]) with 1%nat. lia.
Qed.
End WithWorld.

End StepFacts.

(** ** The loop of [bulk_upload_products] *)

Module LoopFacts.
Import Py Sys Debug Dbase Uploader Props Trace StepFacts.

Lemma dict_get_set_same k v d : dict_get k (dict_set k v d) = Some v.
Proof.
  induction d as [|[k' v'] d IH]; simpl.
  - rewrite String.eqb_refl. reflexivity.
  - destruct (String.eqb k k') eqn:E; simpl; rewrite E; [reflexivity | exact IH].
Qed.

Lemma dict_get_set_other k k' v d :
  k <> k' -> dict_get k (dict_set k' v d) = dict_get k d.
Proof.
  intros Hne. induction d as [|[k0 v0] d IH]; simpl.
  - destruct (String.eqb_spec k k'); [contradiction | reflexivity].
  - destruct (String.eqb_spec k' k0) as [->|Hk0]; simpl.
    + destruct (String.eqb_spec k k0); [contradiction | reflexivity].
    + destruct (String.eqb k k0); [reflexivity | exact IH].
Qed.

Section WithWorld.
Variable W : World.
Variable config : Config.
Variable table_name : string.

(** One round of the loop that returned, taken apart. *)
Lemma process_product_inv product c s product' c' s' :
  process_product W config table_name product c s = (Ok (product', c'), s') ->
  exists d written s1,
    product = VDict d /\
    add_item W table_name (VDict (stamped W s d)) (ticked s) = (Ok written, s1) /\
    if written then
      exists path is_default s2 uploaded,
        get_image_path W (stamped W s d) (image_path config) default_image_name s1
          = (Ok (path, is_default), s2) /\
        upload_image_to_s3 W path (with_default is_default (stamped W s d))
          (s3_bucket config) s2 = (Ok uploaded, s') /\
        product' = VDict (with_default is_default (stamped W s d)) /\
        c' = (if uploaded then incr_image_success else incr_image_failure)
               (if is_default then incr_default_image_count (incr_db_success c)
                else incr_db_success c)
    else product' = VDict (stamped W s d) /\ c' = incr_db_failure c /\ s' = s1.
Proof.
  unfold process_product. intros H.
  apply bind_Ok in H. destruct H as (now & s0 & Hnow & H).
  unfold call in Hnow. inversion Hnow; subst; clear Hnow.
  apply bind_Ok in H. destruct H as (d1 & s0 & Hset & H).
  destruct product; try discriminate Hset.
  unfold setitem, ret in Hset. inversion Hset; subst; clear Hset.
  apply bind_Ok in H. destruct H as (written & s1 & Hadd & H).
  exists d, written, s1. split; [reflexivity|]. split; [exact Hadd|].
  destruct written.
  - apply bind_Ok in H. destruct H as ([path is_default] & s2 & Hget & H).
    apply bind_Ok in H. destruct H as (uploaded & s3 & Hup & H).
    exists path, is_default, s2, uploaded.
    split; [exact Hget|].
    destruct is_default, uploaded; unfold ret in H; inversion H; subst;
      (split; [exact Hup | split; reflexivity]).
  - unfold ret in H. inversion H; subst. repeat split.
Qed.

(** A failed write ends the round there. *)
Lemma process_product_write_failed d c s s1 :
  add_item W table_name (VDict (stamped W s d)) (ticked s) = (Ok false, s1) ->
  process_product W config table_name (VDict d) c s
  = (Ok (VDict (stamped W s d), incr_db_failure c), s1).
Proof.
  intros Hadd. unfold process_product.
  erewrite bind_run by reflexivity.
  erewrite bind_run by reflexivity.
  erewrite bind_run by exact Hadd.
  reflexivity.
Qed.

Lemma attempts_ticked s : attempts (log (ticked s)) = attempts (log s).
Proof.
  unfold ticked. simpl. rewrite attempts_app.
  change (attempts [ENow]) with 0%nat. lia.
Qed.

Lemma add_item_attempts item s b s1 :
  add_item W table_name item s = (Ok b, s1) -> attempts (log s1) = attempts (log s).
Proof.
  intros H. apply extends_attempts.
  eapply extends_weaken; [exact db_event_no_attempt|].
  pose proof (add_item_traces W table_name item s) as T. rewrite H in T. exact T.
Qed.

Lemma get_image_path_attempts d base default s r s1 :
  get_image_path W d base default s = (r, s1) -> attempts (log s1) = attempts (log s).
Proof.
  intros H. apply extends_attempts.
  eapply extends_weaken; [exact lookup_event_no_attempt|].
  pose proof (get_image_path_traces W d base default s) as T. rewrite H in T. exact T.
Qed.

(** What one round does to the counters and to the number of attempts. *)
Lemma process_product_counts product c s product' c' s' :
  process_product W config table_name product c s = (Ok (product', c'), s') ->
  (db_success c' + db_failure c' = S (db_success c + db_failure c))%nat /\
  (image_success c' + image_failure c' + db_success c
   = image_success c + image_failure c + db_success c')%nat /\
  (attempts (log s') + db_success c = attempts (log s) + db_success c')%nat.
Proof.
  intros H. apply process_product_inv in H.
  destruct H as (d & written & s1 & -> & Hadd & H).
  pose proof (add_item_attempts _ _ _ _ Hadd) as A1. rewrite attempts_ticked in A1.
  destruct written.
  - destruct H as (path & is_default & s2 & uploaded & Hget & Hup & -> & ->).
    pose proof (get_image_path_attempts _ _ _ _ _ _ Hget) as A2.
    pose proof (upload_counts_once W path
                  (with_default is_default (stamped W s d)) (s3_bucket config) s2) as A3.
    rewrite Hup in A3. simpl in A3.
    destruct is_default, uploaded; simpl; lia.
  - destruct H as (-> & -> & ->). simpl. lia.
Qed.

(** The same for the whole loop. *)
Lemma process_products_counts subset :
  forall c s after c' s',
    process_products W config table_name subset c s = (Ok (after, c'), s') ->
    List.length after = List.length subset /\
    (db_success c' + db_failure c'
     = db_success c + db_failure c + List.length subset)%nat /\
    (image_success c' + image_failure c' + db_success c
     = image_success c + image_failure c + db_success c')%nat /\
    (attempts (log s') + db_success c = attempts (log s) + db_success c')%nat.
Proof.
  induction subset as [|product rest IH]; intros c s after c' s' H.
  - unfold process_products, ret in H. inversion H; subst. simpl. lia.
  - cbn [process_products] in H.
    apply bind_Ok in H. destruct H as ([p1 c1] & s1 & Hone & H).
    apply bind_Ok in H. destruct H as ([rest1 c2] & s2 & Hrest & H).
    unfold ret in H. inversion H; subst.
    apply process_product_counts in Hone. apply IH in Hrest. simpl. lia.
Qed.

End WithWorld.

End LoopFacts.

(** ** The run *)

Module RunFacts.
Import Py Sys Debug Dbase Uploader Props Trace StepFacts LoopFacts.

Lemma try_except_Ok {A} (m : M A) (h : exn -> option (M A)) s a s' :
  (forall e k s1 s2, h e = Some k -> fst (k s1) <> Ok a \/ k s1 <> (Ok a, s2)) ->
  try_except m h s = (Ok a, s') -> m s = (Ok a, s').
Proof.
  intros Hh. unfold try_except. destruct (m s) as [[x|e] s1]; intros H.
  - exact H.
  - destruct (h e) as [k|] eqn:E; [|discriminate H].
    destruct (Hh e k s1 s' E) as [N|N]; [rewrite H in N | ]; contradiction.
Qed.

Section WithWorld.
Variable W : World.
Variable config : Config.
Variable table_name : string.

(** On a list of records the [try] block runs the loop on the window. *)
Lemma bulk_upload_body_list yaml_file start count s text products :
  open_read W (log s) (os_path_join (data_path config) [yaml_file]) = Some text ->
  yaml_safe_load W text = Some (VList products) ->
  products <> [] ->
  bulk_upload_body W config yaml_file table_name start count s =
  (r <- process_products W config table_name
          (select_window products start count) zero_counters ;;
   ret (Some r))%py
    {| client := client s;
       log := log s ++ [EOpen (os_path_join (data_path config) [yaml_file])] |}.
Proof.
  intros Hopen Hyaml Hne. unfold bulk_upload_body.
  erewrite bind_run by reflexivity. rewrite Hopen, Hyaml.
  destruct products as [|p ps]; [contradiction|]. reflexivity.
Qed.

Lemma length_chars (text : string) : List.length (chars text) = String.length text.
Proof. induction text as [|a text IH]; simpl; [reflexivity | rewrite IH; reflexivity]. Qed.

(** The records the loop visits are the window of the document's
    elements. *)
Lemma sliced_items_window doc start count len s subset s1 :
  py_len doc s = (Ok len, s) ->
  sliced_items doc start (end_index start count len) s = (Ok subset, s1) ->
  exists products,
    elements doc = Some products /\ subset = select_window products start count /\ s1 = s.
Proof.
  intros Hlen Hsl. destruct doc; simpl in Hsl; try discriminate Hsl.
  - exists (chars s0). unfold ret in *. simpl in Hlen.
    inversion Hlen; subst. inversion Hsl; subst.
    unfold select_window. rewrite length_chars. repeat split.
  - exists l. unfold ret in *. simpl in Hlen.
    inversion Hlen; subst. inversion Hsl; subst. repeat split.
  - exists (ints content). unfold ret in *. simpl in Hlen.
    inversion Hlen; subst. inversion Hsl; subst.
    unfold select_window, ints. rewrite length_map. repeat split.
Qed.

(** A run that reaches its summary read a document and went through the
    loop on its window. *)
Lemma bulk_upload_summary yaml_file start count s after c s' :
  bulk_upload_products W config yaml_file table_name start count s
  = (Ok (Some (after, c)), s') ->
  exists text doc products s1,
    open_read W (log s ++ [EEnter "bulk_upload_products"])
      (os_path_join (data_path config) [yaml_file]) = Some text /\
    yaml_safe_load W text = Some doc /\
    elements doc = Some products /\
    process_products W config table_name (select_window products start count)
      zero_counters
      {| client := client s;
         log := (log s ++ [EEnter "bulk_upload_products"])
                ++ [EOpen (os_path_join (data_path config) [yaml_file])] |}
    = (Ok (after, c), s1) /\
    s' = {| client := client s1; log := log s1 ++ [EExit "bulk_upload_products"] |}.
Proof.
  intros H. unfold bulk_upload_products in H.
  apply debug_Ok in H. destruct H as (s1 & H & ->).
  unfold bulk_upload_products_raw in H. apply try_except_Ok in H.
  - unfold bulk_upload_body in H.
    apply bind_Ok in H. destruct H as (file & s0 & Hcall & H).
    unfold call in Hcall. inversion Hcall; subst; clear Hcall. cbn [log client] in H.
    destruct (open_read W _ _) as [text|] eqn:Hopen; [|discriminate H].
    destruct (yaml_safe_load W text) as [doc|] eqn:Hyaml; [|discriminate H].
    destruct (negb (truthy doc)); [discriminate H|].
    apply bind_Ok in H. destruct H as (len & s2 & Hlen & H).
    apply bind_Ok in H. destruct H as (subset & s3 & Hsl & H).
    apply bind_Ok in H. destruct H as ([after1 c1] & s4 & Hloop & H).
    unfold ret in H. inversion H; subst.
    assert (Hs2 : py_len doc s2 = (Ok len, s2) /\
                  s2 = {| client := client s;
                          log := (log s ++ [EEnter "bulk_upload_products"])
                                 ++ [EOpen (os_path_join (data_path config) [yaml_file])] |}).
    { destruct doc; simpl in Hlen; unfold ret, raise in Hlen;
        inversion Hlen; subst; split; reflexivity. }
    destruct Hs2 as [Hlen2 Hs2].
    destruct (sliced_items_window doc start count len s2 subset s3 Hlen2 Hsl)
      as (products & Hel & -> & ->).
    exists text, doc, products, s1. rewrite <- Hs2.
    repeat split; assumption.
  - intros e k s2 s3 E. left.
    destruct e; simpl in E; inversion E; subst; simpl; discriminate.
Qed.
End WithWorld.

(** C2.  When the write of a record fails, the round ends there: the record
    only carries its time stamp, the write-failure counter goes up by one,
    the other counters stay, and the run has added no event of the image
    step (no look-up, no upload, no entry into [get_image_path] or
    [upload_image_to_s3]).  And for the loop as a whole the number of upload
    attempts it added is the number of successful writes. *)
Theorem failed_write_skips_image_step :
  forall (W : World) (config : Config) (table_name : string)
         (d : dict) (c : Counters) (s s1 : State),
    add_item W table_name (VDict (stamped W s d)) (ticked s) = (Ok false, s1) ->
    (process_product W config table_name (VDict d) c s
     = (Ok (VDict (stamped W s d), incr_db_failure c), s1) /\
     extends (fun e => negb (image_event e)) s s1 /\
     db_failure (incr_db_failure c) = S (db_failure c) /\
     db_success (incr_db_failure c) = db_success c /\
     image_success (incr_db_failure c) = image_success c /\
     image_failure (incr_db_failure c) = image_failure c /\
     default_image_count (incr_db_failure c) = default_image_count c) /\
    (forall subset st after c' st',
       process_products W config table_name subset zero_counters st
       = (Ok (after, c'), st') ->
       attempts (log st') = (attempts (log st) + db_success c')%nat /\
       (image_success c' + image_failure c')%nat = db_success c').
Proof.
  intros W config table_name d c s s1 Hadd. split.
  - split; [apply process_product_write_failed; exact Hadd|].
    split; [|repeat split].
    apply (extends_trans _ s (ticked s) s1).
    + apply extends_one. reflexivity.
    + eapply extends_weaken; [exact db_event_no_image|].
      pose proof (add_item_traces W table_name (VDict (stamped W s d)) (ticked s)) as T.
      rewrite Hadd in T. exact T.
  - intros subset st after c' st' H.
    apply process_products_counts in H. simpl in H. lia.
Qed.


(** C8.  A run that reaches its summary has read a document and counted
    every element of its window as a written or a failed record, and every
    written record as an uploaded or a failed upload; it made one upload
    attempt for each written record. *)
Theorem counters_balance_at_end :
  forall (W : World) (config : Config) (yaml_file table_name : string)
         (start : Z) (count : option Z) (s : State)
         (after : list value) (c : Counters) (s' : State),
    bulk_upload_products W config yaml_file table_name start count s
    = (Ok (Some (after, c)), s') ->
    exists text doc products,
      open_read W (log s ++ [EEnter "bulk_upload_products"])
        (os_path_join (data_path config) [yaml_file]) = Some text /\
      yaml_safe_load W text = Some doc /\
      elements doc = Some products /\
      (db_success c + db_failure c)%nat
      = List.length (select_window products start count) /\
      (image_success c + image_failure c)%nat = db_success c /\
      attempts (log s') = (attempts (log s) + db_success c)%nat.
Proof.
  intros W config yaml_file table_name start count s after c s' H.
  destruct (bulk_upload_summary W config table_name _ _ _ _ _ _ _ H)
    as (text & doc & products & s1 & Hopen & Hyaml & Hel & Hloop & ->).
  exists text, doc, products.
  split; [exact Hopen|]. split; [exact Hyaml|]. split; [exact Hel|].
  apply process_products_counts in Hloop. cbn [log db_success db_failure
    image_success image_failure zero_counters] in *.
  rewrite !attempts_snoc in *. cbn [attempt String.eqb] in *. simpl in Hloop. lia.
Qed.

(** The same on the catalogue of three records, of which the table rejects
    the second. *)

Lemma failed_write_skips_image_step_witness :
  fst (process_product Demo.hat_rejected Demo.config "Products" Demo.hat
         zero_counters initial)
  = Ok (VDict (stamped Demo.hat_rejected initial Demo.hat_fields),
        incr_db_failure zero_counters).
Proof.
  destruct (add_item Demo.hat_rejected "Products"
              (VDict (stamped Demo.hat_rejected initial Demo.hat_fields))
              (ticked initial)) as [[[|]|e] s1] eqn:E.
  - vm_compute in E. discriminate E.
  - destruct (failed_write_skips_image_step Demo.hat_rejected Demo.config "Products"
                Demo.hat_fields zero_counters initial s1 E) as ((H & _) & _).
    unfold Demo.hat. rewrite H. reflexivity.
  - vm_compute in E. discriminate E.
Defined.



Lemma counters_balance_at_end_witness :
  match fst (bulk_upload_products Demo.hat_rejected Demo.config "products.yaml"
               "Products" 0 None initial) with
  | Ok (Some (_, c)) =>
      (db_success c + db_failure c)%nat = 3%nat /\
      (image_success c + image_failure c)%nat = db_success c
  | _ => False
  end.
Proof.
  destruct (bulk_upload_products Demo.hat_rejected Demo.config "products.yaml"
              "Products" 0 None initial) as [[[[after c]|]|e] s1] eqn:E; simpl.
  - destruct (counters_balance_at_end Demo.hat_rejected Demo.config "products.yaml"
                "Products" 0 None initial after c s1 E)
      as (text & doc & products & Hopen & Hyaml & Hel & H1 & H2 & _).
    vm_compute in Hopen. inversion Hopen; subst text.
    vm_compute in Hyaml. inversion Hyaml; subst doc.
    vm_compute in Hel. inversion Hel; subst products.
    split; [exact H1 | exact H2].
  - vm_compute in E. discriminate E.
  - vm_compute in E. discriminate E.
Defined.

End RunFacts.

(** ** Image paths and upload keys *)

Module ImageFacts.
Import Py Sys Debug Dbase Uploader Props Trace.

Lemma endswith_char_append c (a b : string) :
  b <> "" -> endswith_char c (a ++ b) = endswith_char c b.
Proof.
  intros Hb. induction a as [|x a IH]; [reflexivity|].
  simpl. rewrite IH. destruct (a ++ b) eqn:E; [|reflexivity].
  destruct a; simpl in E; [contradiction | discriminate E].
Qed.

Lemma append_not_empty (a b : string) : b <> "" -> String.eqb (a ++ b) "" = false.
Proof.
  intros Hb. destruct a; simpl; [|reflexivity].
  destruct b; [contradiction | reflexivity].
Qed.

Lemma string_append_assoc (a b c : string) : (a ++ b) ++ c = a ++ b ++ c.
Proof. induction a as [|x a IH]; simpl; [reflexivity | rewrite IH; reflexivity]. Qed.

Lemma join_step_relative (path b : string) :
  path <> "" -> endswith_char "/" path = false -> String.prefix "/" b = false ->
  join_step path b = path ++ "/" ++ b.
Proof.
  intros Hp Hs Hb. unfold join_step. rewrite Hb, Hs.
  destruct (String.eqb_spec path ""); [contradiction | reflexivity].
Qed.

(** Joining relative names under a directory gives the names separated by
    slashes. *)
Lemma os_path_join_relative (base category image : string) :
  base <> "" -> endswith_char "/" base = false ->
  category <> "" -> String.prefix "/" category = false ->
  endswith_char "/" category = false ->
  String.prefix "/" image = false ->
  os_path_join base [category; image] = base ++ "/" ++ category ++ "/" ++ image.
Proof.
  intros Hb Hbs Hc Hcp Hcs Hi.
  change (os_path_join base [category; image])
    with (join_step (join_step base category) image).
  rewrite (join_step_relative base category Hb Hbs Hcp).
  assert (Hne : "/" ++ category <> "") by discriminate.
  rewrite join_step_relative.
  - rewrite !string_append_assoc. reflexivity.
  - intros E. pose proof (append_not_empty base _ Hne) as N.
    rewrite E in N. discriminate N.
  - rewrite (endswith_char_append _ base _ Hne).
    rewrite (endswith_char_append _ "/" category Hc). exact Hcs.
  - exact Hi.
Qed.

Section WithWorld.
Variable W : World.

Lemma get_image_path_raw_no_image product base default s :
  dict_contains "image" product = false ->
  get_image_path_raw W product base default s
  = (Ok (os_path_join base [default], true), s).
Proof. intros H. unfold get_image_path_raw. rewrite H. reflexivity. Qed.

Lemma get_image_path_raw_image product base default s category image :
  dict_get_default "category" (VStr "uncategorized") product = VStr category ->
  dict_get "image" product = Some (VStr image) ->
  get_image_path_raw W product base default s
  = (Ok (if path_exists W (log s) (os_path_join base [category; image])
         then (os_path_join base [category; image], false)
         else (os_path_join base [default], true)),
     {| client := client s;
        log := log s ++ [EExists (os_path_join base [category; image])] |}).
Proof.
  intros Hc Hi. unfold get_image_path_raw, dict_contains, getitem.
  rewrite Hi, Hc. change (negb true) with false. cbv iota.
  erewrite bind_run by reflexivity.
  erewrite bind_run by reflexivity.
  erewrite bind_run by reflexivity.
  destruct (path_exists W (log s) _); reflexivity.
Qed.

(** The upload of an existing file for a record with a file name but no
    category. *)
Lemma upload_raw_uncategorized local product bucket image s :
  dict_contains "category" product = false ->
  dict_get "image" product = Some (VStr image) ->
  image <> "" ->
  path_exists W (log s) local = true ->
  upload_image_to_s3_raw W local product bucket s
  = (Ok (match upload_file W (log s ++ [EExists local]) local bucket
                 ("uncategorized/" ++ image) with
         | Returns => true
         | _ => false
         end),
     {| client := client s;
        log := (log s ++ [EExists local])
               ++ [EUploadFile local bucket ("uncategorized/" ++ image)] |}).
Proof.
  intros Hc Hi Hne Hex.
  unfold upload_image_to_s3_raw, dict_get_default.
  unfold dict_contains in Hc. destruct (dict_get "category" product); [discriminate Hc|].
  rewrite Hi. unfold try_except at 1.
  erewrite bind_run by reflexivity. rewrite Hex. change (negb true) with false.
  cbv iota zeta.
  assert (Ht : truthy (VStr image) = true).
  { simpl. destruct (String.eqb_spec image ""); [contradiction | reflexivity]. }
  rewrite Ht. change (negb true) with false. cbv iota.
  unfold try_except, aws_call, bind, call, ret, raise. simpl.
  destruct (upload_file W _ _ _ _); reflexivity.
Qed.
End WithWorld.

(** C6.  Without an [image] field the answer is the default image path and
    [True].  With an image and a category that are strings, the answer is
    the default image path and [True] when the path joined from base,
    category and image is not on disk, and that path and [False] when it is.
    For relative names the joined path is [base/category/image]. *)
Theorem get_image_path_default_or_found :
  forall (W : World) (product : dict) (base default : string) (s : State),
    (dict_contains "image" product = false ->
     fst (get_image_path W product base default s)
     = Ok (os_path_join base [default], true)) /\
    (forall category image,
       dict_get_default "category" (VStr "uncategorized") product = VStr category ->
       dict_get "image" product = Some (VStr image) ->
       (path_exists W (log s ++ [EEnter "get_image_path"])
          (os_path_join base [category; image]) = false ->
        fst (get_image_path W product base default s)
        = Ok (os_path_join base [default], true)) /\
       (path_exists W (log s ++ [EEnter "get_image_path"])
          (os_path_join base [category; image]) = true ->
        fst (get_image_path W product base default s)
        = Ok (os_path_join base [category; image], false)) /\
       (base <> "" -> endswith_char "/" base = false ->
        category <> "" -> String.prefix "/" category = false ->
        endswith_char "/" category = false ->
        String.prefix "/" image = false ->
        os_path_join base [category; image]
        = base ++ "/" ++ category ++ "/" ++ image)).
Proof.
  intros W product base default s. split.
  - intros H. unfold get_image_path.
    erewrite debug_returns by (apply get_image_path_raw_no_image; exact H).
    reflexivity.
  - intros category image Hc Hi.
    assert (E := get_image_path_raw_image W product base default
                   {| client := client s; log := log s ++ [EEnter "get_image_path"] |}
                   category image Hc Hi).
    apply (debug_returns "get_image_path") in E. cbn [log client] in E.
    split; [|split].
    + intros Hex. unfold get_image_path. rewrite E. cbn [fst]. rewrite Hex. reflexivity.
    + intros Hex. unfold get_image_path. rewrite E. cbn [fst]. rewrite Hex. reflexivity.
    + apply os_path_join_relative.
Qed.

Lemma get_image_path_default_or_found_witness :
  fst (get_image_path Demo.all_accepted Demo.shoe_fields "./data/images"
         default_image_name initial)
  = Ok ("./data/images/shoes/a.png", false) /\
  fst (get_image_path Demo.all_accepted Demo.hat_fields "./data/images"
         default_image_name initial)
  = Ok ("./data/images/product_image_coming_soon.png", true).
Proof.
  split.
  - destruct (get_image_path_default_or_found Demo.all_accepted Demo.shoe_fields
                "./data/images" default_image_name initial) as (_ & H).
    destruct (H "shoes" "a.png" eq_refl eq_refl) as (_ & Hfound & _).
    exact (Hfound eq_refl).
  - destruct (get_image_path_default_or_found Demo.all_accepted Demo.hat_fields
                "./data/images" default_image_name initial) as (H & _).
    exact (H eq_refl).
Defined.

(** C9.  For a record with an image file name and no [category] field, the
    path looked up is the one joined from base, [uncategorized] and the file
    name (which is [base/uncategorized/image] for a relative name), and the
    upload of an existing file goes to the key [uncategorized/image]. *)
Theorem missing_category_is_uncategorized :
  forall (W : World) (product : dict) (base default bucket local image : string)
         (s : State),
    dict_contains "category" product = false ->
    dict_get "image" product = Some (VStr image) ->
    fst (get_image_path W product base default s)
    = Ok (if path_exists W (log s ++ [EEnter "get_image_path"])
               (os_path_join base ["uncategorized"; image])
          then (os_path_join base ["uncategorized"; image], false)
          else (os_path_join base [default], true)) /\
    log (snd (get_image_path W product base default s))
    = (log s ++ [EEnter "get_image_path";
                 EExists (os_path_join base ["uncategorized"; image]);
                 EExit "get_image_path"])%list /\
    (base <> "" -> endswith_char "/" base = false ->
     String.prefix "/" image = false ->
     os_path_join base ["uncategorized"; image] = base ++ "/uncategorized/" ++ image) /\
    (image <> "" ->
     path_exists W (log s ++ [EEnter "upload_image_to_s3"]) local = true ->
     fst (upload_image_to_s3 W local product bucket s)
     = Ok (match upload_file W (log s ++ [EEnter "upload_image_to_s3"; EExists local])
                   local bucket ("uncategorized/" ++ image) with
           | Returns => true
           | _ => false
           end) /\
     log (snd (upload_image_to_s3 W local product bucket s))
     = (log s ++ [EEnter "upload_image_to_s3"; EExists local;
                  EUploadFile local bucket ("uncategorized/" ++ image);
                  EExit "upload_image_to_s3"])%list).
Proof.
  intros W product base default bucket local image s Hc Hi.
  assert (Hcat : dict_get_default "category" (VStr "uncategorized") product
                 = VStr "uncategorized").
  { unfold dict_get_default. unfold dict_contains in Hc.
    destruct (dict_get "category" product); [discriminate Hc | reflexivity]. }
  assert (E := get_image_path_raw_image W product base default
                 {| client := client s; log := log s ++ [EEnter "get_image_path"] |}
                 "uncategorized" image Hcat Hi).
  apply (debug_returns "get_image_path") in E. cbn [log client] in E.
  split; [|split; [|split]].
  - unfold get_image_path. rewrite E. reflexivity.
  - unfold get_image_path. rewrite E. cbn [snd log]. rewrite <- !app_assoc. reflexivity.
  - intros Hb Hbs Hip.
    apply (os_path_join_relative base "uncategorized" image); try assumption;
      try reflexivity; discriminate.
  - intros Hne Hex.
    assert (U := upload_raw_uncategorized W local product bucket image
                   {| client := client s; log := log s ++ [EEnter "upload_image_to_s3"] |}
                   Hc Hi Hne Hex).
    apply (debug_returns "upload_image_to_s3") in U. cbn [log client] in U.
    unfold upload_image_to_s3. rewrite U. cbn [fst snd log].
    rewrite <- !app_assoc. split; reflexivity.
Qed.

Lemma missing_category_is_uncategorized_witness :
  log (snd (upload_image_to_s3 Demo.all_accepted "./data/images/uncategorized/s.png"
              Demo.sock_fields "catalog" initial))
  = [EEnter "upload_image_to_s3"; EExists "./data/images/uncategorized/s.png";
     EUploadFile "./data/images/uncategorized/s.png" "catalog" "uncategorized/s.png";
     EExit "upload_image_to_s3"].
Proof.
  destruct (missing_category_is_uncategorized Demo.all_accepted Demo.sock_fields
              "./data/images" default_image_name "catalog"
              "./data/images/uncategorized/s.png" "s.png" initial eq_refl eq_refl)
    as (_ & _ & _ & H).
  destruct H as [_ H]; [discriminate | reflexivity | exact H].
Defined.

End ImageFacts.

(** ** Exit status *)

Module ExitFacts.
Import Py Sys Debug Dbase Uploader Props Trace StepFacts LoopFacts RunFacts ImageFacts.

Lemma try_except_returns {A} (m : M A) (h : exn -> option (M A)) s a s' :
  m s = (Ok a, s') -> try_except m h s = (Ok a, s').
Proof. intros H. unfold try_except. rewrite H. reflexivity. Qed.

Lemma forallb_firstn {A} (f : A -> bool) (n : nat) (l : list A) :
  forallb f l = true -> forallb f (firstn n l) = true.
Proof.
  revert l. induction n as [|n IH]; intros [|x l]; simpl; try reflexivity.
  intros H. apply andb_prop in H. destruct H as [Hx Hl].
  rewrite Hx, (IH l Hl). reflexivity.
Qed.

Lemma forallb_skipn {A} (f : A -> bool) (n : nat) (l : list A) :
  forallb f l = true -> forallb f (skipn n l) = true.
Proof.
  revert l. induction n as [|n IH]; intros [|x l]; simpl; try reflexivity.
  - intros H. exact H.
  - intros H. apply andb_prop in H. destruct H as [_ Hl]. exact (IH l Hl).
Qed.

Lemma forallb_window {A} (f : A -> bool) (l : list A) start count :
  forallb f l = true -> forallb f (select_window l start count) = true.
Proof.
  intros H. unfold select_window, slice. apply forallb_firstn, forallb_skipn, H.
Qed.

Section WithWorld.
Variable W : World.
Variable config : Config.
Variable table_name : string.

Lemma get_image_path_returns d base default s :
  record_ok (VDict d) = true ->
  exists r, fst (get_image_path W d base default s) = Ok r.
Proof.
  intros Hok. unfold get_image_path. simpl in Hok.
  destruct (dict_get "image" d) as [image|] eqn:Hi.
  - destruct image; try discriminate Hok.
    assert (Hc : exists category,
               dict_get_default "category" (VStr "uncategorized") d = VStr category).
    { unfold dict_get_default. destruct (dict_get "category" d) as [c|].
      - destruct c; try discriminate Hok. eexists. reflexivity.
      - eexists. reflexivity. }
    destruct Hc as [category Hc].
    erewrite debug_returns
      by (apply (get_image_path_raw_image W d base default _ category s0 Hc Hi)).
    eexists. reflexivity.
  - erewrite debug_returns.
    + eexists. reflexivity.
    + apply get_image_path_raw_no_image. unfold dict_contains. rewrite Hi. reflexivity.
Qed.

Lemma record_ok_stamped d s :
  record_ok (VDict d) = true -> record_ok (VDict (stamped W s d)) = true.
Proof.
  unfold record_ok, stamped. rewrite !dict_get_set_other by discriminate.
  intros H. exact H.
Qed.

(** One round over a well-typed record returns, whatever the stores
    answer. *)
Lemma process_product_returns product c s :
  record_ok product = true ->
  exists r, fst (process_product W config table_name product c s) = Ok r.
Proof.
  intros Hok. destruct product as [| | | | |d| | | |]; try discriminate Hok.
  unfold process_product.
  erewrite bind_run by reflexivity.
  erewrite bind_run by reflexivity.
  fold (stamped W s d). fold (ticked s).
  destruct (add_item_total W table_name (VDict (stamped W s d)) (ticked s)) as [written Hw].
  destruct (add_item W table_name (VDict (stamped W s d)) (ticked s)) as [r1 s1] eqn:E1.
  simpl in Hw. subst r1. erewrite bind_run by exact E1.
  destruct written; [|eexists; reflexivity].
  destruct (get_image_path_returns (stamped W s d) (image_path config)
              default_image_name s1 (record_ok_stamped d s Hok)) as [[path is_default] Hg].
  destruct (get_image_path W (stamped W s d) (image_path config) default_image_name s1)
    as [r2 s2] eqn:E2.
  simpl in Hg. subst r2. erewrite bind_run by exact E2. cbv beta iota.
  match goal with
  | |- context [upload_image_to_s3 W ?p ?d ?b] =>
      destruct (upload_total W p d b s2) as [uploaded Hu];
      destruct (upload_image_to_s3 W p d b s2) as [r3 s3] eqn:E3
  end.
  simpl in Hu. subst r3. erewrite bind_run by exact E3.
  destruct uploaded; eexists; reflexivity.
Qed.

Lemma process_products_returns subset :
  forallb record_ok subset = true ->
  forall c s, exists r, fst (process_products W config table_name subset c s) = Ok r.
Proof.
  induction subset as [|product rest IH]; intros Hok c s.
  - eexists. reflexivity.
  - simpl in Hok. apply andb_prop in Hok. destruct Hok as [Hp Hrest].
    cbn [process_products].
    destruct (process_product_returns product c s Hp) as [[p1 c1] H1].
    destruct (process_product W config table_name product c s) as [r1 s1] eqn:E1.
    simpl in H1. subst r1. erewrite bind_run by exact E1. cbv beta iota.
    destruct (IH Hrest c1 s1) as [[rest1 c2] H2].
    destruct (process_products W config table_name rest c1 s1) as [r2 s2] eqn:E2.
    simpl in H2. subst r2. erewrite bind_run by exact E2.
    eexists. reflexivity.
Qed.

(** [bulk_upload_products] returns on a well-typed document. *)
Lemma bulk_upload_returns yaml_file start count s text doc :
  open_read W (log s ++ [EEnter "bulk_upload_products"])
    (os_path_join (data_path config) [yaml_file]) = Some text ->
  yaml_safe_load W text = Some doc ->
  document_ok doc = true ->
  exists r, fst (bulk_upload_products W config yaml_file table_name start count s) = Ok r.
Proof.
  intros Hopen Hyaml Hok. destruct doc as [| | | |l| | | | |]; try discriminate Hok.
  simpl in Hok. unfold bulk_upload_products.
  set (s0 := {| client := client s; log := log s ++ [EEnter "bulk_upload_products"] |}).
  assert (Hbody : exists r s1,
             bulk_upload_body W config yaml_file table_name start count s0 = (Ok r, s1)).
  { destruct l as [|p ps].
    - unfold bulk_upload_body. erewrite bind_run by reflexivity.
      cbn [log s0]. rewrite Hopen, Hyaml. eexists. eexists. reflexivity.
    - rewrite (bulk_upload_body_list W config table_name yaml_file start count s0 text
                 (p :: ps) Hopen Hyaml) by discriminate.
      match goal with
      | |- context [process_products W config table_name ?w ?c] =>
          destruct (process_products_returns w
                      (forallb_window record_ok (p :: ps) start count Hok) c
                      {| client := client s0;
                         log := log s0
                                ++ [EOpen (os_path_join (data_path config) [yaml_file])] |})
            as [r Hr];
          destruct (process_products W config table_name w c
                      {| client := client s0;
                         log := log s0
                                ++ [EOpen (os_path_join (data_path config) [yaml_file])] |})
            as [r1 s1] eqn:E
      end.
      simpl in Hr. subst r1. erewrite bind_run by exact E.
      eexists. eexists. reflexivity. }
  destruct Hbody as (r & s1 & Hbody).
  erewrite debug_returns.
  - eexists. reflexivity.
  - unfold bulk_upload_products_raw. apply try_except_returns. exact Hbody.
Qed.
End WithWorld.

(** [DataUploader.__init__] with a bucket configured and a set-up that
    goes through. *)
Lemma init_returns (W : World) bucket s :
  getenv W "S3_BUCKET" = Some bucket -> bucket <> "" ->
  set_up W ->
  init W s
  = (Ok (config_of W bucket),
     {| client := connect_ok W (log s ++ [EEnter "_connect"]);
        log := log s ++ [EEnter "_connect"; EConnect; EExit "_connect";
                         EEnter "_load_config"; EMakedirs (data_path_of W);
                         EMakedirs (image_path_of W); EExit "_load_config";
                         ES3Client] |}).
Proof.
  intros Hb Hne (Hd & Hi & Hs3).
  unfold init, _connect, _connect_raw, _load_config, _load_config_raw, os_makedirs,
    make_s3_client, debug, bind, try_except, call, emit, set_client, ret, config_of.
  fold (data_path_of W). fold (image_path_of W).
  cbn [log client fst snd]. rewrite Hb.
  assert (Ht : truthy (VStr bucket) = true).
  { unfold truthy. apply negb_true_iff. apply String.eqb_neq. exact Hne. }
  rewrite Ht. change (negb true) with false. cbv iota.
  cbn [log client]. rewrite Hd. change (negb true) with false. cbv iota.
  cbn [log client]. rewrite Hi. change (negb true) with false. cbv iota.
  cbn [log client]. rewrite Hs3. cbv iota.
  rewrite <- !app_assoc. reflexivity.
Qed.

(** [main] returns what [bulk_upload_products] returns. *)
Lemma main_returns (W : World) table_name yaml_file start count cfg s1 r s2 :
  init W {| client := false; log := [EEnter "main"] |} = (Ok cfg, s1) ->
  bulk_upload_products W cfg yaml_file table_name start count s1 = (Ok r, s2) ->
  main W (Parsed yaml_file table_name start count) initial
  = (Ok r, {| client := client s2; log := log s2 ++ [EExit "main"] |}).
Proof.
  intros Hinit Hbulk. unfold main. apply debug_returns.
  unfold main_raw. apply try_except_returns.
  erewrite bind_run by exact Hinit. exact Hbulk.
Qed.

(** With the bucket configured, the set-up done, the file there and a
    well-typed document in it, the process ends with status 0. *)
Lemma run_zero (W : World) table_name yaml_file start count bucket text doc :
  getenv W "S3_BUCKET" = Some bucket -> bucket <> "" ->
  set_up W ->
  open_read W (startup W ++ [EEnter "bulk_upload_products"])
    (yaml_path_of W yaml_file) = Some text ->
  yaml_safe_load W text = Some doc ->
  document_ok doc = true ->
  run W (Parsed yaml_file table_name start count) = 0.
Proof.
  intros Hb Hne Hset Hopen Hyaml Hok. unfold run.
  pose proof (init_returns W bucket {| client := false; log := [EEnter "main"] |}
                Hb Hne Hset) as Hinit.
  match type of Hinit with _ = (_, ?s) => set (s1 := s) in * end.
  destruct (bulk_upload_returns W (config_of W bucket) table_name yaml_file start count
              s1 text doc Hopen Hyaml Hok) as [r Hr].
  destruct (bulk_upload_products W (config_of W bucket) yaml_file table_name start count s1)
    as [r1 s2] eqn:E.
  simpl in Hr. subst r1.
  rewrite (main_returns W table_name yaml_file start count _ _ _ _ Hinit E). reflexivity.
Qed.

(** [main] when the bucket is not configured. *)
Lemma main_without_bucket (W : World) yaml_file table start count :
  getenv W "S3_BUCKET" = None \/ getenv W "S3_BUCKET" = Some "" ->
  main W (Parsed yaml_file table start count) initial
  = (Raise (SystemExit 1),
     {| client := connect_ok W [EEnter "main"; EEnter "_connect"];
        log := [EEnter "main"; EEnter "_connect"; EConnect; EExit "_connect";
                EEnter "_load_config"; EError "_load_config"] |}).
Proof.
  intros H.
  unfold main, main_raw, init, _connect, _connect_raw, _load_config, _load_config_raw,
    debug, bind, try_except, call, emit, set_client, ret, raise, initial.
  simpl. destruct H as [H|H]; rewrite H; reflexivity.
Qed.

(** [main] when a directory cannot be made: the exception of [os.makedirs]
    is no [ValueError], and nobody catches it. *)
Lemma main_without_directory (W : World) yaml_file table start count bucket :
  getenv W "S3_BUCKET" = Some bucket -> bucket <> "" ->
  makedirs W configuring (data_path_of W) = false \/
  (makedirs W configuring (data_path_of W) = true /\
   makedirs W (configuring ++ [EMakedirs (data_path_of W)]) (image_path_of W) = false) ->
  fst (main W (Parsed yaml_file table start count) initial) = Raise OSError /\
  log (snd (main W (Parsed yaml_file table start count) initial))
  = (configuring
     ++ EMakedirs (data_path_of W)
        :: (if makedirs W configuring (data_path_of W)
            then [EMakedirs (image_path_of W)] else [])
     ++ [EError "_load_config"; EError "main"])%list.
Proof.
  intros Hb Hne H.
  assert (Ht : truthy (VStr bucket) = true).
  { unfold truthy. apply negb_true_iff. apply String.eqb_neq. exact Hne. }
  unfold main, main_raw, init, _connect, _connect_raw, _load_config, _load_config_raw,
    os_makedirs, debug, bind, try_except, call, emit, set_client, ret, raise, initial,
    configuring in *.
  fold (data_path_of W). fold (image_path_of W).
  cbn [log client fst snd app] in *. rewrite Hb, Ht.
  change (negb true) with false. cbv iota. cbn [log client fst snd app].
  destruct H as [H|[H1 H2]].
  - rewrite H. split; reflexivity.
  - rewrite H1. change (negb true) with false. cbv iota. cbn [log client fst snd app].
    rewrite H2. split; reflexivity.
Qed.

(** [main] when the S3 client cannot be made: a [ValueError] becomes
    [sys.exit(1)], another exception goes uncaught. *)
Lemma main_without_s3_client (W : World) yaml_file table start count bucket :
  getenv W "S3_BUCKET" = Some bucket -> bucket <> "" ->
  (forall l, makedirs W l (data_path_of W) = true) ->
  (forall l, makedirs W l (image_path_of W) = true) ->
  s3_client W (configuring ++ [EMakedirs (data_path_of W); EMakedirs (image_path_of W);
                               EExit "_load_config"]) <> SetUp ->
  exit_status (fst (main W (Parsed yaml_file table start count) initial)) = 1 /\
  exists d,
    log (snd (main W (Parsed yaml_file table start count) initial))
    = (startup W ++ d)%list /\
    forallb (fun e => match e with EError _ => true | _ => false end) d = true.
Proof.
  intros Hb Hne Hd Hi Hs3.
  assert (Ht : truthy (VStr bucket) = true).
  { unfold truthy. apply negb_true_iff. apply String.eqb_neq. exact Hne. }
  unfold main, main_raw, init, _connect, _connect_raw, _load_config, _load_config_raw,
    os_makedirs, make_s3_client, debug, bind, try_except, call, emit, set_client, ret,
    raise, initial, startup, configuring in *.
  fold (data_path_of W). fold (image_path_of W).
  cbn [log client fst snd app]. rewrite Hb, Ht.
  change (negb true) with false. cbv iota. cbn [log client fst snd app].
  rewrite Hd. change (negb true) with false. cbv iota. cbn [log client fst snd app].
  rewrite Hi. change (negb true) with false. cbv iota. cbn [log client fst snd app].
  cbn [app] in Hs3.
  destruct (s3_client W _) eqn:E; [contradiction Hs3; reflexivity | |].
  - split; [reflexivity|]. exists []. split; reflexivity.
  - split; [reflexivity|]. exists [EError "main"]. split; reflexivity.
Qed.

(** [main] when the set-up is done and the file is missing or does not
    parse. *)
Lemma main_without_document (W : World) yaml_file table start count bucket :
  getenv W "S3_BUCKET" = Some bucket -> bucket <> "" ->
  set_up W ->
  (open_read W (startup W ++ [EEnter "bulk_upload_products"])
     (yaml_path_of W yaml_file) = None \/
   exists text,
     open_read W (startup W ++ [EEnter "bulk_upload_products"])
       (yaml_path_of W yaml_file) = Some text /\
     yaml_safe_load W text = None) ->
  main W (Parsed yaml_file table start count) initial
  = (Raise (SystemExit 1),
     {| client := connect_ok W [EEnter "main"; EEnter "_connect"];
        log := startup W ++ [EEnter "bulk_upload_products";
                             EOpen (yaml_path_of W yaml_file)] |}).
Proof.
  intros Hb Hne Hset H.
  pose proof (init_returns W bucket {| client := false; log := [EEnter "main"] |}
                Hb Hne Hset) as Hinit.
  cbn [log client app] in Hinit.
  unfold main, main_raw.
  unfold debug at 1. unfold emit at 1. unfold bind at 1. cbn [initial log client app].
  unfold try_except at 1. unfold bind at 1. unfold try_except at 1. unfold bind at 1.
  rewrite Hinit.
  unfold bulk_upload_products, bulk_upload_products_raw, bulk_upload_body, debug, bind,
    try_except, call, emit, ret, raise, yaml_path_of, startup, configuring, config_of in *.
  fold (data_path_of W) in *. cbn [log client fst snd app data_path] in *.
  destruct H as [H|(text & H & Hy)]; rewrite H; [reflexivity|].
  rewrite Hy. reflexivity.
Qed.

(** C7, as the code has it.  A failed write and a failed upload are counted
    and the loop goes on with the next record from there.  With the bucket
    configured, the directories and the S3 client made, the input file
    there and a document that is a list of mappings whose image and
    category, where present, are strings, the process ends with status 0
    whatever the two stores answer.  It ends with status 1 when the bucket
    is not configured, when the file is missing and when the text does not
    parse; and also when a directory or the S3 client cannot be made.
    Status 1 means one of these, or that the document is not such a list
    (the catch-all clause). *)
Theorem store_failures_counted_exit_zero :
  forall (W : World) (yaml_file table_name : string) (start : Z) (count : option Z),
    (forall config d rest c s s1,
       add_item W table_name (VDict (stamped W s d)) (ticked s) = (Ok false, s1) ->
       process_products W config table_name (VDict d :: rest) c s
       = ('(rest', c') <-
            process_products W config table_name rest (incr_db_failure c) ;;
          ret (VDict (stamped W s d) :: rest', c'))%py s1) /\
    (forall config d rest c s s1 path is_default s2 s3,
       add_item W table_name (VDict (stamped W s d)) (ticked s) = (Ok true, s1) ->
       get_image_path W (stamped W s d) (image_path config) default_image_name s1
       = (Ok (path, is_default), s2) ->
       upload_image_to_s3 W path (with_default is_default (stamped W s d))
         (s3_bucket config) s2 = (Ok false, s3) ->
       process_products W config table_name (VDict d :: rest) c s
       = ('(rest', c') <-
            process_products W config table_name rest
              (incr_image_failure
                 (if is_default then incr_default_image_count (incr_db_success c)
                  else incr_db_success c)) ;;
          ret (VDict (with_default is_default (stamped W s d)) :: rest', c'))%py s3) /\
    (forall bucket text doc,
       getenv W "S3_BUCKET" = Some bucket -> bucket <> "" ->
       set_up W ->
       (forall l, open_read W l (yaml_path_of W yaml_file) = Some text) ->
       yaml_safe_load W text = Some doc ->
       document_ok doc = true ->
       run W (Parsed yaml_file table_name start count) = 0) /\
    (getenv W "S3_BUCKET" = None \/ getenv W "S3_BUCKET" = Some "" ->
     run W (Parsed yaml_file table_name start count) = 1) /\
    (forall bucket,
       getenv W "S3_BUCKET" = Some bucket -> bucket <> "" ->
       set_up W ->
       (forall l, open_read W l (yaml_path_of W yaml_file) = None) \/
       (exists text,
          (forall l, open_read W l (yaml_path_of W yaml_file) = Some text) /\
          yaml_safe_load W text = None) ->
       run W (Parsed yaml_file table_name start count) = 1) /\
    (forall bucket,
       getenv W "S3_BUCKET" = Some bucket -> bucket <> "" ->
       (forall l, makedirs W l (data_path_of W) = false) \/
       ((forall l, makedirs W l (data_path_of W) = true) /\
        (forall l, makedirs W l (image_path_of W) = false)) \/
       ((forall l, makedirs W l (data_path_of W) = true) /\
        (forall l, makedirs W l (image_path_of W) = true) /\
        (forall l, s3_client W l <> SetUp)) ->
       run W (Parsed yaml_file table_name start count) = 1) /\
    (run W (Parsed yaml_file table_name start count) = 1 ->
     getenv W "S3_BUCKET" = None \/
     getenv W "S3_BUCKET" = Some "" \/
     (exists l, makedirs W l (data_path_of W) = false) \/
     (exists l, makedirs W l (image_path_of W) = false) \/
     (exists l, s3_client W l <> SetUp) \/
     (exists l, open_read W l (yaml_path_of W yaml_file) = None) \/
     (exists l text,
        open_read W l (yaml_path_of W yaml_file) = Some text /\
        yaml_safe_load W text = None) \/
     (exists l text doc,
        open_read W l (yaml_path_of W yaml_file) = Some text /\
        yaml_safe_load W text = Some doc /\
        document_ok doc = false)).
Proof.
  intros W yaml_file table_name start count.
  split; [|split; [|split; [|split; [|split; [|split]]]]].
  - intros config d rest c s s1 Hadd. cbn [process_products].
    erewrite bind_run by (apply process_product_write_failed; exact Hadd).
    reflexivity.
  - intros config d rest c s s1 path is_default s2 s3 Hadd Hget Hup.
    assert (Hone : process_product W config table_name (VDict d) c s
                   = (Ok (VDict (with_default is_default (stamped W s d)),
                          incr_image_failure
                            (if is_default
                             then incr_default_image_count (incr_db_success c)
                             else incr_db_success c)), s3)).
    { unfold process_product.
      erewrite bind_run by reflexivity.
      erewrite bind_run by reflexivity.
      erewrite bind_run by exact Hadd. cbv iota.
      erewrite bind_run by exact Hget. cbv beta iota.
      destruct is_default; (erewrite bind_run by exact Hup); reflexivity. }
    cbn [process_products]. erewrite bind_run by exact Hone. reflexivity.
  - intros bucket text doc Hb Hne Hset Hopen Hyaml Hok.
    exact (run_zero W table_name yaml_file start count bucket text doc Hb Hne Hset
             (Hopen _) Hyaml Hok).
  - intros H. unfold run.
    rewrite (main_without_bucket W yaml_file table_name start count H). reflexivity.
  - intros bucket Hb Hne Hset H. unfold run.
    rewrite (main_without_document W yaml_file table_name start count bucket Hb Hne Hset).
    + reflexivity.
    + destruct H as [H|(text & H & Hy)].
      * left. apply H.
      * right. exists text. split; [apply H | exact Hy].
  - intros bucket Hb Hne H. unfold run.
    destruct H as [H|[[H1 H2]|(H1 & H2 & H3)]].
    + destruct (main_without_directory W yaml_file table_name start count bucket Hb Hne)
        as (Hr & _); [left; apply H|]. rewrite Hr. reflexivity.
    + destruct (main_without_directory W yaml_file table_name start count bucket Hb Hne)
        as (Hr & _); [right; split; [apply H1 | apply H2]|]. rewrite Hr. reflexivity.
    + exact (proj1 (main_without_s3_client W yaml_file table_name start count bucket
                      Hb Hne H1 H2 (H3 _))).
  - intros Hrun.
    destruct (getenv W "S3_BUCKET") as [bucket|] eqn:Hb; [|left; reflexivity].
    destruct (String.eqb_spec bucket "") as [->|Hne]; [right; left; reflexivity|].
    right. right.
    destruct (makedirs W configuring (data_path_of W)) eqn:Hd;
      [|left; exists configuring; exact Hd].
    right.
    destruct (makedirs W (configuring ++ [EMakedirs (data_path_of W)]) (image_path_of W))
      eqn:Hi; [|left; eexists; exact Hi].
    right.
    set (l3 := (configuring ++ [EMakedirs (data_path_of W); EMakedirs (image_path_of W);
                                EExit "_load_config"])%list).
    destruct (s3_client W l3) eqn:Hs3;
      [|left; exists l3; rewrite Hs3; discriminate
       |left; exists l3; rewrite Hs3; discriminate].
    right.
    assert (Hinit : init W {| client := false; log := [EEnter "main"] |}
                    = (Ok (config_of W bucket),
                       {| client := connect_ok W [EEnter "main"; EEnter "_connect"];
                          log := startup W |})).
    { assert (Ht : truthy (VStr bucket) = true).
      { unfold truthy. apply negb_true_iff. apply String.eqb_neq. exact Hne. }
      unfold init, _connect, _connect_raw, _load_config, _load_config_raw, os_makedirs,
        make_s3_client, debug, bind, try_except, call, emit, set_client, ret, config_of,
        startup, l3, configuring in *.
      fold (data_path_of W). fold (image_path_of W).
      cbn [log client fst snd app] in *. rewrite Hb, Ht.
      change (negb true) with false. cbv iota. cbn [log client app].
      rewrite Hd. change (negb true) with false. cbv iota. cbn [log client app].
      rewrite Hi. change (negb true) with false. cbv iota. cbn [log client app].
      rewrite Hs3. reflexivity. }
    set (l := (startup W ++ [EEnter "bulk_upload_products"])%list).
    destruct (open_read W l (yaml_path_of W yaml_file)) as [text|] eqn:Hopen;
      [|left; exists l; exact Hopen].
    right.
    destruct (yaml_safe_load W text) as [doc|] eqn:Hyaml;
      [|left; exists l, text; split; [exact Hopen | exact Hyaml]].
    right. exists l, text, doc. split; [exact Hopen|]. split; [exact Hyaml|].
    destruct (document_ok doc) eqn:Hok; [|reflexivity].
    exfalso.
    match type of Hinit with _ = (_, ?s) => set (s1 := s) in * end.
    destruct (bulk_upload_returns W (config_of W bucket) table_name yaml_file start count
                s1 text doc Hopen Hyaml Hok) as [r Hr].
    destruct (bulk_upload_products W (config_of W bucket) yaml_file table_name start
                count s1) as [r1 s2] eqn:E.
    simpl in Hr. subst r1. unfold run in Hrun.
    rewrite (main_returns W table_name yaml_file start count _ _ _ _ Hinit E) in Hrun.
    discriminate Hrun.
Qed.

Lemma store_failures_counted_exit_zero_witness :
  run Demo.hat_rejected (Parsed "products.yaml" "Products" 0 None) = 0.
Proof.
  destruct (store_failures_counted_exit_zero Demo.hat_rejected "products.yaml"
              "Products" 0 None) as (_ & _ & H & _).
  apply (H "catalog" "products" Demo.catalogue).
  - reflexivity.
  - discriminate.
  - split; [|split]; intros l; reflexivity.
  - intros l. reflexivity.
  - reflexivity.
  - reflexivity.
Defined.

(** C7, as stated, fails: the bucket is configured, the directories and the
    S3 client are made, the file is there and parses to a list of one
    mapping, the stores accept everything, and the process still ends with
    status 1, because the image of the record is a number and joining the
    path raises. *)
Lemma exit_one_on_parsed_input :
  getenv Demo.numbered_image "S3_BUCKET" = Some "catalog" /\
  set_up Demo.numbered_image /\
  (forall l, open_read Demo.numbered_image l "./data/products.yaml" = Some "products") /\
  yaml_safe_load Demo.numbered_image "products" = Some (VList [VDict Demo.numbered_fields]) /\
  run Demo.numbered_image (Parsed "products.yaml" "Products" 0 None) = 1.
Proof. repeat split. Qed.

(** A falsy document: [bulk_upload_products] returns before it does
    anything else. *)
Lemma bulk_upload_empty (W : World) config yaml_file table_name start count s text doc :
  open_read W (log s ++ [EEnter "bulk_upload_products"])
    (os_path_join (data_path config) [yaml_file]) = Some text ->
  yaml_safe_load W text = Some doc ->
  truthy doc = false ->
  bulk_upload_products W config yaml_file table_name start count s
  = (Ok None,
     {| client := client s;
        log := log s ++ [EEnter "bulk_upload_products";
                         EOpen (os_path_join (data_path config) [yaml_file]);
                         EExit "bulk_upload_products"] |}).
Proof.
  intros Hopen Hyaml Hfalsy.
  assert (Hraw : bulk_upload_products_raw W config yaml_file table_name start count
                   {| client := client s;
                      log := log s ++ [EEnter "bulk_upload_products"] |}
                 = (Ok None,
                    {| client := client s;
                       log := (log s ++ [EEnter "bulk_upload_products"])
                              ++ [EOpen (os_path_join (data_path config) [yaml_file])] |})).
  { unfold bulk_upload_products_raw. apply try_except_returns.
    unfold bulk_upload_body. erewrite bind_run by reflexivity.
    cbn [log client]. rewrite Hopen, Hyaml, Hfalsy. reflexivity. }
  unfold bulk_upload_products. rewrite (debug_returns _ _ _ _ _ Hraw).
  cbn [log client]. rewrite <- !app_assoc. reflexivity.
Qed.

(** C10.  When the file parses to an empty document or an empty list,
    [bulk_upload_products] returns at once: it answers no summary (no
    counter exists yet) and the log only gains the opening of the file
    between the decorator's two records, so neither store is written.  The
    process as a whole, once the bucket is configured and the directories
    and the S3 client are made, then writes to no store either and ends
    with status 0. *)
Theorem empty_document_returns_at_once :
  forall (W : World) (yaml_file table_name : string) (start : Z) (count : option Z)
         (text : string) (doc : value),
    yaml_safe_load W text = Some doc ->
    doc = VNone \/ doc = VList [] ->
    (forall config s,
       open_read W (log s ++ [EEnter "bulk_upload_products"])
         (os_path_join (data_path config) [yaml_file]) = Some text ->
       bulk_upload_products W config yaml_file table_name start count s
       = (Ok None,
          {| client := client s;
             log := log s ++ [EEnter "bulk_upload_products";
                              EOpen (os_path_join (data_path config) [yaml_file]);
                              EExit "bulk_upload_products"] |}) /\
       extends (fun e => negb (store_write e)) s
         (snd (bulk_upload_products W config yaml_file table_name start count s))) /\
    (forall bucket,
       getenv W "S3_BUCKET" = Some bucket -> bucket <> "" ->
       set_up W ->
       (forall l, open_read W l (yaml_path_of W yaml_file) = Some text) ->
       fst (main W (Parsed yaml_file table_name start count) initial) = Ok None /\
       forallb (fun e => negb (store_write e))
         (log (snd (main W (Parsed yaml_file table_name start count) initial))) = true /\
       run W (Parsed yaml_file table_name start count) = 0).
Proof.
  intros W yaml_file table_name start count text doc Hyaml Hdoc.
  assert (Hfalsy : truthy doc = false) by (destruct Hdoc; subst; reflexivity).
  split.
  - intros config s Hopen.
    pose proof (bulk_upload_empty W config yaml_file table_name start count s text doc
                  Hopen Hyaml Hfalsy) as Hbulk.
    split; [exact Hbulk|].
    rewrite Hbulk. cbn [snd]. eexists. split; reflexivity.
  - intros bucket Hb Hne Hset Hopen.
    pose proof (init_returns W bucket {| client := false; log := [EEnter "main"] |}
                  Hb Hne Hset) as Hinit.
    pose proof (main_returns W table_name yaml_file start count _ _ _ _ Hinit
                  (bulk_upload_empty W (config_of W bucket) yaml_file table_name start
                     count _ text doc (Hopen _) Hyaml Hfalsy))
      as Hmain.
    unfold run. rewrite Hmain. repeat split.
Qed.

Lemma empty_document_returns_at_once_witness :
  fst (main Demo.empty_list (Parsed "products.yaml" "Products" 0 None) initial) = Ok None /\
  run Demo.empty_list (Parsed "products.yaml" "Products" 0 None) = 0.
Proof.
  destruct (empty_document_returns_at_once Demo.empty_list "products.yaml" "Products"
              0 None "products" (VList [])) as (_ & H).
  - reflexivity.
  - right. reflexivity.
  - destruct (H "catalog") as (H1 & _ & H3).
    + reflexivity.
    + discriminate.
    + split; [|split]; intros l; reflexivity.
    + intros l. reflexivity.
    + split; [exact H1 | exact H3].
Defined.

End ExitFacts.

(** ** More on the conversion and the read side *)

Module ConversionFacts.
Import Py Sys Dbase App Props ReadSide Shapes.

(** Induction on values that reaches the members of lists and mappings. *)
Lemma value_nested_ind (P : value -> Prop) :
  (forall s, P (VStr s)) -> (forall n, P (VInt n)) -> (forall f, P (VFloat f)) ->
  (forall b, P (VBool b)) ->
  (forall l, Forall P l -> P (VList l)) ->
  (forall d, Forall (fun kv => P (snd kv)) d -> P (VDict d)) ->
  P VNone -> (forall r c, P (VBytes r c)) -> (forall r n, P (VSet r n)) ->
  (forall r, P (VOther r)) ->
  forall v, P v.
Proof.
  intros Hs Hn Hf Hb Hl Hd Hnone Hbytes Hset Ho.
  fix IH 1. intros v. destruct v as [s|n|f|b|l|d| |r c|r n|r].
  - apply Hs.
  - apply Hn.
  - apply Hf.
  - apply Hb.
  - apply Hl. induction l as [|x l IHl]; constructor; [apply IH | exact IHl].
  - apply Hd. induction d as [|[k x] d IHd]; constructor; [apply IH | exact IHd].
  - apply Hnone.
  - apply Hbytes.
  - apply Hset.
  - apply Ho.
Qed.

(** A mapping whose values are all transformed: look-up commutes with the
    transformation. *)
Lemma dict_get_map_values (f : value -> value) (k : string) (d : dict) :
  dict_get k (map (fun kv => (fst kv, f (snd kv))) d) = option_map f (dict_get k d).
Proof.
  induction d as [|[k' v] d IH]; simpl; [reflexivity|].
  destruct (String.eqb k k'); [reflexivity | exact IH].
Qed.

Lemma first_payload_read_back (W : World) (v : value) :
  first_payload (convert_to_dynamodb_format W v) = Some (read_back W v).
Proof. destruct v; reflexivity. Qed.

Lemma from_dynamodb_format_convert (W : World) (record : dict) :
  from_dynamodb_format (convert_item W record)
  = Some (map (fun kv => (fst kv, read_back W (snd kv))) record).
Proof.
  induction record as [|[k v] rest IH]; [reflexivity|].
  change (convert_item W ((k, v) :: rest))
    with ((k, convert_to_dynamodb_format W v) :: convert_item W rest).
  cbn [from_dynamodb_format]. rewrite first_payload_read_back, IH. reflexivity.
Qed.

(** X1.  Whatever the value, the conversion answers a one-entry dictionary
    tagged [S], [N], [NULL], [L] or [M] with a payload of the kind of the
    tag, and so at every depth of lists and mappings. *)
Theorem conversion_has_produced_shape :
  forall (W : World) (v : value),
    produced_shape (convert_to_dynamodb_format W v) = true.
Proof.
  intros W. apply value_nested_ind; try reflexivity.
  - intros l H.
    change (forallb produced_shape (map (convert_to_dynamodb_format W) l) = true).
    induction H as [|x l Hx _ IH]; simpl; [reflexivity|].
    rewrite Hx, IH. reflexivity.
  - intros d H.
    change (forallb (fun kv => produced_shape (snd kv)) (convert_item W d) = true).
    induction H as [|[k x] d Hx _ IH]; simpl; [reflexivity|].
    simpl in Hx. rewrite Hx, IH. reflexivity.
Qed.

(** X2.  Reading back any written record succeeds and keeps the names and
    the order of the fields.  A string comes back as it was; a number, a
    boolean or another object as a string; a null as [True]; a list or a
    mapping with its members still tagged, since the read side unwraps one
    level only. *)
Theorem written_record_reads_back :
  forall (W : World) (record : dict),
    from_dynamodb_format (convert_item W record)
    = Some (map (fun kv => (fst kv, read_back W (snd kv))) record) /\
    map fst (convert_item W record) = map fst record /\
    read_back W VNone = VBool true /\
    (forall l, read_back W (VList l) = VList (map (convert_to_dynamodb_format W) l)).
Proof.
  intros W record. split; [|split; [|split; [reflexivity | reflexivity]]].
  - apply from_dynamodb_format_convert.
  - unfold convert_item. rewrite map_map. reflexivity.
Qed.

(** X3.  The key the read side computes from a record as the importer
    wrote it: for a record whose category and image are strings it is
    [category/image]; for a record without category, or without image, the
    read side computes no key. *)
Theorem read_side_image_key :
  forall (W : World) (record decoded : dict),
    from_dynamodb_format (convert_item W record) = Some decoded ->
    (forall category image,
       dict_get "category" record = Some (VStr category) ->
       dict_get "image" record = Some (VStr image) ->
       image_key W decoded = Some (category ++ "/" ++ image)) /\
    (dict_contains "category" record = false \/ dict_contains "image" record = false ->
     image_key W decoded = None).
Proof.
  intros W record decoded H.
  rewrite from_dynamodb_format_convert in H. inversion H; subst decoded; clear H.
  unfold image_key, dict_contains, dict_get_default.
  rewrite !(dict_get_map_values (read_back W)). split.
  - intros category image Hc Hi. rewrite Hc, Hi. reflexivity.
  - intros [Hc|Hi].
    + unfold dict_contains in Hc. destruct (dict_get "category" record); [discriminate Hc|].
      destruct (dict_get "image" record); reflexivity.
    + unfold dict_contains in Hi. destruct (dict_get "image" record); [discriminate Hi|].
      reflexivity.
Qed.

Lemma read_side_image_key_witness :
  image_key Demo.all_accepted
    [("id", VStr "p1"); ("category", VStr "shoes"); ("image", VStr "a.png");
     ("price", VStr "40")]
  = Some "shoes/a.png".
Proof.
  destruct (read_side_image_key Demo.all_accepted Demo.shoe_fields
              [("id", VStr "p1"); ("category", VStr "shoes"); ("image", VStr "a.png");
               ("price", VStr "40")] eq_refl) as (H & _).
  exact (H "shoes" "a.png" eq_refl eq_refl).
Defined.

End ConversionFacts.

(** ** More on the window *)

Module PagingFacts.
Import Py Uploader.

Lemma firstn_then_more {A} (n m : nat) (l : list A) :
  (firstn n l ++ firstn m (skipn n l))%list = firstn (n + m) l.
Proof.
  revert l. induction n as [|n IH]; intros l; [reflexivity|].
  destruct l as [|x l]; simpl.
  - rewrite firstn_nil. reflexivity.
  - rewrite IH. reflexivity.
Qed.

(** X4.  Pages fit together: for a start and counts that are not negative,
    the window of [n] records from [start] followed by the window of [m]
    records from [start + n] is the window of [n + m] records from [start],
    and followed by the window from [start + n] to the end it is the window
    from [start] to the end.  A page holds [count] records, or what is left
    of the batch from [start] on when that is less. *)
Theorem windows_are_consecutive_pages :
  forall (A : Type) (batch : list A) (start n m : Z),
    0 <= start -> 0 <= n -> 0 <= m ->
    (select_window batch start (Some n) ++ select_window batch (start + n) (Some m))%list
    = select_window batch start (Some (n + m)) /\
    (select_window batch start (Some n) ++ select_window batch (start + n) None)%list
    = select_window batch start None /\
    List.length (select_window batch start (Some n))
    = Nat.min (Z.to_nat n) (List.length batch - Z.to_nat start).
Proof.
  intros A batch start n m Hs Hn Hm.
  rewrite !WindowFacts.window_count by lia.
  rewrite !WindowFacts.window_to_end by lia.
  rewrite !Z2Nat.inj_add by lia.
  rewrite (Nat.add_comm (Z.to_nat start) (Z.to_nat n)), <- skipn_skipn.
  split; [apply firstn_then_more|]. split.
  - apply firstn_skipn.
  - rewrite length_firstn, length_skipn. reflexivity.
Qed.

Lemma windows_are_consecutive_pages_witness :
  (select_window [10; 20; 30; 40; 50] 1 (Some 2)
   ++ select_window [10; 20; 30; 40; 50] 3 (Some 7))%list
  = [20; 30; 40; 50].
Proof.
  destruct (windows_are_consecutive_pages Z [10; 20; 30; 40; 50] 1 2 7) as (H & _);
    [lia | lia | lia |].
  exact H.
Defined.

(** X5.  Negative arguments are not rejected; they count from the end, as
    in any slice.  With a start that is not negative and a count so negative
    that [start + count] is below zero, the window runs from [start] and
    stops [-(start + count)] records before the end.  With a negative start
    and no count, the window is the last [-start] records, or the whole
    batch when it has fewer. *)
Theorem negative_arguments_count_from_the_end :
  forall (A : Type) (batch : list A) (start : Z),
    (forall n, 0 <= start -> start + n < 0 ->
       select_window batch start (Some n)
       = firstn (Z.to_nat (n + Z.of_nat (List.length batch)))
           (skipn (Z.to_nat start) batch)) /\
    (start < 0 ->
     select_window batch start None
     = skipn (Z.to_nat (Z.of_nat (List.length batch) + start)) batch).
Proof.
  intros A batch start. split.
  - intros n Hs Hneg. unfold select_window, end_index, slice, slice_bound.
    rewrite (Z.min_l (start + n)) by lia.
    destruct (Z.ltb_spec start 0); [lia|].
    destruct (Z.ltb_spec (start + n) 0); [|lia].
    destruct (Z.le_gt_cases start (Z.of_nat (List.length batch))) as [Hle|Hgt].
    + rewrite (Z.min_l start) by lia. f_equal. lia.
    + rewrite (Z.min_r start) by lia. rewrite Nat2Z.id, skipn_all.
      rewrite skipn_all2 by lia. rewrite !firstn_nil. reflexivity.
  - intros Hneg. unfold select_window, end_index, slice, slice_bound.
    rewrite Z.min_id.
    destruct (Z.ltb_spec start 0); [|lia].
    destruct (Z.ltb_spec (Z.of_nat (List.length batch)) 0); [lia|].
    rewrite Z.min_id.
    replace (Z.max 0 (start + Z.of_nat (List.length batch)))
      with (Z.of_nat (Z.to_nat (Z.of_nat (List.length batch) + start))) by lia.
    rewrite Nat2Z.id. apply firstn_all2. rewrite length_skipn. lia.
Qed.

Lemma negative_arguments_count_from_the_end_witness :
  select_window [10; 20; 30; 40; 50] 1 (Some (-3)) = [20; 30] /\
  select_window [10; 20; 30; 40; 50] (-2) None = [40; 50].
Proof.
  destruct (negative_arguments_count_from_the_end Z [10; 20; 30; 40; 50] 1) as (H & _).
  destruct (negative_arguments_count_from_the_end Z [10; 20; 30; 40; 50] (-2)) as (_ & H').
  split; [exact (H (-3) ltac:(lia) ltac:(lia)) | exact (H' ltac:(lia))].
Defined.

End PagingFacts.

(** ** The two store calls in closed form *)

Module CallFacts.
Import Py Sys Debug Dbase Uploader Props Trace Shapes.

Section WithWorld.
Variable W : World.

(** The undecorated [upload_image_to_s3], all cases at once. *)
Lemma upload_raw_closed path product bucket s :
  upload_image_to_s3_raw W path product bucket s
  = (Ok (path_exists W (log s) path && has_image_name product
         && returned (upload_file W (log s ++ [EExists path]) path bucket
                        (upload_key W product))),
     {| client := client s;
        log := log s ++ EExists path
               :: (if path_exists W (log s) path && has_image_name product
                   then [EUploadFile path bucket (upload_key W product)] else []) |}).
Proof.
  unfold upload_image_to_s3_raw, has_image_name, upload_key.
  unfold try_except at 1. erewrite bind_run by reflexivity.
  destruct (path_exists W (log s) path); [|reflexivity].
  change (negb true) with false. cbv iota zeta.
  destruct (truthy (dict_get_default "image" VNone product)); [|reflexivity].
  change (negb true) with false. cbv iota.
  unfold try_except, aws_call, bind, call, ret, raise. simpl.
  destruct (upload_file W _ _ _ _); simpl; rewrite <- app_assoc; reflexivity.
Qed.

(** The undecorated [add_item] on a record, all cases at once. *)
Lemma add_item_raw_closed table record s :
  add_item_raw W table (VDict record) s
  = (Ok ((if client s then true else connect_ok W (log s ++ [EEnter "_connect"]))
         && returned
              (put_item W
                 (if client s then log s
                  else log s ++ [EEnter "_connect"; EConnect; EExit "_connect"])
                 table (written_item W record))),
     {| client := if client s then true else connect_ok W (log s ++ [EEnter "_connect"]);
        log := (if client s then log s
                else log s ++ [EEnter "_connect"; EConnect; EExit "_connect"])
               ++ (if (if client s then true
                       else connect_ok W (log s ++ [EEnter "_connect"]))
                   then [EPutItem table (written_item W record)] else []) |}).
Proof.
  unfold add_item_raw, add_item_try, add_item_body, _connect, _connect_raw, debug,
    written_item, bind, try_except, get_client, aws_call, call, emit, set_client,
    ret, raise, bind.
  destruct s as [c l]. simpl. destruct c; simpl.
  - destruct (put_item W _ _ _); reflexivity.
  - destruct (connect_ok W _); simpl.
    + rewrite <- !app_assoc. simpl.
      destruct (put_item W _ _ _); reflexivity.
    + rewrite ?app_nil_r, <- ?app_assoc. reflexivity.
Qed.

End WithWorld.

(** X6.  [upload_image_to_s3] never raises.  It answers [True] exactly when
    the file is on disk, the record has an image name that is not empty, and
    [upload_file] returns.  It calls [upload_file] once, with the key
    [category/image], when the file and the name are there, and does not
    call it otherwise. *)
Theorem upload_image_to_s3_outcome :
  forall (W : World) (path : string) (product : dict) (bucket : string) (s : State),
    exists uploaded s',
      upload_image_to_s3 W path product bucket s = (Ok uploaded, s') /\
      client s' = client s /\
      uploaded
      = path_exists W (log s ++ [EEnter "upload_image_to_s3"]) path
        && has_image_name product
        && returned (upload_file W (log s ++ [EEnter "upload_image_to_s3"; EExists path])
                       path bucket (upload_key W product)) /\
      log s'
      = (log s ++ EEnter "upload_image_to_s3" :: EExists path
         :: (if path_exists W (log s ++ [EEnter "upload_image_to_s3"]) path
                && has_image_name product
             then [EUploadFile path bucket (upload_key W product)] else [])
         ++ [EExit "upload_image_to_s3"])%list.
Proof.
  intros W path product bucket s.
  pose proof (upload_raw_closed W path product bucket
                {| client := client s; log := log s ++ [EEnter "upload_image_to_s3"] |})
    as Hraw.
  apply (debug_returns "upload_image_to_s3") in Hraw. cbn [log client] in Hraw.
  eexists. eexists. split; [exact Hraw|].
  cbn [log client]. rewrite <- !app_assoc. repeat split.
Qed.

(** X7.  [add_item] on a record never raises.  When a client is set it
    sends the converted record and answers whether [put_item] returned.
    When none is set it first tries to connect, and remembers the client;
    if that fails it answers [False], sends nothing, and leaves no client,
    so that the next call tries again. *)
Theorem add_item_outcome :
  forall (W : World) (table : string) (record : dict) (s : State),
    (client s = true ->
     add_item W table (VDict record) s
     = (Ok (returned (put_item W (log s ++ [EEnter "add_item"]) table
                        (written_item W record))),
        {| client := true;
           log := log s ++ [EEnter "add_item"; EPutItem table (written_item W record);
                            EExit "add_item"] |})) /\
    (client s = false ->
     connect_ok W (log s ++ [EEnter "add_item"; EEnter "_connect"]) = false ->
     add_item W table (VDict record) s
     = (Ok false,
        {| client := false;
           log := log s ++ [EEnter "add_item"; EEnter "_connect"; EConnect;
                            EExit "_connect"; EExit "add_item"] |})) /\
    (client s = false ->
     connect_ok W (log s ++ [EEnter "add_item"; EEnter "_connect"]) = true ->
     add_item W table (VDict record) s
     = (Ok (returned (put_item W (log s ++ [EEnter "add_item"; EEnter "_connect";
                                            EConnect; EExit "_connect"])
                        table (written_item W record))),
        {| client := true;
           log := log s ++ [EEnter "add_item"; EEnter "_connect"; EConnect;
                            EExit "_connect";
                            EPutItem table (written_item W record);
                            EExit "add_item"] |})).
Proof.
  intros W table record s.
  pose proof (add_item_raw_closed W table record
                {| client := client s; log := log s ++ [EEnter "add_item"] |}) as Hraw.
  apply (debug_returns "add_item") in Hraw. cbn [log client] in Hraw.
  unfold add_item. rewrite Hraw. clear Hraw.
  split; [|split].
  - intros Hc. rewrite Hc. simpl. rewrite <- ?app_assoc. reflexivity.
  - intros Hc Hno. rewrite Hc. rewrite <- ?app_assoc. simpl. rewrite Hno.
    simpl. rewrite <- ?app_assoc. reflexivity.
  - intros Hc Hyes. rewrite Hc. rewrite <- ?app_assoc. simpl. rewrite Hyes.
    simpl. rewrite <- ?app_assoc. reflexivity.
Qed.

Lemma add_item_outcome_witness :
  add_item Demo.hat_rejected "Products" Demo.hat
    {| client := true; log := [] |}
  = (Ok false,
     {| client := true;
        log := [EEnter "add_item";
                EPutItem "Products" (written_item Demo.hat_rejected Demo.hat_fields);
                EExit "add_item"] |}).
Proof.
  destruct (add_item_outcome Demo.hat_rejected "Products" Demo.hat_fields
              {| client := true; log := [] |}) as (H & _).
  exact (H eq_refl).
Defined.

End CallFacts.

(** ** Store calls of a run *)

Module CountFacts.
Import Py Sys Debug Dbase Uploader Props Trace StepFacts LoopFacts RunFacts Shapes
  CallFacts.

Lemma puts_app l d : puts (l ++ d)%list = (puts l + puts d)%nat.
Proof. unfold puts. rewrite filter_app, length_app. reflexivity. Qed.

Lemma uploads_app l d : uploads (l ++ d)%list = (uploads l + uploads d)%nat.
Proof. unfold uploads. rewrite filter_app, length_app. reflexivity. Qed.

(** Events that are no store call leave both numbers as they are. *)
Lemma extends_no_store_call s s' :
  extends (fun e => negb (store_write e)) s s' ->
  puts (log s') = puts (log s) /\ uploads (log s') = uploads (log s).
Proof.
  intros (d & E & F). rewrite E, puts_app, uploads_app.
  assert (H : puts d = 0%nat /\ uploads d = 0%nat).
  { clear E. unfold puts, uploads.
    induction d as [|e d IH]; simpl; [split; reflexivity|].
    simpl in F. apply andb_prop in F. destruct F as [He Hd].
    destruct (IH Hd) as [IH1 IH2].
    destruct e; simpl in *; try discriminate He; split; assumption. }
  destruct H as [-> ->]. lia.
Qed.

Lemma lookup_event_no_store e : lookup_event e = true -> negb (store_write e) = true.
Proof. destruct e; simpl; try discriminate; reflexivity. Qed.

Section WithWorld.
Variable W : World.
Variable config : Config.
Variable table_name : string.

Lemma add_item_store_calls record s written s1 :
  add_item W table_name (VDict record) s = (Ok written, s1) ->
  (puts (log s) <= puts (log s1) <= puts (log s) + 1)%nat /\
  (written = true -> puts (log s1) = (puts (log s) + 1)%nat) /\
  uploads (log s1) = uploads (log s).
Proof.
  intros H.
  pose proof (add_item_raw_closed W table_name record
                {| client := client s; log := log s ++ [EEnter "add_item"] |}) as Hraw.
  apply (debug_returns "add_item") in Hraw. cbn [log client] in Hraw.
  unfold add_item in H. rewrite Hraw in H. inversion H; subst; clear H Hraw.
  cbn [log]. rewrite !puts_app, !uploads_app.
  destruct (client s).
  - rewrite !puts_app, !uploads_app. cbn. split; [lia|]. split; [intros _; lia | lia].
  - destruct (connect_ok W _); rewrite !puts_app, !uploads_app; cbn.
    + split; [lia|]. split; [intros _; lia | lia].
    + split; [lia|]. split; [intros F; discriminate F | lia].
Qed.

Lemma get_image_path_store_calls d base default s r s1 :
  get_image_path W d base default s = (r, s1) ->
  puts (log s1) = puts (log s) /\ uploads (log s1) = uploads (log s).
Proof.
  intros H. apply extends_no_store_call.
  eapply extends_weaken; [exact lookup_event_no_store|].
  pose proof (get_image_path_traces W d base default s) as T. rewrite H in T. exact T.
Qed.

Lemma upload_store_calls path product bucket s uploaded s1 :
  upload_image_to_s3 W path product bucket s = (Ok uploaded, s1) ->
  (uploads (log s) <= uploads (log s1) <= uploads (log s) + 1)%nat /\
  (uploaded = true -> uploads (log s1) = (uploads (log s) + 1)%nat) /\
  puts (log s1) = puts (log s).
Proof.
  intros H.
  pose proof (upload_raw_closed W path product bucket
                {| client := client s; log := log s ++ [EEnter "upload_image_to_s3"] |})
    as Hraw.
  apply (debug_returns "upload_image_to_s3") in Hraw. cbn [log client] in Hraw.
  unfold upload_image_to_s3 in H. rewrite Hraw in H. inversion H; subst; clear H Hraw.
  cbn [log]. rewrite !puts_app, !uploads_app.
  destruct (path_exists W _ path && has_image_name product); cbn.
  - split; [lia|]. split; [intros _; lia | lia].
  - split; [lia|]. split; [intros F; discriminate F | lia].
Qed.

(** One round: the store calls against the counters. *)
Lemma process_product_store_calls product c s product' c' s' :
  process_product W config table_name product c s = (Ok (product', c'), s') ->
  (puts (log s) + db_success c' <= puts (log s') + db_success c)%nat /\
  (puts (log s') <= puts (log s) + 1)%nat /\
  (uploads (log s) + image_success c' <= uploads (log s') + image_success c)%nat /\
  (uploads (log s') + db_success c <= uploads (log s) + db_success c')%nat /\
  (default_image_count c' + db_success c <= default_image_count c + db_success c')%nat.
Proof.
  intros H. apply process_product_inv in H.
  destruct H as (d & written & s1 & -> & Hadd & H).
  apply add_item_store_calls in Hadd. destruct Hadd as (P1 & P2 & P3).
  assert (T1 : puts (log (ticked s)) = puts (log s) /\
               uploads (log (ticked s)) = uploads (log s)).
  { unfold ticked. cbn [log]. rewrite puts_app, uploads_app. cbn. lia. }
  destruct T1 as [T1 T2]. rewrite T1 in *. rewrite T2 in *.
  destruct written.
  - destruct H as (path & is_default & s2 & uploaded & Hget & Hup & -> & ->).
    apply get_image_path_store_calls in Hget. destruct Hget as [G1 G2].
    apply upload_store_calls in Hup. destruct Hup as (U1 & U2 & U3).
    specialize (P2 eq_refl).
    destruct is_default, uploaded; simpl; try specialize (U2 eq_refl); lia.
  - destruct H as (-> & -> & ->). simpl. lia.
Qed.

Lemma process_products_store_calls subset :
  forall c s after c' s',
    process_products W config table_name subset c s = (Ok (after, c'), s') ->
    (puts (log s) + db_success c' <= puts (log s') + db_success c)%nat /\
    (puts (log s') <= puts (log s) + List.length subset)%nat /\
    (uploads (log s) + image_success c' <= uploads (log s') + image_success c)%nat /\
    (uploads (log s') + db_success c <= uploads (log s) + db_success c')%nat /\
    (default_image_count c' + db_success c <= default_image_count c + db_success c')%nat.
Proof.
  induction subset as [|product rest IH]; intros c s after c' s' H.
  - unfold process_products, ret in H. inversion H; subst. simpl. lia.
  - cbn [process_products] in H.
    apply bind_Ok in H. destruct H as ([p1 c1] & s1 & Hone & H).
    apply bind_Ok in H. destruct H as ([rest1 c2] & s2 & Hrest & H).
    unfold ret in H. inversion H; subst.
    apply process_product_store_calls in Hone. apply IH in Hrest. simpl. lia.
Qed.
End WithWorld.

(** X8.  A run that reaches its summary has called [put_item] at least
    once for each counted write success and at most once for each record it
    counted, has called [upload_file] at least once for each counted upload
    success and at most once for each written record, and has counted no
    more default images than written records. *)
Theorem store_calls_match_counters :
  forall (W : World) (config : Config) (yaml_file table_name : string)
         (start : Z) (count : option Z) (s : State)
         (after : list value) (c : Counters) (s' : State),
    bulk_upload_products W config yaml_file table_name start count s
    = (Ok (Some (after, c)), s') ->
    (puts (log s) + db_success c <= puts (log s'))%nat /\
    (puts (log s') <= puts (log s) + db_success c + db_failure c)%nat /\
    (uploads (log s) + image_success c <= uploads (log s'))%nat /\
    (uploads (log s') <= uploads (log s) + db_success c)%nat /\
    (default_image_count c <= db_success c)%nat.
Proof.
  intros W config yaml_file table_name start count s after c s' H.
  destruct (bulk_upload_summary W config table_name _ _ _ _ _ _ _ H)
    as (text & doc & products & s1 & _ & _ & _ & Hloop & ->).
  pose proof (process_products_counts W config table_name _ _ _ _ _ _ Hloop) as C.
  apply process_products_store_calls in Hloop.
  cbn [log db_success db_failure image_success image_failure default_image_count
       zero_counters] in *.
  rewrite !puts_app, !uploads_app in *. cbn in Hloop. cbn. lia.
Qed.

Lemma store_calls_match_counters_witness :
  match bulk_upload_products Demo.hat_rejected Demo.config "products.yaml"
          "Products" 0 None initial with
  | (Ok (Some (_, c)), s') =>
      (db_success c <= puts (log s') <= db_success c + db_failure c)%nat /\
      (image_success c <= uploads (log s') <= db_success c)%nat
  | _ => False
  end.
Proof.
  destruct (bulk_upload_products Demo.hat_rejected Demo.config "products.yaml"
              "Products" 0 None initial) as [[[[after c]|]|e] s1] eqn:E.
  - destruct (store_calls_match_counters Demo.hat_rejected Demo.config "products.yaml"
                "Products" 0 None initial after c s1 E) as (H1 & H2 & H3 & H4 & _).
    change (puts (log initial)) with 0%nat in *.
    change (uploads (log initial)) with 0%nat in *.
    lia.
  - vm_compute in E. discriminate E.
  - vm_compute in E. discriminate E.
Defined.

End CountFacts.

(** ** What the whole process sends and how it ends *)

Module ProcessFacts.
Import Py Sys Debug Dbase Uploader Props Trace StepFacts LoopFacts Shapes.

(** The rule for [bind] when the second part is only run on what the first
    part can return. *)
Lemma traces_bind_returned {A B} P (m : M A) (k : A -> M B) :
  traces P m ->
  (forall a, (exists s s1, m s = (Ok a, s1)) -> traces P (k a)) ->
  traces P (bind m k).
Proof.
  intros Hm Hk s. unfold bind. specialize (Hm s).
  destruct (m s) as [[a|e] s1] eqn:E; simpl in Hm.
  - eapply extends_trans; [exact Hm | apply Hk]. exists s, s1. exact E.
  - exact Hm.
Qed.

Lemma created_at_converted (W : World) now d :
  dict_get "created_at" (convert_item W (dict_set "created_at" (VStr now) d))
  = Some (tagged "S" (VStr now)).
Proof.
  unfold convert_item.
  rewrite (ConversionFacts.dict_get_map_values (convert_to_dynamodb_format W)).
  rewrite dict_get_set_same. reflexivity.
Qed.

Section Sent.
Variable W : World.
Variable P : event -> bool.
Hypothesis P_other : forall e, is_put e = false -> P e = true.
Hypothesis P_stamped :
  forall table now d,
    P (EPutItem table (VDict (convert_item W (dict_set "created_at" (VStr now) d)))) = true.

Lemma sent_connect : traces P (_connect W).
Proof.
  unfold _connect, _connect_raw. apply traces_debug; try (apply P_other; reflexivity).
  apply traces_bind; [apply traces_call, P_other; reflexivity | intros ok].
  apply traces_bind; [apply traces_set_client | intros _; apply traces_ret].
Qed.

Lemma sent_add_item table now d :
  traces P (add_item W table (VDict (dict_set "created_at" (VStr now) d))).
Proof.
  unfold add_item, add_item_raw. apply traces_debug; try (apply P_other; reflexivity).
  assert (Hput : traces P (add_item_try W table
                             (VDict (dict_set "created_at" (VStr now) d)))).
  { apply traces_try_except.
    - unfold add_item_body.
      apply traces_bind; [apply traces_aws_call, P_stamped | intros _; apply traces_ret].
    - intros e k E. destruct e; simpl in E; inversion E; subst; apply traces_ret. }
  apply traces_bind; [apply traces_get_client | intros c].
  destruct c; simpl; [exact Hput|].
  apply traces_bind; [apply sent_connect | intros connected].
  destruct connected; simpl; [exact Hput | apply traces_ret].
Qed.

Lemma sent_get_image_path d base default : traces P (get_image_path W d base default).
Proof.
  intros s. eapply extends_weaken; [|apply get_image_path_traces].
  intros e He. apply P_other. destruct e; simpl in *; try discriminate He; reflexivity.
Qed.

Lemma sent_upload path product bucket :
  traces P (upload_image_to_s3 W path product bucket).
Proof.
  unfold upload_image_to_s3. apply traces_debug; try (apply P_other; reflexivity).
  intros s. eapply extends_weaken; [|apply upload_raw_traces].
  intros e He. apply P_other. destruct e; simpl in *; try discriminate He; reflexivity.
Qed.

Lemma sent_process_product config table product c :
  traces P (process_product W config table product c).
Proof.
  unfold process_product.
  apply traces_bind; [apply traces_call, P_other; reflexivity | intros now].
  apply traces_bind_returned.
  { unfold setitem. destruct product; try apply traces_raise. apply traces_ret. }
  intros d1 (s & s1 & Hset).
  destruct product as [| | | | |d| | | |]; try discriminate Hset.
  unfold setitem, ret in Hset. inversion Hset; subst d1 s1; clear Hset.
  apply traces_bind; [apply sent_add_item | intros written].
  destruct written; [|apply traces_ret].
  apply traces_bind; [apply sent_get_image_path | intros [path is_default]].
  apply traces_bind; [apply sent_upload | intros uploaded].
  destruct uploaded; apply traces_ret.
Qed.

Lemma sent_process_products config table subset :
  forall c, traces P (process_products W config table subset c).
Proof.
  induction subset as [|product rest IH]; intros c; cbn [process_products].
  - apply traces_ret.
  - apply traces_bind; [apply sent_process_product | intros [p1 c1]].
    apply traces_bind; [apply IH | intros [rest1 c2]; apply traces_ret].
Qed.

Lemma sent_bulk_upload config yaml_file table start count :
  traces P (bulk_upload_products W config yaml_file table start count).
Proof.
  unfold bulk_upload_products. apply traces_debug; try (apply P_other; reflexivity).
  unfold bulk_upload_products_raw. apply traces_try_except.
  - unfold bulk_upload_body.
    apply traces_bind; [apply traces_call, P_other; reflexivity | intros file].
    destruct file as [text|]; [|apply traces_raise].
    destruct (yaml_safe_load W text) as [doc|]; [|apply traces_raise].
    destruct (negb (truthy doc)); [apply traces_ret|].
    apply traces_bind.
    { unfold py_len. destruct doc; try apply traces_raise; apply traces_ret. }
    intros len. apply traces_bind.
    { unfold sliced_items. destruct doc; try apply traces_raise; apply traces_ret. }
    intros subset.
    apply traces_bind; [apply sent_process_products | intros r; apply traces_ret].
  - intros e k E.
    destruct e; simpl in E; inversion E; subst; apply traces_raise.
Qed.

Lemma sent_makedirs path : traces P (os_makedirs W path).
Proof.
  unfold os_makedirs.
  apply traces_bind; [apply traces_call, P_other; reflexivity | intros made].
  destruct (negb made); [apply traces_raise | apply traces_ret].
Qed.

Lemma sent_init : traces P (init W).
Proof.
  unfold init.
  apply traces_bind; [apply traces_set_client | intros _].
  apply traces_bind; [apply sent_connect | intros _].
  apply traces_bind.
  - unfold _load_config. apply traces_debug; try (apply P_other; reflexivity).
    unfold _load_config_raw.
    destruct (getenv W "S3_BUCKET") as [b|]; [|apply traces_raise].
    destruct (negb (truthy (VStr b))); [apply traces_raise|].
    apply traces_bind; [apply sent_makedirs | intros _].
    apply traces_bind; [apply sent_makedirs | intros _; apply traces_ret].
  - intros cfg. apply traces_bind; [|intros _; apply traces_ret].
    unfold make_s3_client.
    apply traces_bind; [apply traces_call, P_other; reflexivity | intros made].
    destruct made; [apply traces_ret | apply traces_raise | apply traces_raise].
Qed.

Lemma sent_main cmd : traces P (main W cmd).
Proof.
  unfold main. apply traces_debug; try (apply P_other; reflexivity).
  unfold main_raw. destruct cmd as [yaml_file table start count| |];
    [|apply traces_raise | apply traces_raise].
  apply traces_try_except.
  - apply traces_bind; [apply sent_init | intros cfg; apply sent_bulk_upload].
  - intros e k E. destruct e; inversion E; subst. apply traces_raise.
Qed.
End Sent.

(** X9.  Whatever its input and however it ends, the process sends no item
    to the table without the time stamp: every call of [put_item] in its
    log has an item whose [created_at] is a tagged string. *)
Theorem every_item_sent_is_stamped :
  forall (W : World) (cmd : command_line),
    forallb stamp_written (log (snd (main W cmd initial))) = true.
Proof.
  intros W cmd.
  destruct (sent_main W stamp_written) with (s := initial) (cmd := cmd)
    as (d & E & F).
  - intros e He. destruct e; simpl in *; try discriminate He; reflexivity.
  - intros table now d. simpl. rewrite created_at_converted. reflexivity.
  - rewrite E. exact F.
Qed.

End ProcessFacts.

(** ** Exit status, again *)

Module StatusFacts.
Import Py Sys Debug Dbase Uploader Props Trace StepFacts LoopFacts RunFacts Shapes
  ExitFacts.

Section Rules.
Context {A B : Type}.
Variable P : exn -> bool.

Lemma raises_ret (a : A) : raises P (ret a).
Proof. intros s e s' H. discriminate H. Qed.

Lemma raises_raise (e : exn) : P e = true -> raises P (@raise A e).
Proof. intros He s e' s' H. inversion H; subst. exact He. Qed.

Lemma raises_total (m : M A) : total m -> raises P m.
Proof.
  intros Hm s e s' H. destruct (Hm s) as [a Ha]. rewrite H in Ha. discriminate Ha.
Qed.

Lemma raises_call (ask : list event -> A) (ev : event) : raises P (call ask ev).
Proof. intros s e s' H. discriminate H. Qed.

Lemma raises_bind (m : M A) (k : A -> M B) :
  raises P m -> (forall a, raises P (k a)) -> raises P (bind m k).
Proof.
  intros Hm Hk s e s' H. unfold bind in H.
  destruct (m s) as [[a|e0] s1] eqn:E.
  - exact (Hk a s1 e s' H).
  - inversion H; subst. exact (Hm s e s' E).
Qed.

Lemma raises_try_except (m : M A) (h : exn -> option (M A)) :
  raises P m -> (forall e k, h e = Some k -> raises P k) ->
  raises P (try_except m h).
Proof.
  intros Hm Hh s e s' H. unfold try_except in H.
  destruct (m s) as [[a|e0] s1] eqn:E; [discriminate H|].
  destruct (h e0) as [k|] eqn:Eh.
  - exact (Hh e0 k Eh s1 e s' H).
  - inversion H; subst. exact (Hm s e s' E).
Qed.
End Rules.

Lemma raises_set_client P (b : bool) : raises P (set_client b).
Proof. intros s e s' H. discriminate H. Qed.

Lemma raises_emit P (ev : event) : raises P (emit ev).
Proof. intros s e s' H. discriminate H. Qed.

Lemma Exception_ends_with_one e : is_Exception e = true -> ends_with_one e = true.
Proof. destruct e; simpl; try reflexivity. intros H. discriminate H. Qed.

(** The decorator raises what the function raises. *)
Lemma raises_debug {A} (name : string) (m : M A) :
  raises ends_with_one m -> raises ends_with_one (debug name m).
Proof.
  intros Hm. unfold debug.
  apply raises_bind; [apply raises_emit | intros _].
  apply raises_try_except.
  - apply raises_bind; [exact Hm | intros a].
    apply raises_bind; [apply raises_emit | intros _; apply raises_ret].
  - intros e k E. destruct (is_Exception e) eqn:Ee; inversion E; subst.
    apply raises_bind; [apply raises_emit | intros _].
    apply raises_raise, Exception_ends_with_one, Ee.
Qed.

Section WithWorld.
Variable W : World.

Lemma get_image_path_raises d base default :
  raises ends_with_one (get_image_path W d base default).
Proof.
  unfold get_image_path. apply raises_debug. unfold get_image_path_raw.
  destruct (negb (dict_contains "image" d)); [apply raises_ret|].
  apply raises_bind.
  { unfold getitem. destruct (dict_get "image" d);
      [apply raises_ret | apply raises_raise; reflexivity]. }
  intros image. apply raises_bind.
  { unfold os_path_join_values. destruct (strings_of _);
      [apply raises_ret | apply raises_raise; reflexivity]. }
  intros path. apply raises_bind; [apply raises_call | intros found].
  destruct (negb found); apply raises_ret.
Qed.

Lemma process_product_raises config table product c :
  raises ends_with_one (process_product W config table product c).
Proof.
  unfold process_product.
  apply raises_bind; [apply raises_call | intros now].
  apply raises_bind.
  { unfold setitem. destruct product;
      try (apply raises_raise; reflexivity). apply raises_ret. }
  intros d. apply raises_bind; [apply raises_total, add_item_total | intros written].
  destruct written; [|apply raises_ret].
  apply raises_bind; [apply get_image_path_raises | intros [path is_default]].
  apply raises_bind; [apply raises_total, upload_total | intros uploaded].
  destruct uploaded; apply raises_ret.
Qed.

Lemma process_products_raises config table subset :
  forall c, raises ends_with_one (process_products W config table subset c).
Proof.
  induction subset as [|product rest IH]; intros c; cbn [process_products].
  - apply raises_ret.
  - apply raises_bind; [apply process_product_raises | intros [p1 c1]].
    apply raises_bind; [apply IH | intros [rest1 c2]; apply raises_ret].
Qed.

Lemma bulk_upload_raises config yaml_file table start count :
  raises ends_with_one (bulk_upload_products W config yaml_file table start count).
Proof.
  unfold bulk_upload_products. apply raises_debug.
  unfold bulk_upload_products_raw. apply raises_try_except.
  - unfold bulk_upload_body.
    apply raises_bind; [apply raises_call | intros file].
    destruct file as [text|]; [|apply raises_raise; reflexivity].
    destruct (yaml_safe_load W text) as [doc|]; [|apply raises_raise; reflexivity].
    destruct (negb (truthy doc)); [apply raises_ret|].
    apply raises_bind.
    { unfold py_len. destruct doc;
        try (apply raises_raise; reflexivity); apply raises_ret. }
    intros len. apply raises_bind.
    { unfold sliced_items. destruct doc;
        try (apply raises_raise; reflexivity); apply raises_ret. }
    intros subset.
    apply raises_bind; [apply process_products_raises | intros r; apply raises_ret].
  - intros e k E.
    destruct e; simpl in E; inversion E; subst; apply raises_raise; reflexivity.
Qed.

Lemma init_raises : raises ends_with_one (init W).
Proof.
  unfold init.
  apply raises_bind; [apply raises_set_client | intros _].
  apply raises_bind.
  { unfold _connect. apply raises_debug. unfold _connect_raw.
    apply raises_bind; [apply raises_call | intros ok].
    apply raises_bind; [apply raises_set_client | intros _; apply raises_ret]. }
  intros _. apply raises_bind.
  - unfold _load_config. apply raises_debug. unfold _load_config_raw.
    destruct (getenv W "S3_BUCKET") as [b|]; [|apply raises_raise; reflexivity].
    destruct (negb (truthy (VStr b))); [apply raises_raise; reflexivity|].
    assert (Hm : forall path, raises ends_with_one (os_makedirs W path)).
    { intros path. unfold os_makedirs.
      apply raises_bind; [apply raises_call | intros made].
      destruct (negb made); [apply raises_raise; reflexivity | apply raises_ret]. }
    apply raises_bind; [apply Hm | intros _].
    apply raises_bind; [apply Hm | intros _; apply raises_ret].
  - intros cfg. apply raises_bind; [|intros _; apply raises_ret].
    unfold make_s3_client.
    apply raises_bind; [apply raises_call | intros made].
    destruct made; [apply raises_ret | apply raises_raise; reflexivity
                    | apply raises_raise; reflexivity].
Qed.

Lemma main_raises yaml_file table start count :
  raises ends_with_one (main W (Parsed yaml_file table start count)).
Proof.
  unfold main. apply raises_debug. unfold main_raw. apply raises_try_except.
  - apply raises_bind; [apply init_raises | intros cfg; apply bulk_upload_raises].
  - intros e k E. destruct e; inversion E; subst. apply raises_raise. reflexivity.
Qed.
End WithWorld.

(** X10.  The process ends with status 0, 1 or 2.  The status is 2 exactly
    when [parse_args] refuses the command line, and 0 when it prints the
    help; in both cases nothing else is done.  With the arguments parsed
    the status is 0 or 1. *)
Theorem exit_status_is_zero_one_or_two :
  forall (W : World) (cmd : command_line),
    (run W cmd = 0 \/ run W cmd = 1 \/ run W cmd = 2) /\
    (run W cmd = 2 <-> cmd = Usage) /\
    (run W Help = 0) /\
    (cmd = Help \/ cmd = Usage -> log (snd (main W cmd initial)) = [EEnter "main"]) /\
    (forall yaml_file table_name start count,
       cmd = Parsed yaml_file table_name start count ->
       run W cmd = 0 \/ run W cmd = 1).
Proof.
  intros W cmd.
  assert (Hparsed : forall yaml_file table_name start count,
             run W (Parsed yaml_file table_name start count) = 0 \/
             run W (Parsed yaml_file table_name start count) = 1).
  { intros yaml_file table_name start count. unfold run.
    destruct (main W (Parsed yaml_file table_name start count) initial)
      as [[r|e] s'] eqn:E.
    - left. reflexivity.
    - right. pose proof (main_raises W yaml_file table_name start count _ _ _ E) as H.
      destruct e; try reflexivity. simpl in *. apply Z.eqb_eq in H. exact H. }
  split; [|split; [|split; [|split]]].
  - destruct cmd as [yaml_file table_name start count| |].
    + destruct (Hparsed yaml_file table_name start count) as [H|H]; auto.
    + left. reflexivity.
    + right. right. reflexivity.
  - split.
    + destruct cmd as [yaml_file table_name start count| |]; intros H.
      * destruct (Hparsed yaml_file table_name start count) as [H0|H0];
          rewrite H0 in H; discriminate H.
      * discriminate H.
      * reflexivity.
    + intros ->. reflexivity.
  - reflexivity.
  - intros [->| ->]; reflexivity.
  - intros yaml_file table_name start count ->. apply Hparsed.
Qed.

Lemma exit_status_is_zero_one_or_two_witness :
  run Demo.all_accepted Usage = 2 /\
  log (snd (main Demo.all_accepted Usage initial)) = [EEnter "main"].
Proof.
  destruct (exit_status_is_zero_one_or_two Demo.all_accepted Usage)
    as (_ & (_ & H) & _ & Hlog & _).
  split; [exact (H eq_refl) | exact (Hlog (or_intror eq_refl))].
Defined.

(** X11.  Without a bucket in the environment ([S3_BUCKET] unset or empty)
    the process ends with status 1 at once: it has tried the DynamoDB
    connection and failed in [_load_config]; no file is opened and nothing is
    sent to either store. *)
Theorem missing_bucket_ends_before_any_work :
  forall (W : World) (yaml_file table_name : string) (start : Z) (count : option Z),
    getenv W "S3_BUCKET" = None \/ getenv W "S3_BUCKET" = Some "" ->
    run W (Parsed yaml_file table_name start count) = 1 /\
    log (snd (main W (Parsed yaml_file table_name start count) initial))
    = [EEnter "main"; EEnter "_connect"; EConnect; EExit "_connect";
       EEnter "_load_config"; EError "_load_config"].
Proof.
  intros W yaml_file table_name start count H. unfold run.
  rewrite (main_without_bucket W yaml_file table_name start count H).
  split; reflexivity.
Qed.

Lemma missing_bucket_ends_before_any_work_witness :
  run Cases.no_bucket (Parsed "products.yaml" "Products" 0 None) = 1.
Proof.
  destruct (missing_bucket_ends_before_any_work Cases.no_bucket "products.yaml"
              "Products" 0 None) as (H & _).
  - left. reflexivity.
  - exact H.
Defined.

(** X12.  With the bucket configured and the directories and the S3 client
    made, a missing input file and a text that does not parse both end the
    process with status 1 right after the file is opened: no record is
    processed and nothing is sent to either store.  When a directory or the
    S3 client cannot be made, the process ends with status 1 before that:
    no file is opened. *)
Theorem missing_or_unparsed_file_ends_the_run :
  forall (W : World) (yaml_file table_name : string) (start : Z) (count : option Z)
         (bucket : string),
    getenv W "S3_BUCKET" = Some bucket -> bucket <> "" ->
    (set_up W ->
     (forall l, open_read W l (yaml_path_of W yaml_file) = None) \/
     (exists text,
        (forall l, open_read W l (yaml_path_of W yaml_file) = Some text) /\
        yaml_safe_load W text = None) ->
     run W (Parsed yaml_file table_name start count) = 1 /\
     log (snd (main W (Parsed yaml_file table_name start count) initial))
     = (startup W ++ [EEnter "bulk_upload_products"; EOpen (yaml_path_of W yaml_file)])%list)
    /\
    ((forall l, makedirs W l (data_path_of W) = false) \/
     ((forall l, makedirs W l (data_path_of W) = true) /\
      (forall l, makedirs W l (image_path_of W) = false)) \/
     ((forall l, makedirs W l (data_path_of W) = true) /\
      (forall l, makedirs W l (image_path_of W) = true) /\
      (forall l, s3_client W l <> SetUp)) ->
     run W (Parsed yaml_file table_name start count) = 1 /\
     forallb (fun e => negb (is_open e || store_write e))
       (log (snd (main W (Parsed yaml_file table_name start count) initial))) = true).
Proof.
  intros W yaml_file table_name start count bucket Hb Hne. split.
  - intros Hset H. unfold run.
    rewrite (main_without_document W yaml_file table_name start count bucket Hb Hne Hset).
    + split; reflexivity.
    + destruct H as [H|(text & H & Hy)].
      * left. apply H.
      * right. exists text. split; [apply H | exact Hy].
  - intros H. unfold run. destruct H as [H|[[H1 H2]|(H1 & H2 & H3)]].
    + destruct (main_without_directory W yaml_file table_name start count bucket Hb Hne)
        as (Hr & Hl); [left; apply H|].
      rewrite Hr, Hl, H. split; reflexivity.
    + destruct (main_without_directory W yaml_file table_name start count bucket Hb Hne)
        as (Hr & Hl); [right; split; [apply H1 | apply H2]|].
      rewrite Hr, Hl, H1. split; reflexivity.
    + destruct (main_without_s3_client W yaml_file table_name start count bucket
                  Hb Hne H1 H2 (H3 _)) as (Hr & d & Hl & Hd).
      split; [exact Hr|]. rewrite Hl, forallb_app. apply andb_true_intro. split.
      * reflexivity.
      * clear Hl. induction d as [|e d IH]; [reflexivity|].
        simpl in Hd. apply andb_prop in Hd. destruct Hd as [He Hd].
        simpl. rewrite (IH Hd). destruct e; try discriminate He. reflexivity.
Qed.

Lemma missing_or_unparsed_file_ends_the_run_witness :
  run Demo.all_accepted (Parsed "elsewhere.yaml" "Products" 0 None) = 1 /\
  run Cases.no_directory (Parsed "products.yaml" "Products" 0 None) = 1 /\
  run Cases.no_profile (Parsed "products.yaml" "Products" 0 None) = 1.
Proof.
  split; [|split].
  - destruct (missing_or_unparsed_file_ends_the_run Demo.all_accepted "elsewhere.yaml"
                "Products" 0 None "catalog") as (H & _).
    + reflexivity.
    + discriminate.
    + destruct H as (H & _).
      * split; [|split]; intros l; reflexivity.
      * left. intros l. reflexivity.
      * exact H.
  - destruct (missing_or_unparsed_file_ends_the_run Cases.no_directory "products.yaml"
                "Products" 0 None "catalog") as (_ & H).
    + reflexivity.
    + discriminate.
    + destruct H as (H & _).
      * left. intros l. reflexivity.
      * exact H.
  - destruct (missing_or_unparsed_file_ends_the_run Cases.no_profile "products.yaml"
                "Products" 0 None "catalog") as (_ & H).
    + reflexivity.
    + discriminate.
    + destruct H as (H & _).
      * right. right. split; [|split]; intros l; [reflexivity | reflexivity | discriminate].
      * exact H.
Defined.

End StatusFacts.

(** ** Two scenarios of the loop *)

Module ScenarioFacts.
Import Py Sys Debug Dbase App Uploader Props Trace StepFacts LoopFacts ReadSide Shapes
  CallFacts CountFacts.

Section WithWorld.
Variable W : World.
Variable config : Config.
Variable table_name : string.

(** [add_item] when no client is set and none can be made. *)
Lemma add_item_without_client record s :
  (forall l, connect_ok W l = false) -> client s = false ->
  add_item W table_name (VDict record) s
  = (Ok false,
     {| client := false;
        log := log s ++ [EEnter "add_item"; EEnter "_connect"; EConnect;
                         EExit "_connect"; EExit "add_item"] |}).
Proof.
  intros Hno Hc.
  pose proof (add_item_raw_closed W table_name record
                {| client := client s; log := log s ++ [EEnter "add_item"] |}) as Hraw.
  apply (debug_returns "add_item") in Hraw. cbn [log client] in Hraw.
  unfold add_item. rewrite Hraw. rewrite Hc, Hno. simpl.
  rewrite <- ?app_assoc. reflexivity.
Qed.

Lemma process_products_without_client subset :
  (forall l, connect_ok W l = false) ->
  forallb is_mapping subset = true ->
  forall c s, client s = false ->
    exists after c' s',
      process_products W config table_name subset c s = (Ok (after, c'), s') /\
      client s' = false /\
      db_failure c' = (db_failure c + List.length subset)%nat /\
      db_success c' = db_success c /\
      image_success c' = image_success c /\
      image_failure c' = image_failure c /\
      default_image_count c' = default_image_count c /\
      puts (log s') = puts (log s) /\ uploads (log s') = uploads (log s).
Proof.
  intros Hno. induction subset as [|product rest IH]; intros Hall c s Hc.
  - exists [], c, s. simpl. repeat split; try reflexivity; try assumption; lia.
  - simpl in Hall. apply andb_prop in Hall. destruct Hall as [Hp Hrest].
    destruct product as [| | | | |d| | | |]; try discriminate Hp.
    assert (Hadd := add_item_without_client (stamped W s d) (ticked s) Hno Hc).
    pose proof (process_product_write_failed W config table_name d c s _ Hadd) as Hone.
    match type of Hone with _ = (_, ?st) => set (s1 := st) in * end.
    destruct (IH Hrest (incr_db_failure c) s1 eq_refl)
      as (after & c' & s' & Hloop & Hc' & F & S1 & S2 & S3 & S4 & Pu & Up).
    exists (VDict (stamped W s d) :: after), c', s'.
    split.
    { cbn [process_products]. erewrite bind_run by exact Hone. cbv beta iota.
      erewrite bind_run by exact Hloop. reflexivity. }
    split; [exact Hc'|].
    simpl in F, S1, S2, S3, S4.
    assert (Hs1 : puts (log s1) = puts (log s) /\ uploads (log s1) = uploads (log s)).
    { unfold s1, ticked. cbn [log]. rewrite !puts_app, !uploads_app. cbn. lia. }
    simpl. repeat split; lia.
Qed.
End WithWorld.

(** X13.  When no DynamoDB client can be made, the loop still goes through
    every record of the window: each one is counted as a failed write, no
    write is counted as a success, the image counters stay, and nothing is
    sent to either store. *)
Theorem without_client_every_write_fails :
  forall (W : World) (config : Config) (table_name : string)
         (subset : list value) (c : Counters) (s : State),
    (forall l, connect_ok W l = false) ->
    client s = false ->
    forallb is_mapping subset = true ->
    exists after c' s',
      process_products W config table_name subset c s = (Ok (after, c'), s') /\
      db_failure c' = (db_failure c + List.length subset)%nat /\
      db_success c' = db_success c /\
      image_success c' = image_success c /\
      image_failure c' = image_failure c /\
      puts (log s') = puts (log s) /\ uploads (log s') = uploads (log s).
Proof.
  intros W config table_name subset c s Hno Hc Hall.
  destruct (process_products_without_client W config table_name subset Hno Hall c s Hc)
    as (after & c' & s' & H & _ & F & S1 & S2 & S3 & _ & Pu & Up).
  exists after, c', s'. repeat split; assumption.
Qed.

Lemma without_client_every_write_fails_witness :
  exists after c' s',
    process_products Cases.no_client Demo.config "Products"
      [Demo.shoe; Demo.hat; Demo.sock] zero_counters initial = (Ok (after, c'), s') /\
    db_failure c' = 3%nat /\ puts (log s') = 0%nat.
Proof.
  destruct (without_client_every_write_fails Cases.no_client Demo.config "Products"
              [Demo.shoe; Demo.hat; Demo.sock] zero_counters initial)
    as (after & c' & s' & H & F & _ & _ & _ & Pu & _).
  - intros l. reflexivity.
  - reflexivity.
  - reflexivity.
  - exists after, c', s'. split; [exact H|]. split; [exact F | exact Pu].
Defined.

(** X14.  A record without image field, with a client set and a table that
    takes it: the item sent has no [image] attribute, so the read side
    computes no image key for it, while the record in memory gets the
    default file name and the default image, when it is uploaded, goes to
    the key [category/product_image_coming_soon.png]. *)
Theorem default_image_uploaded_but_not_recorded :
  forall (W : World) (config : Config) (table_name : string)
         (d : dict) (c : Counters) (s : State),
    client s = true ->
    dict_contains "image" d = false ->
    put_item W (log s ++ [ENow; EEnter "add_item"]) table_name
      (written_item W (stamped W s d)) = Returns ->
    exists (uploaded : bool) s',
      process_product W config table_name (VDict d) c s
      = (Ok (VDict (with_default true (stamped W s d)),
             (if uploaded then incr_image_success else incr_image_failure)
               (incr_default_image_count (incr_db_success c))), s') /\
      In (EPutItem table_name (written_item W (stamped W s d))) (log s') /\
      dict_get "image" (convert_item W (stamped W s d)) = None /\
      (forall decoded,
         from_dynamodb_format (convert_item W (stamped W s d)) = Some decoded ->
         image_key W decoded = None) /\
      (uploaded = true ->
       In (EUploadFile (os_path_join (image_path config) [default_image_name])
             (s3_bucket config)
             (str W (dict_get_default "category" (VStr "uncategorized") d)
              ++ "/product_image_coming_soon.png"))
          (log s')).
Proof.
  intros W config table_name d c s Hc Hno Hput.
  assert (Hno1 : dict_contains "image" (stamped W s d) = false).
  { unfold dict_contains, stamped in *.
    rewrite dict_get_set_other by discriminate. exact Hno. }
  (* the write *)
  pose proof (add_item_raw_closed W table_name (stamped W s d)
                {| client := client (ticked s);
                   log := log (ticked s) ++ [EEnter "add_item"] |}) as Hadd.
  apply (debug_returns "add_item") in Hadd. cbn [log client ticked] in Hadd.
  rewrite Hc in Hadd. rewrite <- ?app_assoc in Hadd. simpl in Hadd.
  rewrite Hput in Hadd. simpl in Hadd.
  fold (add_item W table_name (VDict (stamped W s d))) in Hadd.
  match type of Hadd with _ = (_, ?st) => set (s1 := st) in * end.
  (* the look-up *)
  pose proof (ImageFacts.get_image_path_raw_no_image W (stamped W s d)
                (image_path config) default_image_name
                {| client := client s1; log := log s1 ++ [EEnter "get_image_path"] |}
                Hno1) as Hget.
  apply (debug_returns "get_image_path") in Hget. cbn [log client] in Hget.
  fold (get_image_path W (stamped W s d) (image_path config) default_image_name) in Hget.
  match type of Hget with _ = (_, ?st) => set (s2 := st) in * end.
  (* the upload *)
  pose proof (upload_raw_closed W
                (os_path_join (image_path config) [default_image_name])
                (with_default true (stamped W s d)) (s3_bucket config)
                {| client := client s2; log := log s2 ++ [EEnter "upload_image_to_s3"] |})
    as Hup.
  apply (debug_returns "upload_image_to_s3") in Hup. cbn [log client] in Hup.
  fold (upload_image_to_s3 W (os_path_join (image_path config) [default_image_name])
          (with_default true (stamped W s d)) (s3_bucket config)) in Hup.
  assert (Hkey : upload_key W (with_default true (stamped W s d))
                 = str W (dict_get_default "category" (VStr "uncategorized") d)
                   ++ "/product_image_coming_soon.png").
  { unfold upload_key, with_default, stamped, dict_get_default.
    rewrite dict_get_set_same.
    rewrite !dict_get_set_other by discriminate. reflexivity. }
  rewrite Hkey in Hup.
  match type of Hup with
  | _ = (Ok (?t && returned ?o), _) => set (tried := t) in *; set (answer := o) in *
  end.
  exists (tried && returned answer).
  eexists. split.
  { unfold process_product.
    erewrite bind_run by reflexivity.
    erewrite bind_run by reflexivity.
    fold (stamped W s d). fold (ticked s).
    erewrite bind_run by (unfold ticked; exact Hadd). cbv iota.
    erewrite bind_run by exact Hget. cbv beta iota.
    erewrite bind_run by exact Hup.
    destruct (tried && returned answer); reflexivity. }
  split.
  { cbn [log]. unfold s2, s1. cbn [log]. rewrite <- ?app_assoc.
    apply in_or_app. right. simpl. tauto. }
  assert (Hnone : dict_get "image" (convert_item W (stamped W s d)) = None).
  { unfold convert_item.
    rewrite (ConversionFacts.dict_get_map_values (convert_to_dynamodb_format W)).
    unfold dict_contains in Hno1.
    destruct (dict_get "image" (stamped W s d)); [discriminate Hno1 | reflexivity]. }
  split; [exact Hnone|]. split.
  { intros decoded Hdec.
    rewrite ConversionFacts.from_dynamodb_format_convert in Hdec.
    inversion Hdec; subst decoded.
    unfold image_key, dict_contains.
    rewrite (ConversionFacts.dict_get_map_values (read_back W)).
    unfold dict_contains in Hno1.
    destruct (dict_get "image" (stamped W s d)); [discriminate Hno1 | reflexivity]. }
  intros Hu. apply andb_prop in Hu. destruct Hu as [Ht _].
  cbn [log]. rewrite Ht.
  apply in_or_app. left. apply in_or_app. right. simpl. tauto.
Qed.

Lemma default_image_uploaded_but_not_recorded_witness :
  exists (uploaded : bool) s',
    process_product Demo.all_accepted Demo.config "Products" Demo.hat zero_counters
      {| client := true; log := [] |}
    = (Ok (VDict (with_default true
                    (stamped Demo.all_accepted {| client := true; log := [] |}
                       Demo.hat_fields)),
           (if uploaded then incr_image_success else incr_image_failure)
             (incr_default_image_count (incr_db_success zero_counters))), s') /\
    (uploaded = true ->
     In (EUploadFile "./data/images/product_image_coming_soon.png" "catalog"
           "hats/product_image_coming_soon.png") (log s')).
Proof.
  destruct (default_image_uploaded_but_not_recorded Demo.all_accepted Demo.config
              "Products" Demo.hat_fields zero_counters {| client := true; log := [] |}
              eq_refl eq_refl eq_refl)
    as (uploaded & s' & H & _ & _ & _ & Hu).
  exists uploaded, s'. split; [exact H | exact Hu].
Defined.

End ScenarioFacts.

(** ** The web applications *)

Module WebFacts.
Import Py Sys Web WebDbase WebShapes.

Lemma wbind_run {A B} (m : WM A) (k : A -> WM B) s a s1 :
  m s = (Returned a, s1) -> wbind m k s = k a s1.
Proof. intros H. unfold wbind. rewrite H. reflexivity. Qed.

(** The decorator around a function that returns. *)
Lemma wdebug_returns {A} (name : string) (m : WM A) s a s1 :
  m {| wclient := wclient s; wlog := wlog s ++ [WEnter name] |} = (Returned a, s1) ->
  debug name m s
  = (Returned a, {| wclient := wclient s1; wlog := wlog s1 ++ [WExit name] |}).
Proof.
  intros H. unfold debug, wbind, wtry, wlogged, wret. simpl. rewrite H. reflexivity.
Qed.

Section WithServices.
Variable S : Services.

Lemma connect_closed s : _connect S s = (Returned (wclient (connected_from S s)),
                                         connected_from S s).
Proof.
  unfold _connect, _connect_raw, debug, wbind, wtry, wlogged, wret, connected_from.
  simpl. rewrite <- !app_assoc. reflexivity.
Qed.

(** The guard of the methods, by cases. *)
Lemma with_client_closed {A} (failed : A) (body : WM A) s :
  with_client S failed body s
  = if wclient s then body s
    else if wclient (connected_from S s) then body (connected_from S s)
         else (Returned failed, connected_from S s).
Proof.
  unfold with_client, wget_client. unfold wbind at 1.
  destruct (wclient s); [reflexivity|]. change (negb false) with true. cbv iota.
  unfold wbind. rewrite connect_closed.
  destruct (wclient (connected_from S s)); reflexivity.
Qed.

(** The guarded part of [get_item]. *)
Lemma fetch_closed table item_id s :
  wtry
    (wbind (aws (fun l => get_item_answer S l table (key_of item_id))
                (WGetItem table (key_of item_id)))
           (fun response =>
              match response with
              | Some item => wret (Some item)
              | None => wret None
              end))
    (fun e => match e with
              | WClientError _ => Some (wret None)
              | _ => Some (wret None)
              end) s
  = (Returned (match get_item_answer S (wlog s) table (key_of item_id) with
               | Gives r => r
               | Throws _ => None
               end),
     {| wclient := wclient s; wlog := wlog s ++ [WGetItem table (key_of item_id)] |}).
Proof.
  unfold wtry, wbind, aws, wret.
  destruct (get_item_answer S (wlog s) table (key_of item_id)) as [[item|]|[code|]];
    reflexivity.
Qed.

Lemma get_item_raw_with_client table item_id s :
  wclient s = true ->
  get_item_raw S table item_id s
  = (Returned (match get_item_answer S (wlog s) table (key_of item_id) with
               | Gives r => r
               | Throws _ => None
               end),
     {| wclient := true; wlog := wlog s ++ [WGetItem table (key_of item_id)] |}).
Proof.
  intros Hc. unfold get_item_raw. rewrite with_client_closed, Hc, fetch_closed, Hc.
  reflexivity.
Qed.

Lemma get_item_raw_returns table item_id s :
  exists r s', get_item_raw S table item_id s = (Returned r, s').
Proof.
  unfold get_item_raw. rewrite with_client_closed. rewrite !fetch_closed.
  destruct (wclient s); [eexists; eexists; reflexivity|].
  destruct (wclient (connected_from S s)); eexists; eexists; reflexivity.
Qed.

Lemma get_item_returns table item_id s :
  exists r s', get_item S table item_id s = (Returned r, s').
Proof.
  destruct (get_item_raw_returns table item_id
              {| wclient := wclient s; wlog := wlog s ++ [WEnter "get_item"] |})
    as (r & s1 & H).
  unfold get_item. rewrite (wdebug_returns _ _ _ _ _ H). eexists. eexists. reflexivity.
Qed.
End WithServices.

(** X15.  [get_item] never raises.  With a client set it asks for the item
    once and answers the item of the response, or [None] when the response
    has none or the call fails.  With no client set and none to be made it
    answers [None] without asking, and leaves no client. *)
Theorem get_item_outcome :
  forall (S : Services) (table : value) (item_id : string) (s : wstate),
    (exists r s', get_item S table item_id s = (Returned r, s')) /\
    (wclient s = true ->
     get_item S table item_id s
     = (Returned (match get_item_answer S (wlog s ++ [WEnter "get_item"]) table
                          (key_of item_id) with
                  | Gives r => r
                  | Throws _ => None
                  end),
        {| wclient := true;
           wlog := wlog s ++ [WEnter "get_item"; WGetItem table (key_of item_id);
                              WExit "get_item"] |})) /\
    (wclient s = false ->
     connects S (wlog s ++ [WEnter "get_item"; WEnter "_connect"]) = false ->
     get_item S table item_id s
     = (Returned None,
        {| wclient := false;
           wlog := wlog s ++ [WEnter "get_item"; WEnter "_connect"; WConnect;
                              WExit "_connect"; WExit "get_item"] |})).
Proof.
  intros S table item_id s. split; [apply get_item_returns|]. split.
  - intros Hc. unfold get_item.
    pose proof (get_item_raw_with_client S table item_id
                  {| wclient := wclient s; wlog := wlog s ++ [WEnter "get_item"] |} Hc)
      as Hraw.
    rewrite (wdebug_returns _ _ _ _ _ Hraw).
    cbn [wlog wclient]. rewrite <- !app_assoc. reflexivity.
  - intros Hc Hno. unfold get_item.
    assert (Hraw : get_item_raw S table item_id
                     {| wclient := wclient s; wlog := wlog s ++ [WEnter "get_item"] |}
                   = (Returned None,
                      {| wclient := false;
                         wlog := wlog s ++ [WEnter "get_item"; WEnter "_connect";
                                            WConnect; WExit "_connect"] |})).
    { unfold get_item_raw. rewrite with_client_closed. cbn [wclient]. rewrite Hc.
      unfold connected_from. cbn [wlog wclient]. rewrite <- !app_assoc.
      change ([WEnter "get_item"] ++ [WEnter "_connect"])%list
        with [WEnter "get_item"; WEnter "_connect"].
      rewrite Hno. reflexivity. }
    rewrite (wdebug_returns _ _ _ _ _ Hraw).
    cbn [wlog wclient]. rewrite <- !app_assoc. reflexivity.
Qed.

Lemma get_item_outcome_witness :
  get_item shop (VStr "Products") "p1" ready
  = (Returned (Some shoe_item),
     {| wclient := true;
        wlog := [WEnter "get_item"; WGetItem (VStr "Products") (key_of "p1");
                 WExit "get_item"] |}).
Proof.
  destruct (get_item_outcome shop (VStr "Products") "p1" ready) as (_ & H & _).
  exact (H eq_refl).
Defined.

Section Methods.
Variable S : Services.

(** A decorated and guarded method, by cases. *)
Lemma guarded_with_client {A} (name : string) (failed : A) (body : WM A) s a s1 :
  wclient s = true ->
  body (after_events s [WEnter name]) = (Returned a, s1) ->
  debug name (with_client S failed body) s = (Returned a, after_events s1 [WExit name]).
Proof.
  intros Hc H. apply wdebug_returns. rewrite with_client_closed. cbn [wclient].
  unfold after_events in H. rewrite Hc in *. exact H.
Qed.

Lemma guarded_without_client {A} (name : string) (failed : A) (body : WM A) s :
  wclient s = false ->
  connects S (wlog s ++ [WEnter name; WEnter "_connect"]) = false ->
  debug name (with_client S failed body) s
  = (Returned failed,
     {| wclient := false;
        wlog := wlog s ++ [WEnter name; WEnter "_connect"; WConnect; WExit "_connect";
                           WExit name] |}).
Proof.
  intros Hc Hno.
  assert (Hraw : with_client S failed body
                   {| wclient := wclient s; wlog := wlog s ++ [WEnter name] |}
                 = (Returned failed,
                    {| wclient := false;
                       wlog := wlog s ++ [WEnter name; WEnter "_connect"; WConnect;
                                          WExit "_connect"] |})).
  { rewrite with_client_closed. cbn [wclient]. rewrite Hc.
    unfold connected_from. cbn [wlog wclient]. rewrite <- !app_assoc.
    change ([WEnter name] ++ [WEnter "_connect"])%list
      with [WEnter name; WEnter "_connect"].
    rewrite Hno. reflexivity. }
  rewrite (wdebug_returns _ _ _ _ _ Hraw).
  cbn [wlog wclient]. rewrite <- !app_assoc. reflexivity.
Qed.

Lemma guarded_returns {A} (name : string) (failed : A) (body : WM A) :
  (forall s, exists a s', body s = (Returned a, s')) ->
  forall s, exists a s', debug name (with_client S failed body) s = (Returned a, s').
Proof.
  intros Hbody s.
  assert (Hraw : exists a s1,
             with_client S failed body
               {| wclient := wclient s; wlog := wlog s ++ [WEnter name] |}
             = (Returned a, s1)).
  { rewrite with_client_closed. cbn [wclient].
    destruct (wclient s); [apply Hbody|].
    destruct (wclient (connected_from S _)); [apply Hbody|]. eexists. eexists. reflexivity. }
  destruct Hraw as (a & s1 & Hraw).
  rewrite (wdebug_returns _ _ _ _ _ Hraw). eexists. eexists. reflexivity.
Qed.

(** The two calls of [create_table] and of [delete_table] under their
    handlers. *)
Lemma table_calls_closed (accepted : string) (first second : list wevent -> answer unit)
    (e1 e2 : wevent) s :
  wtry (wbind (aws first e1) (fun _ => wbind (aws second e2) (fun _ => wret true)))
       (fun e => match e with
                 | WClientError code =>
                     if String.eqb code accepted then Some (wret true)
                     else Some (wret false)
                 | _ => Some (wret false)
                 end) s
  = (Returned (table_call_result accepted (first (wlog s))
                 (second (wlog s ++ [e1])%list)),
     after_events s (calls_made (first (wlog s)) e1 e2)).
Proof.
  unfold wtry, wbind, aws, wret, table_call_result, calls_made, after_events, has_code.
  destruct (first (wlog s)) as [[]|[c|]]; cbn [wlog wclient].
  - destruct (second (wlog s ++ [e1])%list) as [[]|[c|]]; cbn [wlog wclient];
      try destruct (String.eqb c accepted); rewrite <- ?app_assoc; reflexivity.
  - destruct (String.eqb c accepted); reflexivity.
  - reflexivity.
Qed.

(** [get_s3_image_url] of [products.py], by the answers of S3. *)
Lemma products_url_closed (image_key : string) s :
  Products.get_s3_image_url S image_key s
  = (Returned (url_of (head_object_answer S (wlog s) (bucket_of S) image_key)
                      (presign_answer S (wlog s ++ [WHeadObject (bucket_of S) image_key])
                                      (bucket_of S) image_key)),
     after_events s (calls_made (head_object_answer S (wlog s) (bucket_of S) image_key)
                                (WHeadObject (bucket_of S) image_key)
                                (WPresign (bucket_of S) image_key))).
Proof.
  unfold Products.get_s3_image_url, wtry, wbind, aws, wret, wraise, url_of, calls_made,
    after_events. fold (bucket_of S).
  destruct (head_object_answer S (wlog s) (bucket_of S) image_key) as [[]|[c|]];
    cbn [wlog wclient negb].
  - destruct (presign_answer S (wlog s ++ [WHeadObject (bucket_of S) image_key])
                (bucket_of S) image_key) as [u|e];
      cbn [wlog wclient]; rewrite <- ?app_assoc; reflexivity.
  - destruct (String.eqb c "404"); reflexivity.
  - reflexivity.
Qed.
(** The calls of [create_table] under their handlers: after a call that
    returned, [table.meta] raises and the catch-all clause answers
    [False]. *)
Lemma create_calls_closed (table : value) s :
  wtry (wbind (aws (fun l => create_table_answer S l table) (WCreateTable table))
          (fun _ => wbind meta_of_response
             (fun _ => wbind (aws (fun l => wait_exists_answer S l table)
                                  (WWaitTableExists table))
                (fun _ => wret true))))
       (fun e => match e with
                 | WClientError code =>
                     if String.eqb code "ResourceInUseException" then Some (wret true)
                     else Some (wret false)
                 | _ => Some (wret false)
                 end) s
  = (Returned (create_table_result (create_table_answer S (wlog s) table)),
     after_events s [WCreateTable table]).
Proof.
  unfold wtry, wbind, aws, wret, wraise, meta_of_response, create_table_result,
    after_events, has_code.
  destruct (create_table_answer S (wlog s) table) as [[]|[c|]]; cbn [wlog wclient].
  - reflexivity.
  - destruct (String.eqb c "ResourceInUseException"); reflexivity.
  - reflexivity.
Qed.

Lemma dbase_create_table_returns (table : value) s :
  exists r s', create_table S table s = (Returned r, s').
Proof.
  unfold create_table, create_table_raw.
  apply guarded_returns. intros s0. eexists. eexists.
  exact (create_calls_closed table s0).
Qed.

Lemma dbase_create_table_with_client (table : value) s :
  wclient s = true ->
  create_table S table s
  = (Returned (create_table_result
                 (create_table_answer S (wlog s ++ [WEnter "create_table"]) table)),
     after_events s [WEnter "create_table"; WCreateTable table; WExit "create_table"]).
Proof.
  intros Hc. unfold create_table, create_table_raw.
  rewrite (guarded_with_client "create_table" false _ s _ _ Hc
             (create_calls_closed table (after_events s [WEnter "create_table"]))).
  unfold after_events. cbn [wlog wclient]. rewrite <- !app_assoc. reflexivity.
Qed.

Lemma dbase_create_table_without_client (table : value) s :
  wclient s = false ->
  connects S (wlog s ++ [WEnter "create_table"; WEnter "_connect"]) = false ->
  create_table S table s
  = (Returned false,
     {| wclient := false;
        wlog := wlog s ++ [WEnter "create_table"; WEnter "_connect"; WConnect;
                           WExit "_connect"; WExit "create_table"] |}).
Proof. unfold create_table, create_table_raw. apply guarded_without_client. Qed.
End Methods.

(** X16.  [create_table] never raises.  With a client set it makes the one
    call that creates the table and never waits for the table: when the call
    returns, [table.meta] fails on the dictionary the client answered, and
    the method answers [False] although the table is being created.  It
    answers [True] only when the call fails with a [ClientError] of code
    [ResourceInUseException], that is for a table that is there already.
    With no client set and none to be made it answers [False] without
    asking. *)
Theorem create_table_outcome :
  forall (S : Services) (table : value) (s : wstate),
    (exists r s', create_table S table s = (Returned r, s')) /\
    (wclient s = true ->
     create_table S table s
     = (Returned (create_table_result
                    (create_table_answer S (wlog s ++ [WEnter "create_table"]) table)),
        after_events s
          [WEnter "create_table"; WCreateTable table; WExit "create_table"]) /\
     (create_table_answer S (wlog s ++ [WEnter "create_table"]) table = Gives tt ->
      fst (create_table S table s) = Returned false)) /\
    (wclient s = false ->
     connects S (wlog s ++ [WEnter "create_table"; WEnter "_connect"]) = false ->
     create_table S table s
     = (Returned false,
        {| wclient := false;
           wlog := wlog s ++ [WEnter "create_table"; WEnter "_connect"; WConnect;
                              WExit "_connect"; WExit "create_table"] |})).
Proof.
  intros S table s. split; [|split].
  - apply dbase_create_table_returns.
  - intros Hc. split; [apply dbase_create_table_with_client; exact Hc|].
    intros Hg. rewrite (dbase_create_table_with_client S table s Hc), Hg. reflexivity.
  - apply dbase_create_table_without_client.
Qed.

Lemma create_table_outcome_witness :
  create_table shop (VStr "Products") ready
  = (Returned true,
     {| wclient := true;
        wlog := [WEnter "create_table"; WCreateTable (VStr "Products");
                 WExit "create_table"] |}) /\
  fst (create_table new_account (VStr "Products") ready) = Returned false.
Proof.
  split.
  - destruct (create_table_outcome shop (VStr "Products") ready) as (_ & H & _).
    exact (proj1 (H eq_refl)).
  - destruct (create_table_outcome new_account (VStr "Products") ready) as (_ & H & _).
    exact (proj2 (H eq_refl) eq_refl).
Defined.

(** X17.  [delete_table] never raises.  With a client set it asks to delete
    the table, and waits only when that call returned; it answers [True]
    when both calls return, and also when the one that fails does so with a
    [ClientError] of code [ResourceNotFoundException]; any other failure
    gives [False].  With no client set and none to be made it answers
    [False] without asking. *)
Theorem delete_table_outcome :
  forall (S : Services) (table : value) (s : wstate),
    (exists r s', delete_table S table s = (Returned r, s')) /\
    (wclient s = true ->
     delete_table S table s
     = (Returned (table_call_result "ResourceNotFoundException"
                    (delete_table_answer S (wlog s ++ [WEnter "delete_table"]) table)
                    (wait_not_exists_answer S
                       ((wlog s ++ [WEnter "delete_table"]) ++ [WDeleteTable table]) table)),
        after_events s
          ([WEnter "delete_table"]
           ++ calls_made (delete_table_answer S (wlog s ++ [WEnter "delete_table"]) table)
                (WDeleteTable table) (WWaitTableNotExists table)
           ++ [WExit "delete_table"]))) /\
    (wclient s = false ->
     connects S (wlog s ++ [WEnter "delete_table"; WEnter "_connect"]) = false ->
     delete_table S table s
     = (Returned false,
        {| wclient := false;
           wlog := wlog s ++ [WEnter "delete_table"; WEnter "_connect"; WConnect;
                              WExit "_connect"; WExit "delete_table"] |})).
Proof.
  intros S table s. unfold delete_table, delete_table_raw.
  split; [|split].
  - apply guarded_returns. intros s0. eexists. eexists.
    exact (table_calls_closed "ResourceNotFoundException"
             (fun l => delete_table_answer S l table)
             (fun l => wait_not_exists_answer S l table)
             (WDeleteTable table) (WWaitTableNotExists table) s0).
  - intros Hc.
    rewrite (guarded_with_client S "delete_table" false _ s _ _ Hc
               (table_calls_closed "ResourceNotFoundException"
                  (fun l => delete_table_answer S l table)
                  (fun l => wait_not_exists_answer S l table)
                  (WDeleteTable table) (WWaitTableNotExists table)
                  (after_events s [WEnter "delete_table"]))).
    unfold after_events. cbn [wlog wclient]. rewrite <- !app_assoc. reflexivity.
  - apply guarded_without_client.
Qed.

Lemma delete_table_outcome_witness :
  delete_table offline (VStr "Products") fresh
  = (Returned false,
     {| wclient := false;
        wlog := [WEnter "delete_table"; WEnter "_connect"; WConnect; WExit "_connect";
                 WExit "delete_table"] |}).
Proof.
  destruct (delete_table_outcome offline (VStr "Products") fresh) as (_ & _ & H).
  exact (H eq_refl eq_refl).
Defined.

(** X18.  [get_s3_image_url] of [products.py] never raises and leaves the
    client as it was.  It answers a URL only when [head_object] returned and
    [generate_presigned_url] gave that URL; after a [head_object] that
    failed, with code 404 or in any other way, it answers [None] and no URL
    is asked for. *)
Theorem products_image_url_outcome :
  forall (S : Services) (image_key : string) (s : wstate),
    let head := head_object_answer S (wlog s) (bucket_of S) image_key in
    let asked := WHeadObject (bucket_of S) image_key in
    exists url s',
      Products.get_s3_image_url S image_key s = (Returned url, s') /\
      wclient s' = wclient s /\
      (forall u, url = Some u ->
         head = Gives tt /\
         presign_answer S (wlog s ++ [asked]) (bucket_of S) image_key = Gives u /\
         wlog s' = (wlog s ++ [asked; WPresign (bucket_of S) image_key])%list) /\
      (forall e, head = Throws e -> url = None /\ wlog s' = (wlog s ++ [asked])%list).
Proof.
  intros S image_key s head asked. eexists. eexists.
  split; [apply products_url_closed|]. subst head asked.
  split; [reflexivity|]. split.
  - intros u Hu.
    destruct (head_object_answer S (wlog s) (bucket_of S) image_key) as [[]|e];
      [|discriminate Hu].
    cbn [url_of] in Hu.
    destruct (presign_answer S (wlog s ++ [WHeadObject (bucket_of S) image_key])
                (bucket_of S) image_key) as [u'|e]; [|discriminate Hu].
    inversion Hu; subst u'. repeat split; reflexivity.
  - intros e He. rewrite He. split; reflexivity.
Qed.

Lemma products_image_url_outcome_witness :
  exists s',
    Products.get_s3_image_url offline "shoes/a.png" ready = (Returned None, s') /\
    wlog s' = [WHeadObject (VStr "catalog") "shoes/a.png"].
Proof.
  destruct (products_image_url_outcome offline "shoes/a.png" ready)
    as (url & s' & H & _ & _ & Hfail).
  destruct (Hfail (WClientError "403") eq_refl) as (Hurl & Hlog).
  exists s'. rewrite Hurl in H. split; [exact H | exact Hlog].
Defined.

Lemma wbind_Ok {A B} (m : WM A) (k : A -> WM B) s b s' :
  wbind m k s = (Returned b, s') ->
  exists a s1, m s = (Returned a, s1) /\ k a s1 = (Returned b, s').
Proof.
  unfold wbind. destruct (m s) as [[a|e] s1]; intros H; [eauto | discriminate H].
Qed.

(** A block whose handler catches everything and returns. *)
Lemma handled_everywhere {A} (P : A -> Prop) (m : WM A) (k : wexn -> WM A) s :
  (forall a s', m s = (Returned a, s') -> P a) ->
  (forall e s1, exists a s', k e s1 = (Returned a, s') /\ P a) ->
  exists a s', wtry m (fun e => Some (k e)) s = (Returned a, s') /\ P a.
Proof.
  intros Hm Hk. unfold wtry. destruct (m s) as [[a|e] s1].
  - exists a, s1. split; [reflexivity | apply (Hm a s1); reflexivity].
  - apply Hk.
Qed.

Section Serving.
Variable S : Services.

Lemma jsonify_closed (v : value) (status : Z) s :
  Products.json_ok S v = true ->
  Products.jsonify S v status s
  = (Returned {| Products.body := v; Products.status_code := status |}, s).
Proof. intros H. unfold Products.jsonify. rewrite H. reflexivity. Qed.

Lemma jsonify_status (v : value) (status : Z) s r s' :
  Products.jsonify S v status s = (Returned r, s') -> Products.status_code r = status.
Proof.
  unfold Products.jsonify, wret, wraise. destruct (Products.json_ok S v); intros H.
  - inversion H. reflexivity.
  - discriminate H.
Qed.






(** The key the read side computes for a record as the importer wrote it. *)
Lemma image_key_of_strings (W : World) (record : dict) (category image : string) :
  dict_get "category" record = Some (VStr category) ->
  dict_get "image" record = Some (VStr image) ->
  ReadSide.image_key (runtime S) (decoded_record W record)
  = Some (Shapes.upload_key W record).
Proof.
  intros Hc Hi.
  unfold ReadSide.image_key, Shapes.upload_key, dict_contains, dict_get_default,
    decoded_record.
  rewrite !(ConversionFacts.dict_get_map_values (Shapes.read_back W)).
  rewrite Hc, Hi. reflexivity.
Qed.


Lemma decode_written (W : World) (record : dict) s :
  Products.decode (Dbase.convert_item W record) s
  = (Returned (decoded_record W record), s).
Proof.
  unfold Products.decode. rewrite ConversionFacts.from_dynamodb_format_convert.
  reflexivity.
Qed.

Lemma truthy_written (W : World) (record : dict) :
  record <> [] -> truthy (VDict (Dbase.convert_item W record)) = true.
Proof. destruct record; [congruence | reflexivity]. Qed.

(** [get_s3_image_url] of [app.py], by the answer of S3. *)
Lemma page_url_closed (image_key : string) s :
  Page.get_s3_image_url S image_key s
  = match presign_answer S (wlog s) (Page.env S "S3_BUCKET") image_key with
    | Gives url =>
        (Returned (Some url),
         after_events s [WPresign (Page.env S "S3_BUCKET") image_key])
    | Throws (WClientError code) =>
        (Returned None, after_events s [WPresign (Page.env S "S3_BUCKET") image_key])
    | Throws WOtherError =>
        (Raised WOtherError,
         after_events s [WPresign (Page.env S "S3_BUCKET") image_key])
    end.
Proof.
  unfold Page.get_s3_image_url, wtry, wbind, aws, wret, after_events.
  destruct (presign_answer S (wlog s) (Page.env S "S3_BUCKET") image_key) as [u|[c|]];
    reflexivity.
Qed.
End Serving.

(** X19.  [get_product] never raises, and its status is 200, 404 or 500. *)
Theorem get_product_always_answers :
  forall (S : Services) (product_id : string) (s : wstate),
    exists response s',
      Products.get_product S product_id s = (Returned response, s') /\
      (Products.status_code response = 200
       \/ Products.status_code response = 404
       \/ Products.status_code response = 500).
Proof.
  intros S product_id s. unfold Products.get_product.
  apply (handled_everywhere
           (fun r => Products.status_code r = 200 \/ Products.status_code r = 404
                     \/ Products.status_code r = 500)).
  - intros r s' H. cbv zeta in H.
    apply wbind_Ok in H as (product & s1 & _ & H).
    destruct product as [item|];
      [|apply jsonify_status in H; right; left; exact H].
    destruct (truthy (VDict item));
      [|apply jsonify_status in H; right; left; exact H].
    apply wbind_Ok in H as (product_dict & s2 & _ & H).
    destruct (ReadSide.image_key (runtime S) product_dict) as [key|];
      [|apply jsonify_status in H; left; exact H].
    apply wbind_Ok in H as (url & s3 & _ & H).
    destruct url as [u|]; [destruct (truthy (VStr u))|];
      apply jsonify_status in H; left; exact H.
  - intros e s1. eexists. eexists. split.
    + apply jsonify_closed. reflexivity.
    + right; right; reflexivity.
Qed.

(** X20.  What [get_product] answers when [get_item] gives no item, an empty
    one, or one that cannot be decoded: 404 with the message [Product not
    found] in the first two cases, 500 in the third; in none of them is S3
    asked anything. *)
Theorem get_product_without_product :
  forall (S : Services) (product_id : string) (s s1 : wstate) (r : option dict),
    get_item S (table_of S) product_id s = (Returned r, s1) ->
    (r = None \/ r = Some [] ->
     Products.get_product S product_id s
     = (Returned {| Products.body := Products.not_found_body;
                    Products.status_code := 404 |}, s1)) /\
    (forall item, r = Some item -> item <> [] -> App.from_dynamodb_format item = None ->
     Products.get_product S product_id s
     = (Returned {| Products.body := Products.error_body S WOtherError;
                    Products.status_code := 500 |}, s1)).
Proof.
  intros S product_id s s1 r Hget. unfold Products.get_product, wtry. cbv zeta.
  fold (table_of S). rewrite (wbind_run _ _ _ _ _ Hget). split.
  - intros [H|H]; subst r; reflexivity.
  - intros item Hr Hne Hbad. subst r.
    destruct item as [|kv item]; [congruence|].
    change (truthy (VDict (kv :: item))) with true. cbv iota.
    unfold Products.decode, wbind. rewrite Hbad. reflexivity.
Qed.

Lemma get_product_without_product_witness :
  exists s1,
    Products.get_product shop "zz" ready
    = (Returned {| Products.body := Products.not_found_body;
                   Products.status_code := 404 |}, s1).
Proof.
  destruct (get_item shop (table_of shop) "zz" ready) as [r s1] eqn:E.
  destruct r as [[item|]|e].
  - vm_compute in E. discriminate E.
  - exists s1.
    destruct (get_product_without_product shop "zz" ready s1 None E) as (H & _).
    exact (H (or_introl eq_refl)).
  - vm_compute in E. discriminate E.
Defined.



(** X22.  [index] of [app.py] looks nothing up and hands the template no
    product, no URL and no error when the request is no POST, or its form
    has no [product_id] or an empty one. *)
Theorem index_without_lookup :
  forall (S : Services) (method : string) (form_product_id : option string)
         (s : wstate),
    String.eqb method "POST" = false \/ form_product_id = None
    \/ form_product_id = Some ""%string ->
    Page.index S method form_product_id s
    = (Returned {| Page.product := None; Page.image_url := None; Page.error := None |},
       s).
Proof.
  intros S method form s H. unfold Page.index. cbv zeta.
  destruct (String.eqb method "POST"); [|reflexivity].
  destruct H as [H|[H|H]]; [discriminate H | subst form; reflexivity
                            | subst form; reflexivity].
Qed.

Lemma index_without_lookup_witness :
  Page.index shop "GET" (Some "p1"%string) ready
  = (Returned {| Page.product := None; Page.image_url := None; Page.error := None |},
     ready).
Proof.
  apply (index_without_lookup shop "GET" (Some "p1"%string) ready).
  left. reflexivity.
Defined.

(** X23.  [index] on a POST with a [product_id]: when [get_item] gives no
    item the template gets the error [Product not found]; when it gives an
    item that cannot be decoded, [index] raises, where [get_product] answers
    500. *)
Theorem index_without_product :
  forall (S : Services) (product_id : string) (s s1 : wstate) (r : option dict),
    product_id <> ""%string ->
    get_item S (Page.env S "DYNAMODB_TABLE_NAME") product_id s = (Returned r, s1) ->
    (r = None ->
     Page.index S "POST" (Some product_id) s
     = (Returned {| Page.product := None; Page.image_url := None;
                    Page.error := Some "Product not found"%string |}, s1)) /\
    (forall item, r = Some item -> item <> [] -> App.from_dynamodb_format item = None ->
     Page.index S "POST" (Some product_id) s = (Raised WOtherError, s1)).
Proof.
  intros S product_id s s1 r Hid Hget. unfold Page.index. cbv zeta.
  change (String.eqb "POST" "POST") with true. cbv iota.
  assert (Ht : truthy (VStr product_id) = true).
  { unfold truthy. apply negb_true_iff. apply String.eqb_neq. exact Hid. }
  rewrite Ht. rewrite (wbind_run _ _ _ _ _ Hget). split.
  - intros H. subst r. reflexivity.
  - intros item Hr Hne Hbad. subst r.
    destruct item as [|kv item]; [congruence|].
    change (truthy (VDict (kv :: item))) with true. cbv iota.
    unfold Products.decode, wbind. rewrite Hbad. reflexivity.
Qed.

Lemma index_without_product_witness :
  exists s1,
    Page.index shop "POST" (Some "zz"%string) ready
    = (Returned {| Page.product := None; Page.image_url := None;
                   Page.error := Some "Product not found"%string |}, s1).
Proof.
  destruct (get_item shop (Page.env shop "DYNAMODB_TABLE_NAME") "zz" ready)
    as [r s1] eqn:E.
  assert (Hid : "zz"%string <> ""%string) by discriminate.
  destruct r as [[item|]|e].
  - vm_compute in E. discriminate E.
  - exists s1.
    destruct (index_without_product shop "zz" ready s1 None Hid E) as (H & _).
    exact (H eq_refl).
  - vm_compute in E. discriminate E.
Defined.

(** X24.  [index] on a record as the importer wrote it, with a category and
    an image that are strings: it asks S3 for a URL of the key the importer
    uploads the image under, without asking whether the object is there.
    The template gets the decoded fields with the URL; with no URL when the
    call fails with a [ClientError]; and [index] raises when the call fails
    in another way. *)
Theorem index_on_written_record :
  forall (S : Services) (W : World) (record : dict) (product_id category image : string)
         (s s1 : wstate),
    product_id <> ""%string ->
    record <> [] ->
    get_item S (Page.env S "DYNAMODB_TABLE_NAME") product_id s
    = (Returned (Some (Dbase.convert_item W record)), s1) ->
    dict_get "category" record = Some (VStr category) ->
    dict_get "image" record = Some (VStr image) ->
    let key := Shapes.upload_key W record in
    let asked := WPresign (Page.env S "S3_BUCKET") key in
    Page.index S "POST" (Some product_id) s
    = match presign_answer S (wlog s1) (Page.env S "S3_BUCKET") key with
      | Gives url =>
          (Returned {| Page.product := Some (decoded_record W record);
                       Page.image_url := Some url; Page.error := None |},
           after_events s1 [asked])
      | Throws (WClientError _) =>
          (Returned {| Page.product := Some (decoded_record W record);
                       Page.image_url := None; Page.error := None |},
           after_events s1 [asked])
      | Throws WOtherError => (Raised WOtherError, after_events s1 [asked])
      end.
Proof.
  intros S W record product_id category image s s1 Hid Hne Hget Hc Hi key asked.
  unfold Page.index. cbv zeta.
  change (String.eqb "POST" "POST") with true. cbv iota.
  assert (Ht : truthy (VStr product_id) = true).
  { unfold truthy. apply negb_true_iff. apply String.eqb_neq. exact Hid. }
  rewrite Ht. rewrite (wbind_run _ _ _ _ _ Hget). rewrite (truthy_written W record Hne).
  rewrite (wbind_run _ _ _ _ _ (decode_written W record s1)).
  rewrite (image_key_of_strings S W record category image Hc Hi). fold key.
  unfold wbind. rewrite page_url_closed. fold asked.
  destruct (presign_answer S (wlog s1) (Page.env S "S3_BUCKET") key) as [u|[c|]];
    reflexivity.
Qed.

Lemma index_on_written_record_witness :
  exists s',
    Page.index shop "POST" (Some "p1"%string) ready
    = (Returned {| Page.product :=
                     Some (decoded_record Demo.all_accepted
                             (Props.stamped Demo.all_accepted Uploader.initial
                                Demo.shoe_fields));
                   Page.image_url := Some "https://signed"%string;
                   Page.error := None |}, s') /\
    wlog s' = [WEnter "get_item"; WGetItem VNone (key_of "p1"); WExit "get_item";
               WPresign (VStr "catalog") "shoes/a.png"].
Proof.
  assert (Hid : "p1"%string <> ""%string) by discriminate.
  assert (Hne : Props.stamped Demo.all_accepted Uploader.initial Demo.shoe_fields <> [])
    by discriminate.
  assert (E : get_item shop (Page.env shop "DYNAMODB_TABLE_NAME") "p1" ready
              = (Returned (Some (Dbase.convert_item Demo.all_accepted
                                   (Props.stamped Demo.all_accepted Uploader.initial
                                      Demo.shoe_fields))),
                 {| wclient := true;
                    wlog := [WEnter "get_item"; WGetItem VNone (key_of "p1");
                             WExit "get_item"] |})) by reflexivity.
  pose proof (index_on_written_record shop Demo.all_accepted _ "p1" "shoes" "a.png"
                ready _ Hid Hne E eq_refl eq_refl) as H.
  eexists. split; [exact H | reflexivity].
Defined.

End WebFacts.

(** ** The other routes *)

Module RouteFacts.
Import Py Sys Web WebDbase WebShapes Routes.

Section WithServices.
Variable S : Services.

(** [aws_login], by the answers of AWS. *)
Lemma aws_login_closed (profile_name region_name : value) s :
  aws_login S profile_name region_name s
  = (Returned (logged_in
                 (session_answer S (wlog s) (profile_used profile_name) region_name)
                 (identity_answer S
                    (wlog s ++ [WSession (profile_used profile_name) region_name]))),
     after_events s
       (calls_made (session_answer S (wlog s) (profile_used profile_name) region_name)
          (WSession (profile_used profile_name) region_name) WCallerIdentity)).
Proof.
  unfold aws_login, profile_used.
  destruct (truthy profile_name);
    unfold wtry, wbind, aws, wret, logged_in, calls_made, after_events;
    (destruct (session_answer S (wlog s) _ region_name) as [[]|[c|]]; cbn [wlog wclient];
     [destruct (identity_answer S _) as [[]|[c|]]; cbn [wlog wclient];
      rewrite <- ?app_assoc; reflexivity
     | reflexivity | reflexivity]).
Qed.

Lemma jsonify_cases (v : value) (status : Z) s :
  Products.jsonify S v status s
  = (Returned {| Products.body := v; Products.status_code := status |}, s)
  \/ Products.jsonify S v status s = (Raised WOtherError, s).
Proof.
  unfold Products.jsonify. destruct (Products.json_ok S v); [left | right]; reflexivity.
Qed.

(** A new object and a method on it: the events of [_connect] come first,
    and the client of [db] stays. *)
Lemma on_new_instance_closed {A} (method : WM A) s :
  on_new_instance S method s
  = (fst (method (connected_from S {| wclient := false; wlog := wlog s |})),
     {| wclient := wclient s;
        wlog := wlog (snd (method (connected_from S
                                     {| wclient := false; wlog := wlog s |}))) |}).
Proof.
  unfold on_new_instance, wbind. rewrite WebFacts.connect_closed.
  destruct (method _) as [r s']. reflexivity.
Qed.

Lemma on_new_create_returns (table : value) s :
  exists ok s', on_new_instance S (WebDbase.create_table S table) s = (Returned ok, s')
                /\ wclient s' = wclient s.
Proof.
  rewrite on_new_instance_closed.
  destruct (WebFacts.dbase_create_table_returns S table
              (connected_from S {| wclient := false; wlog := wlog s |})) as (ok & s' & H).
  rewrite H. eexists. eexists. split; reflexivity.
Qed.
End WithServices.

(** X25.  [aws_login] never raises and does not touch the client of [db].
    It answers a session only when the session could be made and the caller
    identity was given; when the session cannot be made the identity is not
    asked for. *)
Theorem aws_login_outcome :
  forall (S : Services) (profile_name region_name : value) (s : wstate),
    let asked := WSession (profile_used profile_name) region_name in
    let session := session_answer S (wlog s) (profile_used profile_name) region_name in
    let identity := identity_answer S (wlog s ++ [asked]) in
    exists ok s',
      aws_login S profile_name region_name s = (Returned ok, s') /\
      wclient s' = wclient s /\
      (ok = true -> session = Gives tt /\ identity = Gives tt) /\
      (forall e, session = Throws e -> ok = false /\ wlog s' = (wlog s ++ [asked])%list) /\
      (forall e, identity = Throws e -> ok = false).
Proof.
  intros S profile_name region_name s asked session identity.
  eexists. eexists. split; [apply aws_login_closed|].
  fold asked. fold session. fold identity.
  split; [reflexivity|]. split; [|split].
  - destruct session as [[]|e]; [|discriminate].
    destruct identity as [[]|e]; [|discriminate]. split; reflexivity.
  - intros e He. rewrite He. split; reflexivity.
  - intros e He. rewrite He. destruct session; reflexivity.
Qed.

Lemma aws_login_outcome_witness :
  exists s', aws_login offline VNone (VStr "us-east-1") ready = (Returned false, s').
Proof.
  destruct (aws_login_outcome offline VNone (VStr "us-east-1") ready)
    as (ok & s' & H & _ & _ & _ & Hid).
  rewrite (Hid (WClientError "InvalidClientTokenId") eq_refl) in H.
  exists s'. exact H.
Defined.

(** X26.  [login_aws] never raises, does not touch the client of [db], and
    its status is 200, 401 or 500.  A request whose body is no JSON object
    is answered with 500 before anything is asked of AWS.  For a body that
    is one, the status is 200 when [aws_login] gives a session and 401 when
    it gives none; the region is [us-east-1] when the body names none. *)
Theorem login_aws_answers :
  forall (S : Services) (request_json : option value) (s : wstate),
    exists response s',
      login_aws S request_json s = (Returned response, s') /\
      wclient s' = wclient s /\
      (Products.status_code response = 200 \/ Products.status_code response = 401
       \/ Products.status_code response = 500) /\
      ((forall d, request_json <> Some (VDict d)) ->
       Products.status_code response = 500 /\ s' = s) /\
      (forall d, request_json = Some (VDict d) ->
         Products.json_ok S (region_of d) = true ->
         let asked := WSession (profile_used (profile_of d)) (region_of d) in
         let session :=
           session_answer S (wlog s) (profile_used (profile_of d)) (region_of d) in
         Products.status_code response
         = (if logged_in session (identity_answer S (wlog s ++ [asked]))
            then 200 else 401) /\
         s' = after_events s (calls_made session asked WCallerIdentity)).
Proof.
  intros S request_json s. unfold login_aws, wtry.
  assert (Hfail : forall e s0,
             Products.jsonify S
               (VDict [("status", VStr "error");
                       ("message", VStr ("Error during AWS authentication: "
                                         ++ exn_text S e))]) 500 s0
             = (Returned {| Products.body :=
                              VDict [("status", VStr "error");
                                     ("message",
                                      VStr ("Error during AWS authentication: "
                                            ++ exn_text S e))];
                            Products.status_code := 500 |}, s0)).
  { intros e s0. apply WebFacts.jsonify_closed. reflexivity. }
  assert (Hbad : forall data, (forall d, data <> VDict d) ->
             wbind (get_method data "profile_name" VNone)
               (fun profile_name =>
                  wbind (get_method data "region_name" (VStr "us-east-1"))
                    (fun region_name =>
                       wbind (aws_login S profile_name region_name)
                         (fun session =>
                            if session
                            then Products.jsonify S
                                   (VDict [("status", VStr "success");
                                           ("message",
                                            VStr "Successfully authenticated with AWS");
                                           ("region", region_name)]) 200
                            else Products.jsonify S
                                   (VDict [("status", VStr "error");
                                           ("message",
                                            VStr "Failed to authenticate with AWS")])
                                   401))) s
             = (Raised WOtherError, s)).
  { intros data Hd. destruct data; try reflexivity. exfalso. apply (Hd d). reflexivity. }
  destruct request_json as [data|].
  - unfold get_json. rewrite (WebFacts.wbind_run (wret data) _ s data s eq_refl).
    destruct data as [x|n|f|b|l|d| |r c|r n|r];
      try (rewrite Hbad by discriminate; rewrite Hfail;
           eexists; eexists; split; [reflexivity|]; split; [reflexivity|];
           split; [right; right; reflexivity|]; split;
           [intros _; split; reflexivity | intros d Hd; discriminate Hd]).
    unfold get_method.
    rewrite (WebFacts.wbind_run (wret (dict_get_default "profile_name" VNone d)) _ s _ s
               eq_refl).
    rewrite (WebFacts.wbind_run
               (wret (dict_get_default "region_name" (VStr "us-east-1") d)) _ s _ s
               eq_refl).
    fold (profile_of d). fold (region_of d).
    rewrite (WebFacts.wbind_run _ _ _ _ _ (aws_login_closed S (profile_of d) (region_of d) s)).
    set (asked := WSession (profile_used (profile_of d)) (region_of d)).
    set (session := session_answer S (wlog s) (profile_used (profile_of d)) (region_of d)).
    set (identity := identity_answer S (wlog s ++ [asked])).
    destruct (logged_in session identity) eqn:Hin.
    + match goal with
      | |- context [Products.jsonify S ?v 200 ?s0] =>
          destruct (jsonify_cases S v 200 s0) as [J|J]; rewrite J
      end.
      * eexists. eexists. split; [reflexivity|]. split; [reflexivity|].
        split; [left; reflexivity|]. split.
        -- intros Hd. exfalso. apply (Hd d). reflexivity.
        -- intros d' Hd' Hok. inversion Hd'; subst d'.
           fold asked. fold session. fold identity. rewrite Hin. split; reflexivity.
      * rewrite Hfail. eexists. eexists. split; [reflexivity|]. split; [reflexivity|].
        split; [right; right; reflexivity|]. split.
        -- intros Hd. exfalso. apply (Hd d). reflexivity.
        -- intros d' Hd' Hok. inversion Hd'; subst d'. exfalso.
           unfold Products.jsonify in J.
           change (Products.json_ok S
                     (VDict [("status", VStr "success");
                             ("message", VStr "Successfully authenticated with AWS");
                             ("region", region_of d)]))
             with (Products.json_ok S (region_of d) && true) in J.
           rewrite Hok in J. discriminate J.
    + match goal with
      | |- context [Products.jsonify S ?v 401 ?s0] =>
          rewrite (WebFacts.jsonify_closed S v 401 s0 eq_refl)
      end.
      eexists. eexists. split; [reflexivity|]. split; [reflexivity|].
      split; [right; left; reflexivity|]. split.
      * intros Hd. exfalso. apply (Hd d). reflexivity.
      * intros d' Hd' Hok. inversion Hd'; subst d'.
        fold asked. fold session. fold identity. rewrite Hin. split; reflexivity.
  - unfold get_json, wbind, wraise. rewrite Hfail.
    eexists. eexists. split; [reflexivity|]. split; [reflexivity|].
    split; [right; right; reflexivity|]. split.
    + intros _. split; reflexivity.
    + intros d Hd. discriminate Hd.
Qed.

Lemma login_aws_answers_witness :
  exists response s',
    login_aws offline (Some (VDict [])) ready = (Returned response, s') /\
    Products.status_code response = 401 /\
    wlog s' = [WSession None (VStr "us-east-1"); WCallerIdentity].
Proof.
  destruct (login_aws_answers offline (Some (VDict [])) ready)
    as (response & s' & H & _ & _ & _ & Hd).
  destruct (Hd [] eq_refl eq_refl) as (Hs & Hl).
  exists response, s'. split; [exact H|]. split; [exact Hs|].
  rewrite Hl. reflexivity.
Defined.

Section CreateTableRoute.
Variable S : Services.

(** The handler of the route answers 500. *)
Lemma create_table_failure (e : wexn) s :
  Products.jsonify S
    (VDict [("status", VStr "error");
            ("message", VStr ("Error creating DynamoDB table: " ++ exn_text S e))]) 500 s
  = (Returned {| Products.body :=
                   VDict [("status", VStr "error");
                          ("message", VStr ("Error creating DynamoDB table: "
                                            ++ exn_text S e))];
                 Products.status_code := 500 |}, s).
Proof. apply WebFacts.jsonify_closed. reflexivity. Qed.

(** The route on a body that is no JSON object. *)
Lemma create_table_no_mapping (data : value) s :
  Shapes.is_mapping data = false ->
  exists response,
    Routes.create_table S (Some data) s = (Returned response, s) /\
    Products.status_code response
    = match contains_str "table_name" data with
      | Some false => 400
      | _ => 500
      end.
Proof.
  intros Hd. unfold Routes.create_table, wtry, get_json.
  rewrite (WebFacts.wbind_run (wret data) _ s data s eq_refl).
  destruct (contains_str "table_name" data) as [[|]|] eqn:Hin.
  - change (negb true) with false. cbv iota.
    assert (Hsub : subscript data "table_name" s = (Raised WOtherError, s)).
    { destruct data; try reflexivity. discriminate Hd. }
    unfold wbind at 1. rewrite Hsub. rewrite create_table_failure.
    eexists. split; reflexivity.
  - change (negb false) with true. cbv iota.
    match goal with
    | |- context [Products.jsonify S ?v 400 ?s0] =>
        rewrite (WebFacts.jsonify_closed S v 400 s0 eq_refl)
    end.
    eexists. split; reflexivity.
  - unfold wraise. rewrite create_table_failure. eexists. split; reflexivity.
Qed.

(** The route on a JSON object that names no table. *)
Lemma create_table_unnamed (d : dict) s :
  dict_get "table_name" d = None ->
  exists response,
    Routes.create_table S (Some (VDict d)) s = (Returned response, s) /\
    Products.status_code response = 400.
Proof.
  intros Ht. unfold Routes.create_table, wtry, get_json.
  rewrite (WebFacts.wbind_run (wret (VDict d)) _ s _ s eq_refl).
  unfold contains_str, dict_contains. rewrite Ht.
  change (negb false) with true. cbv iota.
  match goal with
  | |- context [Products.jsonify S ?v 400 ?s0] =>
      rewrite (WebFacts.jsonify_closed S v 400 s0 eq_refl)
  end.
  eexists. split; reflexivity.
Qed.

(** The route on a request without a body that can be read. *)
Lemma create_table_unread s :
  exists response,
    Routes.create_table S None s = (Returned response, s) /\
    Products.status_code response = 500.
Proof.
  unfold Routes.create_table, wtry, get_json, wbind, wraise.
  rewrite create_table_failure. eexists. split; reflexivity.
Qed.

(** The route on a JSON object that names a table: after the table is
    asked for on a new object, only the answer is left to give. *)
Lemma create_table_named (d : dict) (table : value) s ok s2 :
  dict_get "table_name" d = Some table ->
  on_new_instance S (WebDbase.create_table S table) s = (Returned ok, s2) ->
  exists response,
    Routes.create_table S (Some (VDict d)) s = (Returned response, s2) /\
    (Products.status_code response = 500
     \/ ok = true /\ Products.status_code response = 201 /\
        Products.body response
        = VDict [("status", VStr "success");
                 ("message", VStr ("Table " ++ str (runtime S) table
                                   ++ " created successfully"));
                 ("table_name", table);
                 ("schema", get_table_schema);
                 ("region", region_of d)]) /\
    (ok = false -> Products.status_code response = 500) /\
    (ok = true -> Products.json_ok S table = true ->
     Products.json_ok S (region_of d) = true -> Products.status_code response = 201).
Proof.
  intros Ht Hnew. unfold Routes.create_table, wtry, get_json.
  rewrite (WebFacts.wbind_run (wret (VDict d)) _ s _ s eq_refl).
  unfold contains_str, dict_contains, subscript, get_method. rewrite Ht.
  change (negb true) with false. cbv iota.
  rewrite (WebFacts.wbind_run (wret table) _ s _ s eq_refl).
  rewrite (WebFacts.wbind_run (wret (dict_get_default "profile_name" VNone d)) _ s _ s
             eq_refl).
  rewrite (WebFacts.wbind_run
             (wret (dict_get_default "region_name" (VStr "us-east-1") d)) _ s _ s
             eq_refl).
  fold (region_of d).
  rewrite (WebFacts.wbind_run _ _ _ _ _ Hnew).
  destruct ok.
  - match goal with
    | |- context [Products.jsonify S ?v 201 ?s0] =>
        destruct (jsonify_cases S v 201 s0) as [J|J]; rewrite J
    end.
    + eexists. split; [reflexivity|]. split; [|split].
      * right. split; [reflexivity|]. split; reflexivity.
      * discriminate.
      * reflexivity.
    + rewrite create_table_failure. eexists. split; [reflexivity|]. split; [|split].
      * left. reflexivity.
      * reflexivity.
      * intros _ Hok1 Hok2. exfalso. unfold Products.jsonify in J.
        change (Products.json_ok S
                  (VDict [("status", VStr "success");
                          ("message", VStr ("Table " ++ str (runtime S) table
                                            ++ " created successfully"));
                          ("table_name", table);
                          ("schema", get_table_schema);
                          ("region", region_of d)]))
          with (Products.json_ok S table
                && (Products.json_ok S (region_of d) && true)) in J.
        rewrite Hok1, Hok2 in J. discriminate J.
  - match goal with
    | |- context [Products.jsonify S ?v 500 s2] =>
        rewrite (WebFacts.jsonify_closed S v 500 s2 eq_refl)
    end.
    eexists. split; [reflexivity|]. split; [|split].
    + left. reflexivity.
    + reflexivity.
    + discriminate.
Qed.
End CreateTableRoute.

(** X27.  The route [create_table] never raises, does not touch the client
    of [db], and its status is 201, 400 or 500. *)
Theorem create_table_route_answers :
  forall (S : Services) (request_json : option value) (s : wstate),
    exists response s',
      Routes.create_table S request_json s = (Returned response, s') /\
      wclient s' = wclient s /\
      (Products.status_code response = 201 \/ Products.status_code response = 400
       \/ Products.status_code response = 500).
Proof.
  intros S request_json s. destruct request_json as [data|].
  - destruct (Shapes.is_mapping data) eqn:Hd.
    + destruct data as [x|n|f|b|l|d| |r c|r n|r]; try discriminate Hd.
      destruct (dict_get "table_name" d) as [table|] eqn:Ht.
      * destruct (on_new_create_returns S table s) as (ok & s2 & Hnew & Hc).
        destruct (create_table_named S d table s ok s2 Ht Hnew)
          as (response & H & Hst & _).
        exists response, s2. split; [exact H|]. split; [exact Hc|].
        destruct Hst as [Hst|(_ & Hst & _)]; [right; right | left]; exact Hst.
      * destruct (create_table_unnamed S d s Ht) as (response & H & Hst).
        exists response, s. split; [exact H|]. split; [reflexivity|].
        right; left; exact Hst.
    + destruct (create_table_no_mapping S data s Hd) as (response & H & Hst).
      exists response, s. split; [exact H|]. split; [reflexivity|].
      destruct (contains_str "table_name" data) as [[|]|];
        [right; right | right; left | right; right]; exact Hst.
  - destruct (create_table_unread S s) as (response & H & Hst).
    exists response, s. split; [exact H|]. split; [reflexivity|].
    right; right; exact Hst.
Qed.

(** X28.  The requests the route [create_table] answers before anything
    is asked of AWS.  A request whose body cannot be read gets 500.  A JSON
    object without [table_name] gets 400.  A body that is no JSON object
    gets 400 when [table_name] is not in it, as for a list without that
    member or a string without that text, and 500 when it is, or when the
    test itself fails, as for a number or [null]. *)
Theorem create_table_route_refusals :
  forall (S : Services) (s : wstate),
    (exists response,
       Routes.create_table S None s = (Returned response, s) /\
       Products.status_code response = 500) /\
    (forall d, dict_contains "table_name" d = false ->
       exists response,
         Routes.create_table S (Some (VDict d)) s = (Returned response, s) /\
         Products.status_code response = 400) /\
    (forall data, Shapes.is_mapping data = false ->
       exists response,
         Routes.create_table S (Some data) s = (Returned response, s) /\
         Products.status_code response
         = match contains_str "table_name" data with
           | Some false => 400
           | _ => 500
           end).
Proof.
  intros S s. split; [apply create_table_unread|]. split.
  - intros d Hd. apply create_table_unnamed.
    unfold dict_contains in Hd.
    destruct (dict_get "table_name" d); [discriminate Hd | reflexivity].
  - intros data. apply create_table_no_mapping.
Qed.

Lemma create_table_route_refusals_witness :
  exists response,
    Routes.create_table shop (Some (VStr "my table_name")) ready
    = (Returned response, ready) /\
    Products.status_code response = 500.
Proof.
  destruct (create_table_route_refusals shop ready) as (_ & _ & H).
  exact (H (VStr "my table_name") eq_refl).
Defined.

(** X29.  When no client can be made, a request to [create_table] that
    names a table makes two attempts to connect, the one of the new object
    and the one of its method, asks nothing about the table, and is answered
    with 500. *)
Theorem create_table_route_connects_twice :
  forall (S : Services) (d : dict) (table : value) (s : wstate),
    dict_get "table_name" d = Some table ->
    connects S (wlog s ++ [WEnter "_connect"]) = false ->
    connects S (wlog s ++ connect_events ++ [WEnter "create_table"; WEnter "_connect"])
    = false ->
    exists response,
      Routes.create_table S (Some (VDict d)) s
      = (Returned response,
         after_events s (connect_events ++ [WEnter "create_table"] ++ connect_events
                         ++ [WExit "create_table"])) /\
      Products.status_code response = 500.
Proof.
  intros S d table s Ht H1 H2.
  assert (Hnew : on_new_instance S (WebDbase.create_table S table) s
                 = (Returned false,
                    after_events s (connect_events ++ [WEnter "create_table"]
                                    ++ connect_events ++ [WExit "create_table"]))).
  { rewrite on_new_instance_closed.
    rewrite (WebFacts.dbase_create_table_without_client S table
               (connected_from S {| wclient := false; wlog := wlog s |})).
    - unfold connected_from, after_events, connect_events. cbn [fst snd wlog wclient].
      rewrite <- !app_assoc. reflexivity.
    - unfold connected_from. cbn [wlog wclient]. exact H1.
    - unfold connected_from. cbn [wlog wclient]. rewrite <- app_assoc. exact H2. }
  destruct (create_table_named S d table s false _ Ht Hnew) as (response & H & _ & Hst & _).
  exists response. split; [exact H | apply Hst; reflexivity].
Qed.

Lemma create_table_route_connects_twice_witness :
  exists response,
    Routes.create_table offline (Some (VDict [("table_name", VStr "Products")])) fresh
    = (Returned response,
       {| wclient := false;
          wlog := [WEnter "_connect"; WConnect; WExit "_connect"; WEnter "create_table";
                   WEnter "_connect"; WConnect; WExit "_connect";
                   WExit "create_table"] |}) /\
    Products.status_code response = 500.
Proof.
  exact (create_table_route_connects_twice offline [("table_name", VStr "Products")]
           (VStr "Products") fresh eq_refl eq_refl eq_refl).
Defined.

(** X30.  When the new object gets a client, a request to [create_table]
    that names a table (the name and the region being such as JSON gives)
    is answered with 201 only for a table that was there already: then the
    body holds the name, the schema and the region, [us-east-1] when the
    request names none.  When the call that creates the table returns, and
    on any other failure, the answer is 500; no wait is made. *)
Theorem create_table_route_with_client :
  forall (S : Services) (d : dict) (table : value) (s : wstate),
    dict_get "table_name" d = Some table ->
    connects S (wlog s ++ [WEnter "_connect"]) = true ->
    Products.json_ok S table = true ->
    Products.json_ok S (region_of d) = true ->
    let first :=
      create_table_answer S (wlog s ++ connect_events ++ [WEnter "create_table"]) table in
    exists response,
      Routes.create_table S (Some (VDict d)) s
      = (Returned response,
         after_events s
           (connect_events
            ++ [WEnter "create_table"; WCreateTable table; WExit "create_table"])) /\
      Products.status_code response = (if create_table_result first then 201 else 500) /\
      (first = Gives tt -> Products.status_code response = 500) /\
      (create_table_result first = true ->
       exists fields,
         Products.body response = VDict fields /\
         dict_get "table_name" fields = Some table /\
         dict_get "schema" fields = Some get_table_schema /\
         dict_get "region" fields = Some (region_of d)).
Proof.
  intros S d table s Ht H1 Hok1 Hok2 first.
  assert (Hnew : on_new_instance S (WebDbase.create_table S table) s
                 = (Returned (create_table_result first),
                    after_events s
                      (connect_events
                       ++ [WEnter "create_table"; WCreateTable table;
                           WExit "create_table"]))).
  { rewrite on_new_instance_closed.
    rewrite (WebFacts.dbase_create_table_with_client S table
               (connected_from S {| wclient := false; wlog := wlog s |})).
    - unfold connected_from, after_events, connect_events. cbn [fst snd wlog wclient].
      subst first. unfold connect_events.
      rewrite <- !app_assoc. reflexivity.
    - unfold connected_from. cbn [wlog wclient]. exact H1. }
  destruct (create_table_named S d table s (create_table_result first) _ Ht Hnew)
    as (response & H & Hst & Hno & Hyes).
  assert (Hstatus : Products.status_code response
                    = (if create_table_result first then 201 else 500)).
  { destruct (create_table_result first);
      [apply Hyes; [reflexivity | exact Hok1 | exact Hok2] | apply Hno; reflexivity]. }
  exists response. split; [exact H|]. split; [exact Hstatus|]. split.
  - intros Hg. rewrite Hstatus, Hg. reflexivity.
  - intros Hc. destruct Hst as [Hst|(_ & _ & Hbody)].
    + rewrite (Hyes Hc Hok1 Hok2) in Hst. discriminate Hst.
    + eexists. split; [exact Hbody|]. split; [reflexivity|]. split; reflexivity.
Qed.

Lemma create_table_route_with_client_witness :
  (exists response,
     Routes.create_table shop (Some (VDict [("table_name", VStr "Products")])) fresh
     = (Returned response,
        {| wclient := false;
           wlog := [WEnter "_connect"; WConnect; WExit "_connect"; WEnter "create_table";
                    WCreateTable (VStr "Products"); WExit "create_table"] |}) /\
     Products.status_code response = 201) /\
  (exists response,
     Routes.create_table new_account (Some (VDict [("table_name", VStr "Products")]))
       fresh
     = (Returned response,
        {| wclient := false;
           wlog := [WEnter "_connect"; WConnect; WExit "_connect"; WEnter "create_table";
                    WCreateTable (VStr "Products"); WExit "create_table"] |}) /\
     Products.status_code response = 500).
Proof.
  split.
  - destruct (create_table_route_with_client shop [("table_name", VStr "Products")]
                (VStr "Products") fresh eq_refl eq_refl eq_refl eq_refl)
      as (response & H & Hst & _).
    exists response. split; [exact H | exact Hst].
  - destruct (create_table_route_with_client new_account
                [("table_name", VStr "Products")]
                (VStr "Products") fresh eq_refl eq_refl eq_refl eq_refl)
      as (response & H & _ & Hst & _).
    exists response. split; [exact H | exact (Hst eq_refl)].
Defined.

End RouteFacts.
